(** * Seat booking: a model of the booking service and its validators

    Shallow embedding of [movies/models.py], [movies/services.py],
    [movies/serializers.py], [movies/views.py] and [common/utils.py].

    Python [str] values are modelled by [string].  The character classes
    ([isalpha], [isdigit], [isspace]) and [upper] are those of Python on
    code points below 128; statements that depend on character classes
    are made for [isascii] strings.

    The framework's part ([Model.full_clean], [Model.save], query sets)
    is modelled on a database of two tables; calls run one after the
    other, each with its own reading [now] of the clock. *)

From Stdlib Require Import List String Ascii ZArith NArith Arith Bool Lia.
From Stdlib Require Import DecimalString Relations.
From Stdlib Require DecimalPos DecimalZ.
Import ListNotations.

Local Open Scope string_scope.
Local Open Scope nat_scope.

(** ** Python strings *)

Module PyStr.

Definition code (c : ascii) : N := N_of_ascii c.

Definition between (lo hi : N) (c : ascii) : bool :=
  ((lo <=? code c) && (code c <=? hi))%N.

(** [str.isascii] *)
Definition isascii_char (c : ascii) : bool := (code c <? 128)%N.

Fixpoint isascii (s : string) : bool :=
  match s with
  | EmptyString => true
  | String c r => isascii_char c && isascii r
  end.

(** Whitespace of [str.isspace] and [str.strip]: TAB, LF, VT, FF, CR,
    FS, GS, RS, US and the space. *)
Definition isspace_char (c : ascii) : bool :=
  between 9 13 c || between 28 32 c.

Definition isupper_char (c : ascii) : bool := between 65 90 c.
Definition islower_char (c : ascii) : bool := between 97 122 c.
Definition isalpha_char (c : ascii) : bool := isupper_char c || islower_char c.
Definition isdigit_char (c : ascii) : bool := between 48 57 c.

Definition upper_char (c : ascii) : ascii :=
  if islower_char c then ascii_of_N (code c - 32) else c.

(** [s.upper()] *)
Fixpoint upper (s : string) : string :=
  match s with
  | EmptyString => EmptyString
  | String c r => String (upper_char c) (upper r)
  end.

(** [not s] *)
Definition is_empty (s : string) : bool :=
  match s with
  | EmptyString => true
  | String _ _ => false
  end.

Fixpoint lstrip (s : string) : string :=
  match s with
  | EmptyString => EmptyString
  | String c r => if isspace_char c then lstrip r else s
  end.

Fixpoint rstrip (s : string) : string :=
  match s with
  | EmptyString => EmptyString
  | String c r =>
      let r' := rstrip r in
      if isspace_char c && is_empty r' then EmptyString else String c r'
  end.

(** [s.strip()] *)
Definition strip (s : string) : string := rstrip (lstrip s).

Fixpoint all_chars (p : ascii -> bool) (s : string) : bool :=
  match s with
  | EmptyString => true
  | String c r => p c && all_chars p r
  end.

(** [s.isdigit()] and [s.isalpha()]: false on the empty string. *)
Definition isdigit (s : string) : bool := negb (is_empty s) && all_chars isdigit_char s.
Definition isalpha (s : string) : bool := negb (is_empty s) && all_chars isalpha_char s.

Definition digit_value (c : ascii) : Z := Z.of_N (code c) - 48.

Fixpoint decimal (acc : Z) (s : string) : Z :=
  match s with
  | EmptyString => acc
  | String c r => decimal (10 * acc + digit_value c) r
  end.

(** The digits of [int(s)]: decimal digits, with single underscores
    allowed between two of them. *)
Fixpoint digits (acc : Z) (after_digit : bool) (s : string) : option Z :=
  match s with
  | EmptyString => if after_digit then Some acc else None
  | String c r =>
      if isdigit_char c then digits (10 * acc + digit_value c) true r
      else if Ascii.eqb c "_" && after_digit then digits acc false r
      else None
  end.

(** White space of [int()]: TAB, LF, VT, FF, CR and the space.  The
    separators FS, GS, RS and US, which [str.strip] drops, are none. *)
Definition isspace_int_char (c : ascii) : bool :=
  between 9 13 c || Ascii.eqb c " ".

Fixpoint lstrip_int (s : string) : string :=
  match s with
  | EmptyString => EmptyString
  | String c r => if isspace_int_char c then lstrip_int r else s
  end.

Fixpoint rstrip_int (s : string) : string :=
  match s with
  | EmptyString => EmptyString
  | String c r =>
      let r' := rstrip_int r in
      if isspace_int_char c && is_empty r' then EmptyString else String c r'
  end.

(** The number of digits of a text. *)
Fixpoint count_digits (s : string) : Z :=
  match s with
  | EmptyString => 0
  | String c r => (if isdigit_char c then 1 else 0) + count_digits r
  end.

(** [sys.int_info.default_max_str_digits]: a text with more digits is
    not converted, leading zeros counted. *)
Definition max_str_digits : Z := 4300.

Definition int_digits (t : string) : option Z :=
  if (max_str_digits <? count_digits t)%Z then None else digits 0 false t.

(** [int(s)]: white space around the text is dropped, a sign may come
    first; [None] stands for [ValueError]. *)
Definition int (s : string) : option Z :=
  match rstrip_int (lstrip_int s) with
  | String "+" r => int_digits r
  | String "-" r => option_map Z.opp (int_digits r)
  | t => int_digits t
  end.

(** [c1 < c2] on one-character strings *)
Definition char_ltb (c1 c2 : ascii) : bool := (code c1 <? code c2)%N.

(** [str(n)] of an integer *)
Definition str (n : Z) : string := NilZero.string_of_int (Z.to_int n).

(** [chr(ord('A') + i)]; the model has the characters up to code 255,
    so it follows Python for [i <= 190]. *)
Definition chr_from_A (i : nat) : ascii := ascii_of_nat (65 + i).

(** A [dict] with [str] keys, in insertion order.  [d[k] = v] replaces
    the value of a key that is present and adds the key at the end
    otherwise. *)
Fixpoint dict_set {V : Type} (d : list (string * V)) (k : string) (v : V)
    : list (string * V) :=
  match d with
  | [] => [(k, v)]
  | (k', v') :: d' =>
      if String.eqb k' k then (k', v) :: d' else (k', v') :: dict_set d' k v
  end.

End PyStr.

(** ** common/utils.py *)

Module Utils.
Import PyStr.

Definition validate_seat_number_format (seat_number : string) : bool :=
  if is_empty seat_number then false else
  let seat_number := upper (strip seat_number) in
  if (String.length seat_number <? 2)%nat then false else
  match seat_number with
  | EmptyString => false
  | String c0 rest =>
      if negb (isalpha_char c0) then false else
      if negb (isdigit rest) then false else
      if char_ltb c0 "A" || char_ltb "Z" c0 then false else
      match int rest with
      | Some seat_num =>
          if (seat_num <? 1)%Z || (seat_num >? 99)%Z then false else true
      | None => false
      end
  end.

Definition normalize_seat_number (seat_number : string) : string :=
  if is_empty seat_number then "" else upper (strip seat_number).

(** [is_show_bookable], with the reading of [timezone.now()] as [now] *)
Definition is_show_bookable (now show_datetime : Z) : bool :=
  (show_datetime >? now)%Z.

(** [get_show_status]; [timedelta(hours=3)] is 10800 seconds. *)
Definition get_show_status (now show_datetime : Z) : string :=
  if (show_datetime >? now)%Z then "upcoming"
  else if (show_datetime <=? now)%Z && (now <? show_datetime + 10800)%Z then "ongoing"
  else "past".

(** [format_duration]; [//] and [%] round towards minus infinity, as
    [Z.div] and [Z.modulo] do. *)
Definition format_duration (minutes : Z) : string :=
  if (minutes <? 60)%Z then str minutes ++ "min"
  else
    let hours := (minutes / 60)%Z in
    let remaining_minutes := (minutes mod 60)%Z in
    if (remaining_minutes =? 0)%Z then str hours ++ "h"
    else str hours ++ "h " ++ str remaining_minutes ++ "min".

(** What [get_seat_row_and_number] does: it returns [(row, number)] or
    [(None, None)], or an exception escapes ([IndexError] from
    [normalized[0]], [ValueError] from [int]). *)
Inductive RowAndNumber : Type :=
| row_and_number (row : string) (number : Z)
| none_none
| escapes.

Definition get_seat_row_and_number (seat_number : string) : RowAndNumber :=
  if negb (validate_seat_number_format seat_number) then none_none
  else
    let normalized := normalize_seat_number seat_number in
    match normalized with
    | EmptyString => escapes
    | String row rest =>
        match int rest with
        | Some number => row_and_number (String row EmptyString) number
        | None => escapes
        end
    end.

(** An entry of the seat map: [{'available': ..., 'seat_number': ...}] *)
Record SeatEntry : Type := mkSeatEntry {
  available : bool;
  seat_number : string
}.

(** The inner loop of [generate_seat_map] over the seat numbers still to
    visit; it gives back the row and the seat count. *)
Fixpoint row_loop (seat_nums : list Z) (row_letter : ascii) (total_seats : Z)
    (booked_seats : list string) (seat_count : Z)
    (row_seats : list (string * SeatEntry)) : list (string * SeatEntry) * Z :=
  match seat_nums with
  | [] => (row_seats, seat_count)
  | seat_num :: rest =>
      if (seat_count >=? total_seats)%Z then (row_seats, seat_count)
      else
        let seat_number := String row_letter (str seat_num) in
        let entry := mkSeatEntry (negb (existsb (String.eqb seat_number) booked_seats))
                                 seat_number in
        row_loop rest row_letter total_seats booked_seats (seat_count + 1)%Z
                 (dict_set row_seats seat_number entry)
  end.

(** The outer loop of [generate_seat_map] over the row indices still to
    visit. *)
Fixpoint rows_loop (row_idxs : list nat) (total_seats : Z) (booked_seats : list string)
    (seat_count : Z) (seat_map : list (string * list (string * SeatEntry)))
    : list (string * list (string * SeatEntry)) :=
  match row_idxs with
  | [] => seat_map
  | row_idx :: rest =>
      let row_letter := chr_from_A row_idx in
      let '(row_seats, seat_count) :=
        row_loop [1; 2; 3; 4; 5; 6; 7; 8; 9; 10]%Z row_letter total_seats booked_seats
                 seat_count [] in
      let seat_map :=
        match row_seats with
        | [] => seat_map
        | _ :: _ => dict_set seat_map (String row_letter EmptyString) row_seats
        end in
      if (seat_count >=? total_seats)%Z then seat_map
      else rows_loop rest total_seats booked_seats seat_count seat_map
  end.

(** [generate_seat_map(total_seats, booked_seats=None)] *)
Definition generate_seat_map (total_seats : Z) (booked_seats : option (list string))
    : list (string * list (string * SeatEntry)) :=
  let booked_seats := match booked_seats with Some l => l | None => [] end in
  (* Simple seat map: assume 10 seats per row *)
  let seats_per_row := 10%Z in
  let rows_needed :=
    (total_seats / seats_per_row
     + (if total_seats mod seats_per_row >? 0 then 1 else 0))%Z in
  rows_loop (seq 0 (Z.to_nat rows_needed)) total_seats booked_seats 0%Z [].

End Utils.

(** ** common/exceptions.py and the outcome of a call *)

(** [BookingError], one constructor per message the services raise it
    with. *)
Inductive BookingError : Type :=
| PastShowBooking                    (* "Cannot book seats for past shows." *)
| ShowFullyBooked                    (* "This show is fully booked." *)
| SeatAlreadyBooked (seat : string)  (* f"Seat {seat_number} is already booked." *)
| InvalidBookingData                 (* f"Invalid booking data: {e}" *)
| FailedToCreate                     (* f"Failed to create booking: {str(e)}" *)
| AlreadyCancelled                   (* "Booking is already cancelled." *)
| PastShowCancel                     (* "Cannot cancel booking for past shows." *)
| FailedToCancel                     (* f"Failed to cancel booking: {str(e)}" *)
| SeatEmpty                          (* "Seat number cannot be empty." *)
| SeatBadFormat                      (* "Invalid seat number format. Use format like A1, B2, etc." *)
| SeatBadRow                         (* "Invalid seat row. Must be A-Z." *)
| SeatOutOfRange                     (* "Invalid seat number. Must be 1-99." *)
| SeatBadNumber.                     (* "Invalid seat number format." *)

Inductive Result (A : Type) : Type :=
| Ok (a : A)
| Raise (e : BookingError).

Arguments Ok {A} a.
Arguments Raise {A} e.

(** ** movies/models.py *)

Module Models.
Import PyStr.

(** [Show]: primary key, [date_time] (a point in time, in seconds) and
    [total_seats] (a [PositiveIntegerField]).  The movie, the screen name
    and the price play no part in booking. *)
Record Show : Type := mkShow {
  show_id : nat;
  date_time : Z;
  total_seats : nat
}.

Inductive Status : Type := booked | cancelled.

Definition status_eqb (s1 s2 : Status) : bool :=
  match s1, s2 with
  | booked, booked | cancelled, cancelled => true
  | _, _ => false
  end.

(** [Booking]: [id] is [None] until the object is saved; [user] and
    [show] hold the primary keys of the rows they refer to.  The
    timestamps [created_at] and [updated_at] are maintained by the
    framework and read by no check. *)
Record Booking : Type := mkBooking {
  id : option nat;
  user : nat;
  show : nat;
  seat_number : string;
  status : Status;
  booking_reference : string
}.

(** The database: the [Show] table and the [Booking] table (newest row
    first, as [ordering = ['-created_at']] lists them). *)
Record DB : Type := mkDB {
  shows : list Show;
  bookings : list Booking
}.

Definition set_status (b : Booking) (s : Status) : Booking :=
  mkBooking (id b) (user b) (show b) (seat_number b) s (booking_reference b).

Definition set_booking_reference (b : Booking) (r : string) : Booking :=
  mkBooking (id b) (user b) (show b) (seat_number b) (status b) r.

Definition set_id (b : Booking) (n : nat) : Booking :=
  mkBooking (Some n) (user b) (show b) (seat_number b) (status b) (booking_reference b).

Definition set_bookings (db : DB) (l : list Booking) : DB :=
  mkDB (shows db) l.

(** [get_object_or_404(Show, id=show_id)] *)
Definition get_show (db : DB) (sid : nat) : option Show :=
  find (fun s => show_id s =? sid) (shows db).

Definition has_id (n : nat) (r : Booking) : bool :=
  match id r with
  | Some m => m =? n
  | None => false
  end.

(** [get_object_or_404(Booking, id=booking_id)] *)
Definition get_booking (db : DB) (bid : nat) : option Booking :=
  find (has_id bid) (bookings db).

(** [.filter(show=..., status='booked')] *)
Definition booked_in (sid : nat) (r : Booking) : bool :=
  (show r =? sid) && status_eqb (status r) booked.

(** [.filter(show=..., seat_number=..., status='booked')] *)
Definition booked_at (sid : nat) (seat : string) (r : Booking) : bool :=
  (show r =? sid) && String.eqb (seat_number r) seat && status_eqb (status r) booked.

(** [Show.available_seats] *)
Definition available_seats (db : DB) (sh : Show) : Z :=
  let booked_count := List.length (filter (booked_in (show_id sh)) (bookings db)) in
  (Z.of_nat (total_seats sh) - Z.of_nat booked_count)%Z.

(** [Show.is_fully_booked] *)
Definition is_fully_booked (db : DB) (sh : Show) : bool :=
  (available_seats db sh <=? 0)%Z.

(** [Show.get_booked_seat_numbers] *)
Definition get_booked_seat_numbers (db : DB) (sh : Show) : list string :=
  map seat_number (filter (booked_in (show_id sh)) (bookings db)).

(** [.exclude(id=self.id)]: with [self.id] unset nothing is excluded. *)
Definition not_self (b r : Booking) : bool :=
  match id b with
  | Some n => negb (has_id n r)
  | None => true
  end.

(** [Model.clean_fields] for [Booking]: [seat_number] is a non-blank
    [CharField(max_length=10)], [booking_reference] a
    [CharField(max_length=20, blank=True)], [show] a foreign key whose
    row must exist.  [status] is one of its two choices by type, and
    user ids refer to existing users. *)
Definition clean_fields (db : DB) (b : Booking) : bool :=
  negb (is_empty (seat_number b))
  && (String.length (seat_number b) <=? 10)
  && (String.length (booking_reference b) <=? 20)
  && existsb (fun s => show_id s =? show b) (shows db).

(** [Booking.clean]; [true] when no [ValidationError] is raised. *)
Definition clean (db : DB) (b : Booking) : bool :=
  (if negb (is_empty (seat_number b)) then
     (* Check for double booking *)
     negb (existsb (fun r => booked_at (show b) (seat_number b) r && not_self b r)
                   (bookings db))
   else true)
  && negb (negb (is_empty (seat_number b)) && is_empty (strip (seat_number b))).

Definition same_key (b r : Booking) : bool :=
  (show r =? show b) && String.eqb (seat_number r) (seat_number b)
  && status_eqb (status r) (status b).

(** [Model.validate_unique] for [Booking]: [booking_reference] is
    [unique=True] and [unique_together = ['show', 'seat_number',
    'status']]; the object's own row is left out of both look-ups. *)
Definition validate_unique (db : DB) (b : Booking) : bool :=
  negb (existsb (fun r => String.eqb (booking_reference r) (booking_reference b)
                          && not_self b r) (bookings db))
  && negb (existsb (fun r => same_key b r && not_self b r) (bookings db)).

(** [Model.full_clean]: a [ValidationError] is raised when any of the
    three stages reports an error. *)
Definition full_clean (db : DB) (b : Booking) : bool :=
  clean_fields db b && clean db b && validate_unique db b.

(** The primary key the database gives to a new row. *)
Definition next_id (db : DB) : nat :=
  S (list_max (map (fun r => match id r with Some n => n | None => 0 end) (bookings db))).

(** [super().save()]: an object without primary key is inserted under a
    new one; otherwise its row is updated, and inserted when there is no
    such row. *)
Definition write (db : DB) (b : Booking) : DB * Booking :=
  match id b with
  | None =>
      let b' := set_id b (next_id db) in
      (set_bookings db (b' :: bookings db), b')
  | Some n =>
      if existsb (has_id n) (bookings db)
      then (set_bookings db (map (fun r => if has_id n r then b else r) (bookings db)), b)
      else (set_bookings db (b :: bookings db), b)
  end.

(** [Booking.save]; [uuid] stands for [str(uuid.uuid4())[:8].upper()].
    The object comes back as the call leaves it; the flag is [false]
    when [full_clean] raised [ValidationError], and then nothing was
    written. *)
Definition save (db : DB) (b : Booking) (uuid : string) : DB * Booking * bool :=
  let b := if is_empty (booking_reference b)
           then set_booking_reference b uuid else b in
  if full_clean db b
  then let '(db', b') := write db b in (db', b', true)
  else (db, b, false).

(** [Booking.cancel]; the flag is [false] when [ValidationError] was
    raised. *)
Definition cancel (db : DB) (b : Booking) (uuid : string) : DB * Booking * bool :=
  if status_eqb (status b) cancelled then (db, b, false)
  else save db (set_status b cancelled) uuid.

(** [Booking.can_be_cancelled], given the show the booking refers to *)
Definition can_be_cancelled (now : Z) (sh : Show) (b : Booking) : bool :=
  (date_time sh >? now)%Z && status_eqb (status b) booked.

End Models.

(** ** movies/services.py *)

Module BookingService.
Import PyStr Models.

(** [create_booking]; [now] is the reading of [timezone.now()] and
    [uuid] the reference drawn by [Booking.save].  The call runs in a
    transaction: when it raises, the database is as before. *)
Definition create_booking (now : Z) (db : DB) (user : nat) (show : Show)
    (seat_number uuid : string) : DB * Result Booking :=
  (* Validate show timing *)
  if (date_time show <=? now)%Z then (db, Raise PastShowBooking)
  (* Check if show is fully booked *)
  else if is_fully_booked db show then (db, Raise ShowFullyBooked)
  (* Check for existing booking *)
  else if existsb (booked_at (show_id show) (upper seat_number)) (bookings db)
  then (db, Raise (SeatAlreadyBooked seat_number))
  else
    (* Create the booking *)
    let booking := mkBooking None user (show_id show) (upper seat_number) booked "" in
    (* Validate the booking *)
    if full_clean db booking then
      match save db booking uuid with
      | (db', booking', true) => (db', Ok booking')
      | (_, _, false) => (db, Raise InvalidBookingData)
      end
    else (db, Raise InvalidBookingData).

(** [cancel_booking]; the booking object is returned as the call leaves
    it, next to the database and the outcome.  A booking whose show row
    is missing makes [can_be_cancelled] raise, which the last handler
    turns into [FailedToCancel]. *)
Definition cancel_booking (now : Z) (db : DB) (booking : Booking) (uuid : string)
    : DB * Booking * Result Booking :=
  if status_eqb (status booking) cancelled
  then (db, booking, Raise AlreadyCancelled)
  else
    match get_show db (show booking) with
    | None => (db, booking, Raise FailedToCancel)
    | Some sh =>
        if negb (can_be_cancelled now sh booking)
        then (db, booking, Raise PastShowCancel)
        else
          match cancel db booking uuid with
          | (db', booking', true) => (db', booking', Ok booking')
          | (_, booking', false) => (db, booking', Raise FailedToCancel)
          end
    end.

(** [validate_seat_number(seat_number, show=None)] *)
Definition validate_seat_number (db : DB) (seat_number : string) (show : option Show)
    : Result string :=
  if is_empty seat_number || is_empty (strip seat_number) then Raise SeatEmpty else
  let seat_number := upper (strip seat_number) in
  (* Basic format validation (A1, B2, etc.) *)
  match seat_number with
  | EmptyString => Raise SeatBadFormat
  | String seat_row rest =>
      if negb ((2 <=? String.length seat_number) && isalpha_char seat_row && isdigit rest)
      then Raise SeatBadFormat
      (* Row validation (A-Z) *)
      else if char_ltb seat_row "A" || char_ltb "Z" seat_row then Raise SeatBadRow
      else
        (* Number validation (1-99) *)
        match int rest with
        | None => Raise SeatBadNumber
        | Some seat_num =>
            if (seat_num <? 1)%Z || (seat_num >? 99)%Z then Raise SeatOutOfRange
            else
              (* If show is provided, check availability *)
              match show with
              | Some sh =>
                  if existsb (String.eqb seat_number) (get_booked_seat_numbers db sh)
                  then Raise (SeatAlreadyBooked seat_number)
                  else Ok seat_number
              | None => Ok seat_number
              end
        end
  end.

(** The dictionary [get_seat_availability] returns *)
Record Availability : Type := mkAvailability {
  av_total_seats : nat;
  av_available_seats : Z;
  av_booked_seats : list string;
  av_is_fully_booked : bool
}.

(** [get_seat_availability] *)
Definition get_seat_availability (db : DB) (show : Show) : Availability :=
  let booked_seats := get_booked_seat_numbers db show in
  let total_seats := total_seats show in
  let available_seats := available_seats db show in
  mkAvailability total_seats available_seats booked_seats (is_fully_booked db show).

End BookingService.

(** ** movies/serializers.py *)

Module Serializers.
Import PyStr Models.

Inductive SerializerError : Type :=
| ShowRequired         (* "Show is required." *)
| PastShow             (* "Cannot book seats for past shows." *)
| SeatBooked (seat : string)  (* f"Seat {seat_number} is already booked." *)
| FullyBooked          (* "This show is fully booked." *)
| BadRow               (* "Invalid seat row. Must be A-Z." *)
| BadNumber            (* "Invalid seat number. Must be 1-99." *)
| CancelledAlready     (* "Booking is already cancelled." *)
| CancelPastShow.      (* "Cannot cancel booking for past shows." *)

(** Outcome of a [validate] method: the data are valid, a
    [serializers.ValidationError] is raised, or another exception
    escapes ([IndexError], [ValueError], [DoesNotExist]). *)
Inductive Validation : Type :=
| Valid
| Invalid (e : SerializerError)
| Uncaught.

(** [BookingCreateSerializer.validate] *)
Definition create_validate (now : Z) (db : DB) (show : option Show)
    (seat_number : string) : Validation :=
  match show with
  | None => Invalid ShowRequired
  | Some show =>
      (* Check if show time has passed *)
      if (date_time show <=? now)%Z then Invalid PastShow
      (* Check if seat is already booked *)
      else if existsb (booked_at (show_id show) seat_number) (bookings db)
      then Invalid (SeatBooked seat_number)
      (* Check if show is fully booked *)
      else if is_fully_booked db show then Invalid FullyBooked
      else
        (* Basic seat range validation (assuming seats are A1-Z99) *)
        match seat_number with
        | EmptyString => Uncaught
        | String seat_row rest =>
            match int rest with
            | None => Uncaught
            | Some seat_num =>
                if char_ltb seat_row "A" || char_ltb "Z" seat_row then Invalid BadRow
                else if (seat_num <? 1)%Z || (seat_num >? 99)%Z then Invalid BadNumber
                else Valid
            end
        end
  end.

(** [BookingCancelSerializer.validate] on an existing booking *)
Definition cancel_validate (now : Z) (db : DB) (booking : Booking) : Validation :=
  if status_eqb (status booking) cancelled then Invalid CancelledAlready
  else
    match get_show db (show booking) with
    | None => Uncaught
    | Some sh =>
        if negb (can_be_cancelled now sh booking) then Invalid CancelPastShow
        else Valid
    end.

(** [BookingCreateSerializer.validate_seat_number]; [None] stands for
    [serializers.ValidationError]. *)
Definition validate_seat_number (value : string) : option string :=
  if is_empty value || is_empty (strip value) then None
  (* Basic seat number format validation (A1, B2, etc.) *)
  else
    match value with
    | EmptyString => None
    | String c0 rest =>
        if negb ((2 <=? String.length value) && isalpha_char c0 && isdigit rest)
        then None
        else Some (upper (strip value))
    end.

(** [BookingCreateSerializer.is_valid] on the request data, whose
    [seat_number] entry may be missing.  The field is the serializer
    framework's [CharField(max_length=10)]: required, not blank, with
    white space trimmed before anything else looks at the value.  Then
    come [validate_seat_number] and [validate].  The outcome is the
    validated seat number, a list of errors, or an exception that
    [validate] lets escape. *)
Inductive IsValid : Type :=
| validated (seat_number : string)
| errors
| exception_escapes.

Definition is_valid (now : Z) (db : DB) (show : Show) (data : option string) : IsValid :=
  match data with
  | None => errors
  | Some raw =>
      let value := strip raw in
      if is_empty value then errors
      else if negb (String.length value <=? 10) then errors
      else
        match validate_seat_number value with
        | None => errors
        | Some seat_number =>
            match create_validate now db (Some show) seat_number with
            | Valid => validated seat_number
            | Invalid _ => errors
            | Uncaught => exception_escapes
            end
        end
  end.

End Serializers.

(** ** movies/views.py *)

Module Views.
Import Models Serializers.

Inductive Details : Type :=
| SerializerErrors (e : SerializerError)
| ServiceError (e : BookingError).

Inductive Response : Type :=
| HTTP_200_OK (booking : Booking)
| HTTP_400_BAD_REQUEST (details : Details)
| HTTP_403_FORBIDDEN
| HTTP_404_NOT_FOUND
| HTTP_500_INTERNAL_SERVER_ERROR.

(** The [cancel_booking] view, called by the authenticated user
    [request_user].  The serializer reads the clock at [now], the
    service after it at [now']. *)
Definition cancel_booking (now now' : Z) (db : DB) (request_user booking_id : nat)
    (uuid : string) : DB * Response :=
  match get_booking db booking_id with
  | None => (db, HTTP_404_NOT_FOUND)
  | Some booking =>
      (* Check if user owns this booking *)
      if negb (user booking =? request_user) then (db, HTTP_403_FORBIDDEN)
      else
        match cancel_validate now db booking with
        | Uncaught => (db, HTTP_500_INTERNAL_SERVER_ERROR)
        | Invalid e => (db, HTTP_400_BAD_REQUEST (SerializerErrors e))
        | Valid =>
            match BookingService.cancel_booking now' db booking uuid with
            | (db', _, Ok booking') => (db', HTTP_200_OK booking')
            | (db', _, Raise e) => (db', HTTP_400_BAD_REQUEST (ServiceError e))
            end
        end
  end.

(** What the [book_seat] view answers *)
Inductive BookResponse : Type :=
| Created (booking : Booking)                    (* 201, 'Seat booked successfully' *)
| InvalidBookingData_400                         (* 400, 'Invalid booking data' *)
| BookingFailed_400 (e : BookingError)           (* 400, 'Booking failed' *)
| ShowNotFound_404
| ServerError_500.

(** The [book_seat] view, called by the authenticated user
    [request_user] with the [seat_number] entry of the request data.
    The serializer reads the clock at [now], the service after it at
    [now']. *)
Definition book_seat (now now' : Z) (db : DB) (request_user show_id : nat)
    (data : option string) (uuid : string) : DB * BookResponse :=
  match get_show db show_id with
  | None => (db, ShowNotFound_404)
  | Some show =>
      match is_valid now db show data with
      | exception_escapes => (db, ServerError_500)
      | errors => (db, InvalidBookingData_400)
      | validated seat_number =>
          match BookingService.create_booking now' db request_user show seat_number uuid with
          | (db', Ok booking) => (db', Created booking)
          | (db', Raise e) => (db', BookingFailed_400 e)
          end
      end
  end.

(** The [my_bookings] view: the bookings listed for [request_user],
    given the [status] query parameter if there is one. *)
Definition my_bookings (db : DB) (request_user : nat) (status_filter : option string)
    : list Booking :=
  let bookings := filter (fun b => user b =? request_user) (bookings db) in
  (* Filter by status if provided *)
  match status_filter with
  | Some "booked" => filter (fun b => status_eqb (status b) booked) bookings
  | Some "cancelled" => filter (fun b => status_eqb (status b) cancelled) bookings
  | _ => bookings
  end.

End Views.

(** ** Reachable databases *)

Import PyStr Models.

(** The databases the service produces: it starts with shows and no
    booking; a booking is made for a show fetched by its key, and a
    cancellation is applied to a booking fetched by its key. *)
Inductive reachable : DB -> Prop :=
| reach_init (shows : list Show) : reachable (mkDB shows [])
| reach_book (db : DB) (now : Z) (user sid : nat) (sh : Show) (seat uuid : string) :
    reachable db ->
    get_show db sid = Some sh ->
    reachable (fst (BookingService.create_booking now db user sh seat uuid))
| reach_cancel (db : DB) (now : Z) (bid : nat) (b : Booking) (uuid : string) :
    reachable db ->
    get_booking db bid = Some b ->
    reachable (fst (fst (BookingService.cancel_booking now db b uuid))).

(** One call of the service on a database. *)
Inductive step : DB -> DB -> Prop :=
| step_book (db : DB) (now : Z) (user sid : nat) (sh : Show) (seat uuid : string) :
    get_show db sid = Some sh ->
    step db (fst (BookingService.create_booking now db user sh seat uuid))
| step_cancel (db : DB) (now : Z) (bid : nat) (b : Booking) (uuid : string) :
    get_booking db bid = Some b ->
    step db (fst (fst (BookingService.cancel_booking now db b uuid))).

(** Any number of calls, one after the other. *)
Definition steps : DB -> DB -> Prop := clos_refl_trans DB step.

(** A booking row as the audit trail sees it: [r'] is the row [r] at a
    later time, with the same key, owner, show and seat, and cancelled
    if [r] was. *)
Definition same_booking (r r' : Booking) : Prop :=
  id r' = id r /\ user r' = user r /\ show r' = show r
  /\ Models.seat_number r' = Models.seat_number r
  /\ (status r = cancelled -> status r' = cancelled).

(** Number of [Active] bookings of a seat, and of a show. *)
Definition active_at (db : DB) (sid : nat) (seat : string) : nat :=
  List.length (filter (booked_at sid seat) (bookings db)).

Definition active_in (db : DB) (sid : nat) : nat :=
  List.length (filter (booked_in sid) (bookings db)).

Definition at_most_one_active (db : DB) : Prop :=
  forall sid seat, active_at db sid seat <= 1.

Definition within_capacity (db : DB) : Prop :=
  forall sh, get_show db (show_id sh) = Some sh -> active_in db (show_id sh) <= total_seats sh.

(** Number of [Cancelled] bookings of a seat. *)
Definition cancelled_at (db : DB) (sid : nat) (seat : string) : nat :=
  List.length
    (filter (fun r => (show r =? sid) && String.eqb (seat_number r) seat
                      && status_eqb (status r) cancelled)
            (bookings db)).

(** The columns of [unique_together], and the constraint itself: no two
    rows agree on all three. *)
Definition key (r : Booking) : nat * string * Status :=
  (show r, seat_number r, status r).

Definition unique_together (db : DB) : Prop :=
  NoDup (map key (bookings db)).

(** Every stored seat identifier is in upper case. *)
Definition seats_upper (db : DB) : Prop :=
  Forall (fun r => upper (seat_number r) = seat_number r) (bookings db).

(** Primary keys are not shared. *)
Definition ids_unique (db : DB) : Prop := NoDup (map id (bookings db)).

(** The errors [validate_seat_number] raises about the text of a seat. *)
Definition seat_errors : list BookingError :=
  [SeatEmpty; SeatBadFormat; SeatBadRow; SeatOutOfRange; SeatBadNumber].

(** What [create_booking] needs of its data once the timing, capacity
    and seat checks have passed, for both [full_clean] runs to pass: a
    seat text that is not blank and has at most ten characters, the show
    row, no row with an empty reference, and a new reference of at most
    twenty characters that no row has. *)
Definition storable (db : DB) (sh : Show) (seat uuid : string) : bool :=
  negb (is_empty (strip seat))
  && (String.length seat <=? 10)
  && existsb (fun s => show_id s =? show_id sh) (shows db)
  && negb (existsb (fun r => String.eqb (booking_reference r) "") (bookings db))
  && negb (existsb (fun r => String.eqb (booking_reference r) uuid) (bookings db))
  && (String.length uuid <=? 20).

(** Request data whose seat text, if there is one, is ASCII. *)
Definition isascii_data (data : option string) : bool :=
  match data with
  | Some raw => isascii raw
  | None => true
  end.

(** Every row has a primary key. *)
Definition saved (db : DB) : Prop :=
  forall r, In r (bookings db) -> id r <> None.

(** No two rows share a booking reference. *)
Definition references_unique (db : DB) : Prop :=
  NoDup (map booking_reference (bookings db)).

(** The databases the two booking views produce: requests to
    [book_seat] and to the cancel view, one after the other, on a
    database with shows and no booking. *)
Inductive served : DB -> Prop :=
| served_init (shows : list Show) : served (mkDB shows [])
| served_book (db : DB) (now now' : Z) (user sid : nat) (data : option string)
    (uuid : string) :
    served db ->
    served (fst (Views.book_seat now now' db user sid data uuid))
| served_cancel (db : DB) (now now' : Z) (user bid : nat) (uuid : string) :
    served db ->
    served (fst (Views.cancel_booking now now' db user bid uuid)).

(** A row whose seat passes [validate_seat_number_format] and fits the
    column. *)
Definition well_formed_seat (r : Booking) : Prop :=
  Utils.validate_seat_number_format (seat_number r) = true
  /\ String.length (seat_number r) <= 10.

(** Every row refers to a show that is there. *)
Definition shows_exist (db : DB) : Prop :=
  forall r, In r (bookings db) -> exists sh, get_show db (show r) = Some sh.

(** The seat map read row by row.  [seat_nums] is
    [range(1, seats_per_row + 1)]; [row_names i] are the names of the
    ten seats of row [i]; [all_seat_names] are the names of the rows
    whose letter is a one-byte character, A1..A10, B1..B10, ... *)
Definition seat_nums : list Z := [1; 2; 3; 4; 5; 6; 7; 8; 9; 10]%Z.

Definition row_names (i : nat) : list string :=
  map (fun n => String (chr_from_A i) (str n)) seat_nums.

Definition all_seat_names : list string := flat_map row_names (seq 0 191).

(** The entry the inner loop stores for a seat name. *)
Definition seat_entry (booked_seats : list string) (name : string)
    : string * Utils.SeatEntry :=
  (name, Utils.mkSeatEntry (negb (existsb (String.eqb name) booked_seats)) name).

(** All the seats of a seat map, in the order of the rows. *)
Definition seat_entries (seat_map : list (string * list (string * Utils.SeatEntry)))
    : list (string * Utils.SeatEntry) :=
  List.concat (map snd seat_map).

(** Row [i] of the seat map of a show with [total_seats] seats. *)
Definition seat_row (total_seats : Z) (booked_seats : list string) (i : nat)
    : string * list (string * Utils.SeatEntry) :=
  (String (chr_from_A i) EmptyString,
   map (seat_entry booked_seats)
       (firstn (Z.to_nat (total_seats - 10 * Z.of_nat i)) (row_names i))).

(** The number of rows: a row for every ten seats started. *)
Definition rows_needed (total_seats : Z) : nat := Z.to_nat ((total_seats + 9) / 10).

(** The characters of a number written by [str]: the digits and the
    sign. *)
Definition numeral_char (c : ascii) : bool := isdigit_char c || Ascii.eqb c "-".

(** What can follow a numeral: nothing, or a character no numeral has. *)
Definition ends_numeral (s : string) : bool :=
  match s with
  | EmptyString => true
  | String c _ => negb (numeral_char c)
  end.


(** The seat format the validators accept: one letter A-Z followed by
    digits whose value is from 1 to 99; the digits may be more than
    two, up to the number [int] converts. *)
Definition seat_format (t : string) : Prop :=
  exists c ds,
    t = String c ds /\ isupper_char c = true
    /\ ds <> EmptyString
    /\ all_chars isdigit_char ds = true
    /\ (Z.of_nat (String.length ds) <= max_str_digits)%Z
    /\ (1 <= decimal 0 ds <= 99)%Z.

(** An outcome with the seat text that the "already booked" message
    quotes put in upper case: the success or the kind of failure. *)
Definition outcome (r : Result Booking) : Result Booking :=
  match r with
  | Raise (SeatAlreadyBooked seat) => Raise (SeatAlreadyBooked (upper seat))
  | _ => r
  end.

(** ** A scenario

    A show with one seat and a show with two, both starting at time
    1000; user 7 books seat A1 of the first show, cancels, and user 8
    books the same seat. *)

Module Scenario.

Definition show1 : Show := mkShow 1 1000 1.
Definition show2 : Show := mkShow 2 1000 2.

Definition db_init : DB := mkDB [show1; show2] [].

Definition booking1 : Booking := mkBooking (Some 1) 7 1 "A1" booked "0A1B2C3D".
Definition booking2 : Booking := mkBooking (Some 2) 8 1 "A1" booked "4E5F6A7B".

Definition db_booked : DB :=
  fst (BookingService.create_booking 0 db_init 7 show1 "a1" "0A1B2C3D").

Definition db_cancelled : DB :=
  fst (fst (BookingService.cancel_booking 10 db_booked booking1 "")).

Definition db_rebooked : DB :=
  fst (BookingService.create_booking 20 db_cancelled 8 show1 "A1" "4E5F6A7B").

(** Apart from that: user 7 books seat a1 of the two-seat show. *)
Definition db_show2 : DB :=
  fst (BookingService.create_booking 0 db_init 7 show2 "a1" "0A1B2C3D").

End Scenario.

(** * Properties *)

(** ** What a call writes *)

Lemma booked_at_cancelled sid seat r :
  status r = cancelled -> booked_at sid seat r = false.
Proof.
  intros H. unfold booked_at. rewrite H. cbn. now rewrite andb_false_r.
Qed.

Lemma booked_in_cancelled sid r :
  status r = cancelled -> booked_in sid r = false.
Proof.
  intros H. unfold booked_in. rewrite H. cbn. now rewrite andb_false_r.
Qed.

(** Replacing rows by a row that a filter rejects, or adding such a row,
    does not make the filtered table longer. *)
Lemma filter_replace_le (p q : Booking -> bool) (c : Booking) (l : list Booking) :
  p c = false ->
  List.length (filter p (map (fun r => if q r then c else r) l))
  <= List.length (filter p l).
Proof.
  intros Hc. induction l as [|r l IH]; cbn; [lia|].
  destruct (q r); [rewrite Hc|]; destruct (p r); cbn; lia.
Qed.

Lemma filter_cons_rejected (p : Booking -> bool) (c : Booking) (l : list Booking) :
  p c = false -> filter p (c :: l) = filter p l.
Proof. intros Hc. cbn. now rewrite Hc. Qed.

Lemma existsb_false_filter (p : Booking -> bool) (l : list Booking) :
  existsb p l = false -> filter p l = [].
Proof.
  induction l as [|r l IH]; cbn; [reflexivity|].
  destruct (p r); cbn; [discriminate|exact IH].
Qed.

(** [write] either adds the row or overwrites rows with it, and leaves
    the shows alone. *)
Lemma write_cases db b :
  shows (fst (write db b)) = shows db /\
  ((exists b', bookings (fst (write db b)) = b' :: bookings db /\
               set_status b' (status b) = b' /\ status b' = status b /\
               show b' = show b /\ seat_number b' = seat_number b) \/
   (exists n, bookings (fst (write db b))
              = map (fun r => if has_id n r then b else r) (bookings db))).
Proof.
  unfold write. destruct (id b) as [n|].
  - destruct (existsb (has_id n) (bookings db)); cbn; split; trivial.
    + right. now exists n.
    + left. exists b. repeat split; trivial. now destruct b.
  - cbn. split; trivial. left. eexists. repeat split; reflexivity.
Qed.

(** A successful [create_booking] passed its three guards and
    [full_clean], and put one new [booked] row for the upper-cased seat in
    front of the table; a failed one changed nothing. *)
Lemma create_booking_cases now db u sh seat uuid :
  (exists e, BookingService.create_booking now db u sh seat uuid = (db, Raise e)) \/
  (exists ref,
      let b := mkBooking (Some (next_id db)) u (show_id sh) (upper seat) booked ref in
      BookingService.create_booking now db u sh seat uuid
      = (set_bookings db (b :: bookings db), Ok b)
      /\ (date_time sh <=? now)%Z = false
      /\ is_fully_booked db sh = false
      /\ existsb (booked_at (show_id sh) (upper seat)) (bookings db) = false
      /\ full_clean db (mkBooking None u (show_id sh) (upper seat) booked ref) = true).
Proof.
  unfold BookingService.create_booking.
  destruct (date_time sh <=? now)%Z eqn:Ht; [left; eauto|].
  destruct (is_fully_booked db sh) eqn:Hf; [left; eauto|].
  destruct (existsb _ (bookings db)) eqn:He; [left; eauto|].
  destruct (full_clean db _) eqn:Hc1; [|left; eauto].
  unfold save, write, set_booking_reference, set_id. cbn.
  destruct (full_clean db (mkBooking None u (show_id sh) (upper seat) booked uuid)) eqn:Hc2;
    [|left; eauto].
  right. exists uuid. cbn. repeat split; assumption.
Qed.

(** [cancel_booking] either raises and leaves the database alone, or
    writes a [cancelled] copy of the booking that passed [full_clean]
    and returns it. *)
Lemma cancel_booking_writes now db b uuid :
  (exists b' e, BookingService.cancel_booking now db b uuid = (db, b', Raise e)) \/
  (exists ref,
      let c := mkBooking (id b) (user b) (show b) (seat_number b) cancelled ref in
      full_clean db c = true
      /\ BookingService.cancel_booking now db b uuid
         = (fst (write db c), snd (write db c), Ok (snd (write db c)))).
Proof.
  unfold BookingService.cancel_booking.
  destruct (status_eqb (status b) cancelled); [left; eauto|].
  destruct (get_show db (show b)) as [sh|]; [|left; eauto].
  destruct (negb (can_be_cancelled now sh b)); [left; eauto|].
  unfold cancel. destruct (status_eqb (status b) cancelled); [left; eauto|].
  unfold save.
  match goal with |- context [full_clean db ?c] => set (c0 := c) end.
  destruct (full_clean db c0) eqn:Hc; [|left; eauto].
  right. exists (booking_reference c0).
  assert (Hc0 : mkBooking (id b) (user b) (show b) (seat_number b) cancelled
                  (booking_reference c0) = c0).
  { subst c0. now destruct (is_empty (booking_reference (set_status b cancelled))). }
  cbv zeta. rewrite Hc0. split; [exact Hc|].
  now destruct (write db c0).
Qed.

(** Writing a [cancelled] row adds nothing to a count of [booked] rows. *)
Lemma write_cancelled_le (p : Booking -> bool) db c :
  (forall r, status r = cancelled -> p r = false) ->
  status c = cancelled ->
  List.length (filter p (bookings (fst (write db c))))
  <= List.length (filter p (bookings db)).
Proof.
  intros Hp Hc.
  destruct (write_cases db c) as [_ [(b' & -> & _ & Hs & _) | (n & ->)]].
  - rewrite filter_cons_rejected; [lia|]. apply Hp. congruence.
  - apply filter_replace_le. now apply Hp.
Qed.

Lemma cancel_booking_le (p : Booking -> bool) now db b uuid :
  (forall r, status r = cancelled -> p r = false) ->
  List.length (filter p (bookings (fst (fst (BookingService.cancel_booking now db b uuid)))))
  <= List.length (filter p (bookings db)).
Proof.
  intros Hp.
  destruct (cancel_booking_writes now db b uuid)
    as [(b' & e & ->) | (ref & _ & ->)]; [cbn; lia|].
  now apply write_cancelled_le.
Qed.

Lemma cancel_booking_shows now db b uuid :
  shows (fst (fst (BookingService.cancel_booking now db b uuid))) = shows db.
Proof.
  destruct (cancel_booking_writes now db b uuid)
    as [(b' & e & ->) | (ref & _ & ->)]; [reflexivity|].
  apply write_cases.
Qed.

(** ** At most one active booking per seat *)

Lemma create_booking_at_most_one now db u sh seat uuid :
  at_most_one_active db ->
  at_most_one_active (fst (BookingService.create_booking now db u sh seat uuid)).
Proof.
  intros Hinv.
  destruct (create_booking_cases now db u sh seat uuid)
    as [(e & ->) | (ref & -> & _ & _ & Hfree & _)]; [exact Hinv|].
  intros sid s. unfold active_at. cbn [fst bookings set_bookings filter].
  destruct (booked_at sid s _) eqn:Hb.
  - unfold booked_at in Hb. cbn in Hb.
    apply andb_true_iff in Hb as [Hb _]. apply andb_true_iff in Hb as [Hsid Hseat].
    apply Nat.eqb_eq in Hsid. apply String.eqb_eq in Hseat. subst sid s.
    rewrite (existsb_false_filter _ _ Hfree). cbn. lia.
  - apply Hinv.
Qed.

Lemma cancel_booking_at_most_one now db b uuid :
  at_most_one_active db ->
  at_most_one_active (fst (fst (BookingService.cancel_booking now db b uuid))).
Proof.
  intros Hinv sid s. unfold active_at.
  etransitivity; [apply cancel_booking_le|apply Hinv].
  intros r. apply booked_at_cancelled.
Qed.

Lemma reachable_at_most_one db : reachable db -> at_most_one_active db.
Proof.
  induction 1 as [l | db now u sid sh seat uuid _ IH _ | db now bid b uuid _ IH _].
  - intros sid s. cbn. lia.
  - now apply create_booking_at_most_one.
  - now apply cancel_booking_at_most_one.
Qed.

(** C1.  In every reachable database each (show, seat) pair has at
    most one booking with status [booked]; and from any database with
    that property, whatever [create_booking] or [cancel_booking] is
    called with, the database it leaves has the property too. *)
Theorem at_most_one_active_booking :
  (forall db, reachable db -> at_most_one_active db)
  /\ (forall now db user sh seat uuid,
        at_most_one_active db ->
        at_most_one_active (fst (BookingService.create_booking now db user sh seat uuid)))
  /\ (forall now db booking uuid,
        at_most_one_active db ->
        at_most_one_active (fst (fst (BookingService.cancel_booking now db booking uuid)))).
Proof.
  split; [|split].
  - exact reachable_at_most_one.
  - intros. now apply create_booking_at_most_one.
  - intros. now apply cancel_booking_at_most_one.
Qed.

(** ** Capacity *)

Lemma get_show_id db sid sh : get_show db sid = Some sh -> show_id sh = sid.
Proof.
  unfold get_show. intros H. apply find_some in H as [_ H]. now apply Nat.eqb_eq in H.
Qed.

Lemma not_fully_booked_lt db sh :
  is_fully_booked db sh = false -> active_in db (show_id sh) < total_seats sh.
Proof.
  unfold is_fully_booked, available_seats, active_in. intros H.
  apply Z.leb_gt in H. lia.
Qed.

Lemma fully_booked_ge db sh :
  total_seats sh <= active_in db (show_id sh) -> is_fully_booked db sh = true.
Proof.
  unfold is_fully_booked, available_seats, active_in. intros H.
  apply Z.leb_le. lia.
Qed.

Lemma create_booking_within_capacity now db u sid sh seat uuid :
  within_capacity db ->
  get_show db sid = Some sh ->
  within_capacity (fst (BookingService.create_booking now db u sh seat uuid)).
Proof.
  intros Hinv Hsh.
  destruct (create_booking_cases now db u sh seat uuid)
    as [(e & ->) | (ref & -> & _ & Hfull & _)]; [exact Hinv|].
  intros sh' Hsh'. unfold get_show in Hsh'. cbn [fst shows set_bookings] in Hsh'.
  fold (get_show db (show_id sh')) in Hsh'.
  unfold active_in. cbn [fst bookings set_bookings filter].
  unfold booked_in at 1. cbn [show status status_eqb].
  destruct (show_id sh =? show_id sh') eqn:Heq; cbn [andb].
  - apply Nat.eqb_eq in Heq.
    assert (sh' = sh) as ->.
    { rewrite <- (get_show_id _ _ _ Hsh) in Hsh. congruence. }
    apply not_fully_booked_lt in Hfull. unfold active_in in Hfull. cbn. lia.
  - now apply Hinv.
Qed.

Lemma cancel_booking_within_capacity now db b uuid :
  within_capacity db ->
  within_capacity (fst (fst (BookingService.cancel_booking now db b uuid))).
Proof.
  intros Hinv sh Hsh. unfold get_show in Hsh. rewrite cancel_booking_shows in Hsh.
  unfold active_in.
  etransitivity; [apply cancel_booking_le|now apply Hinv].
  intros r. apply booked_in_cancelled.
Qed.

Lemma reachable_within_capacity db : reachable db -> within_capacity db.
Proof.
  induction 1 as [l | db now u sid sh seat uuid _ IH Hsh | db now bid b uuid _ IH _].
  - intros sh _. cbn. lia.
  - now apply create_booking_within_capacity with sid.
  - now apply cancel_booking_within_capacity.
Qed.

(** C7, as the code has it.  In every reachable database the bookings
    with status [booked] of a show, and so its booked seats, number at
    most [total_seats], and [available_seats] is not negative.  When
    that number has reached [total_seats], [create_booking] changes
    nothing and raises "This show is fully booked." if the show has not
    started; on a show that has started the timing check comes first
    and raises "Cannot book seats for past shows." *)
Theorem capacity_invariant :
  forall db, reachable db ->
    (forall sh, get_show db (show_id sh) = Some sh ->
       active_in db (show_id sh) <= total_seats sh
       /\ List.length (get_booked_seat_numbers db sh) <= total_seats sh
       /\ (0 <= available_seats db sh)%Z)
    /\ (forall now user sh seat uuid,
          total_seats sh <= active_in db (show_id sh) ->
          BookingService.create_booking now db user sh seat uuid
          = (db, Raise (if (date_time sh <=? now)%Z
                        then PastShowBooking else ShowFullyBooked))).
Proof.
  intros db Hr. split.
  - intros sh Hsh. pose proof (reachable_within_capacity db Hr sh Hsh) as H.
    unfold get_booked_seat_numbers, available_seats. rewrite length_map.
    unfold active_in in H. unfold active_in. lia.
  - intros now u sh seat uuid Hfull. unfold BookingService.create_booking.
    destruct (date_time sh <=? now)%Z; [reflexivity|].
    now rewrite (fully_booked_ge _ _ Hfull).
Qed.

(** ** Timing *)

(** C8. [create_booking] raises "Cannot book seats for past shows."
    exactly when the show starts at or before the current time; a show
    that starts later, be it by one second, is bookable as far as the
    timing check goes. *)
Theorem past_show_rejection :
  forall now db user sh seat uuid,
    (snd (BookingService.create_booking now db user sh seat uuid) = Raise PastShowBooking
     <-> (date_time sh <= now)%Z)
    /\ (Utils.is_show_bookable now (date_time sh) = true <-> (now < date_time sh)%Z)
    /\ (date_time sh = (now + 1)%Z ->
        snd (BookingService.create_booking now db user sh seat uuid) <> Raise PastShowBooking).
Proof.
  intros now db u sh seat uuid.
  assert (Hiff : snd (BookingService.create_booking now db u sh seat uuid)
                 = Raise PastShowBooking <-> (date_time sh <= now)%Z).
  { unfold BookingService.create_booking.
    destruct (date_time sh <=? now)%Z eqn:Ht.
    - apply Z.leb_le in Ht. cbn. tauto.
    - apply Z.leb_gt in Ht.
      split; [|lia]. intros H. exfalso.
      destruct (is_fully_booked db sh); [discriminate|].
      destruct (existsb _ (bookings db)); [discriminate|].
      destruct (full_clean db _); [|discriminate].
      destruct (save db _ uuid) as [[db' b'] []]; discriminate. }
  repeat split.
  - apply Hiff.
  - apply Hiff.
  - unfold Utils.is_show_bookable. intros H. apply Z.gtb_lt in H. lia.
  - unfold Utils.is_show_bookable. intros H. apply Z.gtb_lt. lia.
  - intros H1 H2. apply Hiff in H2. lia.
Qed.

(** ** The scenario *)

Lemma scenario_booked_reachable : reachable Scenario.db_booked.
Proof.
  unfold Scenario.db_booked.
  apply reach_book with (sid := 1); [apply reach_init | reflexivity].
Qed.

Lemma scenario_cancelled_reachable : reachable Scenario.db_cancelled.
Proof.
  unfold Scenario.db_cancelled.
  apply reach_cancel with (bid := 1); [apply scenario_booked_reachable | reflexivity].
Qed.

Lemma scenario_rebooked_reachable : reachable Scenario.db_rebooked.
Proof.
  unfold Scenario.db_rebooked.
  apply reach_book with (sid := 1); [apply scenario_cancelled_reachable | reflexivity].
Qed.

Lemma scenario_rebooked_rows :
  bookings Scenario.db_rebooked
  = [Scenario.booking2; set_status Scenario.booking1 cancelled].
Proof. reflexivity. Qed.

Lemma at_most_one_active_booking_witness :
  reachable Scenario.db_rebooked
  /\ at_most_one_active Scenario.db_rebooked
  /\ at_most_one_active
       (fst (fst (BookingService.cancel_booking 20 Scenario.db_rebooked Scenario.booking2 ""))).
Proof.
  pose proof at_most_one_active_booking as [Hreach [_ Hcancel]].
  pose proof (Hreach Scenario.db_rebooked scenario_rebooked_reachable) as Hinv.
  split; [exact scenario_rebooked_reachable|]. split; [exact Hinv|].
  exact (Hcancel 20%Z Scenario.db_rebooked Scenario.booking2 "" Hinv).
Defined.

Lemma capacity_invariant_witness :
  reachable Scenario.db_rebooked
  /\ active_in Scenario.db_rebooked 1 <= 1
  /\ BookingService.create_booking 20 Scenario.db_rebooked 7 Scenario.show1 "B2" "99AA88BB"
     = (Scenario.db_rebooked, Raise ShowFullyBooked).
Proof.
  pose proof (capacity_invariant Scenario.db_rebooked scenario_rebooked_reachable)
    as [Hcap Hfull].
  split; [exact scenario_rebooked_reachable|]. split.
  - exact (proj1 (Hcap Scenario.show1 eq_refl)).
  - apply (Hfull 20%Z 7 Scenario.show1 "B2" "99AA88BB"). cbn. lia.
Defined.

(** C7 as the specification states it fails on a full show that has
    started: show 1 has one seat and it is booked; at time 1000, when
    the show starts, [create_booking] refuses with "Cannot book seats
    for past shows.", not with "This show is fully booked." *)
Lemma full_started_show_gets_past_show_error :
  reachable Scenario.db_booked
  /\ get_show Scenario.db_booked 1 = Some Scenario.show1
  /\ active_in Scenario.db_booked 1 = total_seats Scenario.show1
  /\ date_time Scenario.show1 = 1000%Z
  /\ BookingService.create_booking 1000 Scenario.db_booked 8 Scenario.show1 "B1" "4E5F6A7B"
     = (Scenario.db_booked, Raise PastShowBooking)
  /\ snd (BookingService.create_booking 1000 Scenario.db_booked 8 Scenario.show1
                                        "B1" "4E5F6A7B")
     <> Raise ShowFullyBooked.
Proof.
  split; [exact scenario_booked_reachable|]. repeat split. discriminate.
Qed.

(** ** Cancelling somebody else's booking *)

(** C9. When a user other than the owner calls the cancel view on a
    booking, the view answers 403 "Permission denied" and the database
    is the one it was called with; the booking is found in it as it
    was, with the status it had. *)
Theorem cancel_by_other_user_forbidden :
  forall now now' db owner other booking_id booking uuid,
    get_booking db booking_id = Some booking ->
    user booking = owner ->
    other <> owner ->
    Views.cancel_booking now now' db other booking_id uuid = (db, Views.HTTP_403_FORBIDDEN)
    /\ get_booking (fst (Views.cancel_booking now now' db other booking_id uuid)) booking_id
       = Some booking.
Proof.
  intros now now' db owner other bid b uuid Hget Hown Hneq.
  assert (H : Views.cancel_booking now now' db other bid uuid
              = (db, Views.HTTP_403_FORBIDDEN)).
  { unfold Views.cancel_booking. rewrite Hget, Hown.
    destruct (owner =? other) eqn:E; [|reflexivity].
    apply Nat.eqb_eq in E. congruence. }
  split; [exact H|]. rewrite H. exact Hget.
Qed.

Lemma cancel_by_other_user_forbidden_witness :
  Views.cancel_booking 20 21 Scenario.db_rebooked 7 2 ""
  = (Scenario.db_rebooked, Views.HTTP_403_FORBIDDEN)
  /\ get_booking (fst (Views.cancel_booking 20 21 Scenario.db_rebooked 7 2 "")) 2
     = Some Scenario.booking2
  /\ status Scenario.booking2 = booked.
Proof.
  pose proof (cancel_by_other_user_forbidden 20%Z 21%Z Scenario.db_rebooked 8 7 2
                Scenario.booking2 "" eq_refl eq_refl) as H.
  destruct H as [H1 H2]; [lia|].
  split; [exact H1|]. split; [exact H2|reflexivity].
Defined.

(** ** Order of the checks in [create_booking] *)

Lemma create_booking_on_taken_seat now db u sh seat uuid :
  (now < date_time sh)%Z ->
  existsb (booked_at (show_id sh) (upper seat)) (bookings db) = true ->
  BookingService.create_booking now db u sh seat uuid
  = (db, Raise (if is_fully_booked db sh then ShowFullyBooked
                else SeatAlreadyBooked seat)).
Proof.
  intros Hnow Htaken. unfold BookingService.create_booking.
  apply Z.leb_gt in Hnow. rewrite Hnow.
  destruct (is_fully_booked db sh); [reflexivity|]. now rewrite Htaken.
Qed.

(** C3, as the code has it.  On a show that has not started, a request
    for a seat that has a [booked] row fails and changes nothing: with
    "This show is fully booked." when the show is fully booked, with
    "Seat ... is already booked." otherwise.  The capacity check comes
    before the seat check. *)
Theorem taken_seat_rejected :
  forall now db user sh seat uuid,
    (now < date_time sh)%Z ->
    existsb (booked_at (show_id sh) (upper seat)) (bookings db) = true ->
    BookingService.create_booking now db user sh seat uuid
    = (db, Raise (if is_fully_booked db sh then ShowFullyBooked
                  else SeatAlreadyBooked seat)).
Proof.
  intros. now apply create_booking_on_taken_seat.
Qed.

(** On the two-seat show with seat A1 taken, asking for "a1" is
    answered with the seat error. *)
Lemma taken_seat_rejected_witness :
  BookingService.create_booking 5 Scenario.db_show2 8 Scenario.show2 "a1" "4E5F6A7B"
  = (Scenario.db_show2, Raise (SeatAlreadyBooked "a1")).
Proof.
  exact (taken_seat_rejected 5%Z Scenario.db_show2 8 Scenario.show2 "a1" "4E5F6A7B"
           eq_refl eq_refl).
Defined.

(** C3 as the specification states it fails on the one-seat show: its
    only seat, A1, is taken, the show has not started, and a second
    request for A1 is answered with the capacity error, not with the
    seat error.  The serializer, which runs its checks in the other
    order, names the seat. *)
Lemma taken_seat_on_full_show :
  (20 < date_time Scenario.show1)%Z
  /\ existsb (booked_at (show_id Scenario.show1) (upper "A1"))
             (bookings Scenario.db_booked) = true
  /\ snd (BookingService.create_booking 20 Scenario.db_booked 8 Scenario.show1 "A1" "4E5F6A7B")
     = Raise ShowFullyBooked
  /\ snd (BookingService.create_booking 20 Scenario.db_booked 8 Scenario.show1 "A1" "4E5F6A7B")
     <> Raise (SeatAlreadyBooked "A1")
  /\ Serializers.create_validate 20 Scenario.db_booked (Some Scenario.show1) "A1"
     = Serializers.Invalid (Serializers.SeatBooked "A1").
Proof.
  repeat split; try reflexivity; discriminate.
Qed.

(** ** Seat format *)

Lemma digits_all acc b s :
  all_chars isdigit_char s = true -> (b = true \/ s <> EmptyString) ->
  digits acc b s = Some (decimal acc s).
Proof.
  revert acc b. induction s as [|c s IH]; intros acc b Hd Hb; cbn.
  - destruct Hb as [-> | Hb]; [reflexivity|congruence].
  - cbn in Hd. apply andb_true_iff in Hd as [Hc Hd]. rewrite Hc.
    apply IH; [exact Hd|now left].
Qed.

Lemma isdigit_not_space c : isdigit_char c = true -> isspace_char c = false.
Proof.
  unfold isdigit_char, isspace_char, between.
  rewrite andb_true_iff, !N.leb_le. intros [H1 H2].
  apply orb_false_iff. split; apply andb_false_iff.
  - right. apply N.leb_gt. lia.
  - right. apply N.leb_gt. lia.
Qed.

Lemma rstrip_digits s : all_chars isdigit_char s = true -> rstrip s = s.
Proof.
  induction s as [|c s IH]; cbn; [reflexivity|]. intros H.
  apply andb_true_iff in H as [Hc Hs]. rewrite (IH Hs).
  now rewrite (isdigit_not_space c Hc).
Qed.

Lemma strip_digits s : all_chars isdigit_char s = true -> strip s = s.
Proof.
  intros H. unfold strip.
  assert (lstrip s = s) as ->.
  { destruct s as [|c s]; [reflexivity|]. cbn in *.
    apply andb_true_iff in H as [Hc _]. now rewrite (isdigit_not_space c Hc). }
  now apply rstrip_digits.
Qed.

Lemma isdigit_not_space_int c : isdigit_char c = true -> isspace_int_char c = false.
Proof.
  destruct c as [[] [] [] [] [] [] [] []]; cbn; intros H; try discriminate; reflexivity.
Qed.

Lemma strip_int_digits s :
  all_chars isdigit_char s = true -> rstrip_int (lstrip_int s) = s.
Proof.
  intros H.
  assert (lstrip_int s = s) as ->.
  { destruct s as [|c s]; [reflexivity|]. cbn in *.
    apply andb_true_iff in H as [Hc _]. now rewrite (isdigit_not_space_int c Hc). }
  induction s as [|c s IH]; cbn; [reflexivity|].
  cbn in H. apply andb_true_iff in H as [Hc Hs]. rewrite (IH Hs).
  now rewrite (isdigit_not_space_int c Hc).
Qed.

Lemma count_digits_all s :
  all_chars isdigit_char s = true -> count_digits s = Z.of_nat (String.length s).
Proof.
  induction s as [|c s IH]; [reflexivity|]. intros H.
  cbn [all_chars] in H. apply andb_true_iff in H as [Hc Hs].
  cbn [count_digits String.length]. rewrite Hc, (IH Hs). lia.
Qed.

(** [int] on a text of digits: its value, unless the digits are more
    than [max_str_digits]. *)
Lemma int_isdigit_cases s :
  isdigit s = true ->
  int s = if (max_str_digits <? Z.of_nat (String.length s))%Z then None
          else Some (decimal 0 s).
Proof.
  unfold isdigit, int. intros H. apply andb_true_iff in H as [Hne Hd].
  rewrite (strip_int_digits s Hd).
  destruct s as [|c s]; [discriminate|].
  assert (Hdig : int_digits (String c s)
                 = if (max_str_digits <? Z.of_nat (String.length (String c s)))%Z
                   then None else Some (decimal 0 (String c s))).
  { unfold int_digits. rewrite (count_digits_all _ Hd).
    destruct (max_str_digits <? Z.of_nat (String.length (String c s)))%Z; [reflexivity|].
    apply digits_all; [exact Hd|]. right. discriminate. }
  cbn [all_chars] in Hd. apply andb_true_iff in Hd as [Hc _].
  destruct c as [[] [] [] [] [] [] [] []]; try discriminate Hc; exact Hdig.
Qed.

Lemma int_isdigit s :
  isdigit s = true -> (Z.of_nat (String.length s) <= max_str_digits)%Z ->
  int s = Some (decimal 0 s).
Proof.
  intros Hd Hlen. rewrite (int_isdigit_cases s Hd).
  destruct (Z.ltb_spec max_str_digits (Z.of_nat (String.length s))); [lia|reflexivity].
Qed.

Lemma isupper_char_iff c :
  isupper_char c = true <->
  isalpha_char c = true /\ char_ltb c "A" = false /\ char_ltb "Z" c = false.
Proof.
  unfold isalpha_char, isupper_char, islower_char, char_ltb, between.
  change (code "A") with 65%N. change (code "Z") with 90%N.
  rewrite orb_true_iff, !andb_true_iff, !N.leb_le, !N.ltb_ge. lia.
Qed.

Lemma is_empty_true s : is_empty s = true <-> s = EmptyString.
Proof. destruct s; cbn; split; congruence. Qed.

Lemma seat_format_iff_check c0 rest :
  seat_format (String c0 rest) <->
  isupper_char c0 = true /\ isdigit rest = true
  /\ (Z.of_nat (String.length rest) <= max_str_digits)%Z
  /\ (1 <= decimal 0 rest <= 99)%Z.
Proof.
  unfold seat_format, isdigit. split.
  - intros (c & ds & Heq & Hc & Hne & Hd & Hlen & Hv). injection Heq as -> ->.
    repeat split; try assumption; try lia.
    destruct ds; [congruence|]. cbn [is_empty negb andb]. exact Hd.
  - intros (Hc & Hd & Hlen & Hv). apply andb_true_iff in Hd as [Hne Hd].
    exists c0, rest. repeat split; try assumption; try lia.
    intros ->. discriminate.
Qed.

Lemma format_check t :
  (if (String.length t <? 2) then false else
   match t with
   | EmptyString => false
   | String c0 rest =>
       if negb (isalpha_char c0) then false else
       if negb (isdigit rest) then false else
       if char_ltb c0 "A" || char_ltb "Z" c0 then false else
       match int rest with
       | Some seat_num =>
           if (seat_num <? 1)%Z || (seat_num >? 99)%Z then false else true
       | None => false
       end
   end) = true <-> seat_format t.
Proof.
  destruct t as [|c0 rest].
  - cbn. split; [discriminate|]. intros (c & ds & H & _). discriminate.
  - rewrite seat_format_iff_check, isupper_char_iff.
    destruct (String.length (String c0 rest) <? 2) eqn:Hlen.
    + split; [discriminate|]. intros (_ & Hd & _).
      destruct rest; cbn in *; discriminate.
    + destruct (isalpha_char c0); cbn [negb]; [|intuition discriminate].
      destruct (isdigit rest) eqn:Hd; cbn [negb]; [|intuition discriminate].
      rewrite (int_isdigit_cases _ Hd).
      destruct (char_ltb c0 "A"); cbn [orb]; [intuition discriminate|].
      destruct (char_ltb "Z" c0); cbn [orb]; [intuition discriminate|].
      destruct (Z.ltb_spec max_str_digits (Z.of_nat (String.length rest)));
        [intuition (try discriminate; lia)|].
      destruct (Z.ltb_spec (decimal 0 rest) 1); cbn [orb];
        [intuition (try discriminate; lia)|].
      rewrite Z.gtb_ltb.
      destruct (Z.ltb_spec 99 (decimal 0 rest)); intuition (try discriminate; lia).
Qed.

Lemma is_empty_upper s : is_empty (upper s) = is_empty s.
Proof. now destruct s. Qed.

Lemma validate_seat_number_agrees db s :
  if Utils.validate_seat_number_format s
  then BookingService.validate_seat_number db s None = Ok (upper (strip s))
  else exists e, BookingService.validate_seat_number db s None = Raise e
                 /\ In e seat_errors.
Proof.
  unfold Utils.validate_seat_number_format, BookingService.validate_seat_number, seat_errors.
  destruct (is_empty s) eqn:Hs; cbn [orb]; [cbn; eauto|].
  rewrite <- (is_empty_upper (strip s)).
  destruct (upper (strip s)) as [|c0 rest] eqn:Ht; [cbn; eauto|].
  cbn [is_empty].
  rewrite Nat.ltb_antisym.
  destruct (2 <=? String.length (String c0 rest)); cbn [negb andb]; [|cbn; eauto 7].
  destruct (isalpha_char c0); cbn [negb andb]; [|cbn; eauto 7].
  destruct (isdigit rest) eqn:Hd; cbn [negb]; [|cbn; eauto 7].
  destruct (char_ltb c0 "A" || char_ltb "Z" c0); [cbn; eauto 7|].
  destruct (int rest) as [seat_num|]; [|cbn; eauto 8].
  destruct ((seat_num <? 1)%Z || (seat_num >? 99)%Z); cbn; eauto 8.
Qed.




(** ** The uniqueness constraint *)

Lemma status_eqb_eq s1 s2 : status_eqb s1 s2 = true <-> s1 = s2.
Proof. destruct s1, s2; cbn; split; congruence. Qed.

Lemma same_key_eq b r : same_key b r = true <-> key r = key b.
Proof.
  unfold same_key, key. rewrite !andb_true_iff, Nat.eqb_eq, String.eqb_eq, status_eqb_eq.
  split; [intros [[-> ->] ->]; reflexivity | intros [= -> -> ->]; auto].
Qed.

Lemma id_lt_next_id db r n : In r (bookings db) -> id r = Some n -> n < next_id db.
Proof.
  intros Hin Hid. unfold next_id.
  assert (n <= list_max (map (fun r => match id r with Some n => n | None => 0 end)
                             (bookings db))); [|lia].
  induction (bookings db) as [|x l IH]; [destruct Hin|].
  cbn [map list_max fold_right]. fold (list_max (map (fun r => match id r with Some n => n | None => 0 end) l)). destruct Hin as [-> | Hin].
  - rewrite Hid. lia.
  - specialize (IH Hin). lia.
Qed.

Lemma has_id_true n r : has_id n r = true <-> id r = Some n.
Proof.
  unfold has_id. destruct (id r) as [m|]; [|split; discriminate].
  rewrite Nat.eqb_eq. split; congruence.
Qed.

Lemma replace_ids n c (l : list Booking) :
  id c = Some n ->
  map id (map (fun r => if has_id n r then c else r) l) = map id l.
Proof.
  intros Hc. induction l as [|r l IH]; cbn; [reflexivity|]. rewrite IH. f_equal.
  destruct (has_id n r) eqn:E; [|reflexivity]. apply has_id_true in E. congruence.
Qed.

Lemma replace_absent n c (l : list Booking) :
  ~ In (Some n) (map id l) ->
  map (fun r => if has_id n r then c else r) l = l.
Proof.
  induction l as [|r l IH]; cbn; [reflexivity|]. intros H.
  rewrite IH by tauto. destruct (has_id n r) eqn:E; [|reflexivity].
  apply has_id_true in E. tauto.
Qed.

Lemma replace_keys_NoDup n c (l : list Booking) :
  id c = Some n ->
  NoDup (map id l) ->
  NoDup (map key l) ->
  (forall r, In r l -> key r = key c -> id r = Some n) ->
  NoDup (map key (map (fun r => if has_id n r then c else r) l)).
Proof.
  intros Hc. induction l as [|r l IH]; cbn [map]; intros Hid Hkey Hown; [constructor|].
  inversion Hid as [|? ? Hid1 Hid2]; subst. inversion Hkey as [|? ? Hk1 Hk2]; subst.
  destruct (has_id n r) eqn:E.
  - apply has_id_true in E. rewrite E in Hid1.
    rewrite (replace_absent _ _ _ Hid1). constructor; [|exact Hk2].
    intros Hin. apply in_map_iff in Hin as (r' & Hk & Hr').
    apply Hid1. apply in_map_iff. exists r'. split; [|exact Hr'].
    apply Hown; [now right|exact Hk].
  - constructor.
    + intros Hin. apply in_map_iff in Hin as (x & Hk & Hx).
      apply in_map_iff in Hx as (r' & <- & Hr').
      destruct (has_id n r') eqn:E'.
      * assert (id r = Some n) by (apply Hown; [now left|congruence]).
        apply has_id_true in H. congruence.
      * apply Hk1. apply in_map_iff. now exists r'.
    + apply IH; trivial. intros r' Hr'. apply Hown. now right.
Qed.

Lemma full_clean_unique db c :
  full_clean db c = true ->
  forall r, In r (bookings db) -> key r = key c -> not_self c r = false.
Proof.
  unfold full_clean, validate_unique. intros H r Hr Hk.
  apply andb_true_iff in H as [_ H]. apply andb_true_iff in H as [_ H].
  apply negb_true_iff in H.
  destruct (not_self c r) eqn:E; [|reflexivity].
  assert (existsb (fun r => same_key c r && not_self c r) (bookings db) = true); [|congruence].
  apply existsb_exists. exists r. split; [exact Hr|].
  rewrite E, andb_true_r. now apply same_key_eq.
Qed.

Lemma get_booking_some db bid b :
  get_booking db bid = Some b -> In b (bookings db) /\ id b = Some bid.
Proof.
  unfold get_booking. intros H. apply find_some in H as [Hin H].
  split; [exact Hin|]. now apply has_id_true.
Qed.

Lemma create_booking_unique now db u sh seat uuid :
  ids_unique db /\ unique_together db ->
  let db' := fst (BookingService.create_booking now db u sh seat uuid) in
  ids_unique db' /\ unique_together db'.
Proof.
  intros [Hid Hkey].
  destruct (create_booking_cases now db u sh seat uuid)
    as [(e & ->) | (ref & -> & _ & _ & _ & Hclean)]; [now split|].
  cbn [fst]. unfold ids_unique, unique_together. cbn [bookings set_bookings map].
  split; constructor; trivial.
  - intros Hin. apply in_map_iff in Hin as (r & Hr & Hin).
    cbn [id] in Hr. pose proof (id_lt_next_id db r _ Hin Hr). lia.
  - intros Hin. apply in_map_iff in Hin as (r & Hr & Hin).
    pose proof (full_clean_unique db _ Hclean r Hin Hr) as H. discriminate H.
Qed.

Lemma cancel_booking_unique now db bid b uuid :
  get_booking db bid = Some b ->
  ids_unique db /\ unique_together db ->
  let db' := fst (fst (BookingService.cancel_booking now db b uuid)) in
  ids_unique db' /\ unique_together db'.
Proof.
  intros Hget [Hid Hkey]. apply get_booking_some in Hget as [Hin Hb].
  destruct (cancel_booking_writes now db b uuid)
    as [(b' & e & ->) | (ref & Hclean & ->)]; [now split|].
  cbv zeta. cbn [fst]. rewrite Hb in *.
  set (c := mkBooking (Some bid) (user b) (show b) (seat_number b) cancelled ref) in *.
  unfold write. cbn [id c].
  assert (Hex : existsb (has_id bid) (bookings db) = true).
  { apply existsb_exists. exists b. split; [exact Hin|]. now apply has_id_true. }
  rewrite Hex. cbn [fst]. unfold ids_unique, unique_together. cbn [bookings set_bookings].
  split.
  - now rewrite replace_ids.
  - apply replace_keys_NoDup; trivial.
    intros r Hr Hk. pose proof (full_clean_unique db c Hclean r Hr Hk) as H.
    unfold not_self in H. cbn [id c] in H. apply negb_false_iff in H.
    now apply has_id_true.
Qed.

Lemma reachable_unique db : reachable db -> ids_unique db /\ unique_together db.
Proof.
  induction 1 as [l | db now u sid sh seat uuid _ IH _ | db now bid b uuid _ IH Hget].
  - split; constructor.
  - now apply create_booking_unique.
  - now apply cancel_booking_unique with bid.
Qed.

Lemma NoDup_key_filter (p : Booking -> bool) (l : list Booking) :
  NoDup (map key l) ->
  (forall r1 r2, p r1 = true -> p r2 = true -> key r1 = key r2) ->
  List.length (filter p l) <= 1.
Proof.
  intros Hnd Hp. induction l as [|a l IH]; cbn; [lia|].
  inversion Hnd as [|? ? Ha Hl]; subst.
  destruct (p a) eqn:Epa; [|now apply IH].
  destruct (filter p l) as [|x xs] eqn:Ef; [cbn; lia|].
  exfalso. apply Ha.
  assert (Hx : In x (filter p l)) by (rewrite Ef; now left).
  apply filter_In in Hx as [Hx Hpx].
  apply in_map_iff. exists x. split; [|exact Hx]. now apply Hp.
Qed.

Lemma unique_together_cancelled db sid seat :
  unique_together db -> cancelled_at db sid seat <= 1.
Proof.
  intros H. unfold cancelled_at. apply NoDup_key_filter; [exact H|].
  intros r1 r2 H1 H2. unfold key.
  apply andb_true_iff in H1 as [H1 S1]. apply andb_true_iff in H1 as [A1 B1].
  apply andb_true_iff in H2 as [H2 S2]. apply andb_true_iff in H2 as [A2 B2].
  apply Nat.eqb_eq in A1, A2. apply String.eqb_eq in B1, B2.
  apply status_eqb_eq in S1, S2. congruence.
Qed.

Lemma unique_together_active db sid seat :
  unique_together db -> active_at db sid seat <= 1.
Proof.
  intros H. unfold active_at. apply NoDup_key_filter; [exact H|].
  intros r1 r2 H1 H2. unfold key. unfold booked_at in *.
  apply andb_true_iff in H1 as [H1 S1]. apply andb_true_iff in H1 as [A1 B1].
  apply andb_true_iff in H2 as [H2 S2]. apply andb_true_iff in H2 as [A2 B2].
  apply Nat.eqb_eq in A1, A2. apply String.eqb_eq in B1, B2.
  apply status_eqb_eq in S1, S2. congruence.
Qed.

(** C4, as the code has it.  The constraint on (show, seat_number,
    status) holds in every reachable database and allows one [booked]
    row per (show, seat) pair; next to it a [cancelled] row of the same
    pair may stand: after booking, cancelling and booking again, seat A1
    of show 1 has a cancelled and a booked row, and the constraint
    holds. *)
Theorem unique_together_permits :
  (forall db, reachable db -> unique_together db)
  /\ (forall db sid seat, unique_together db -> active_at db sid seat <= 1)
  /\ (reachable Scenario.db_rebooked
      /\ unique_together Scenario.db_rebooked
      /\ active_at Scenario.db_rebooked 1 "A1" = 1
      /\ cancelled_at Scenario.db_rebooked 1 "A1" = 1
      /\ bookings Scenario.db_rebooked
         = [Scenario.booking2; set_status Scenario.booking1 cancelled]).
Proof.
  split; [|split].
  - intros db Hr. now apply reachable_unique.
  - intros db sid seat H. now apply unique_together_active.
  - pose proof scenario_rebooked_reachable as Hr.
    repeat split; trivial. now apply reachable_unique.
Qed.

Lemma unique_together_permits_witness :
  unique_together Scenario.db_rebooked /\ active_at Scenario.db_rebooked 1 "A1" <= 1.
Proof.
  pose proof unique_together_permits as [H1 [H2 _]].
  pose proof (H1 Scenario.db_rebooked scenario_rebooked_reachable) as Hu.
  split; [exact Hu|]. exact (H2 Scenario.db_rebooked 1 "A1" Hu).
Defined.

(** C4 as the specification states it fails: a database in which some
    seat of some show has two [cancelled] rows violates the constraint,
    and no sequence of bookings and cancellations produces one. *)
Lemma no_two_cancelled_rows :
  ~ (exists db sid seat, unique_together db /\ 2 <= cancelled_at db sid seat)
  /\ ~ (exists db sid seat, reachable db /\ 2 <= cancelled_at db sid seat).
Proof.
  split.
  - intros (db & sid & seat & Hu & H).
    pose proof (unique_together_cancelled db sid seat Hu). lia.
  - intros (db & sid & seat & Hr & H).
    pose proof (unique_together_cancelled db sid seat (proj2 (reachable_unique db Hr))). lia.
Qed.

(** ** Cancelling *)

(** A cancellation that succeeds returns the booking with status
    [cancelled], and cancelling that booking again raises "Booking is
    already cancelled." and changes nothing. *)
Lemma cancel_booking_again now db b uuid db' b' r :
  BookingService.cancel_booking now db b uuid = (db', b', Ok r) ->
  r = b' /\ status b' = cancelled
  /\ forall now' uuid',
       BookingService.cancel_booking now' db' b' uuid' = (db', b', Raise AlreadyCancelled).
Proof.
  intros H.
  assert (Hs : r = b' /\ status b' = cancelled).
  { destruct (cancel_booking_writes now db b uuid) as [(x & e & Hw) | (ref & _ & Hw)].
    - rewrite Hw in H. discriminate.
    - cbv zeta in Hw. rewrite Hw in H. injection H as <- <- <-. split; [reflexivity|].
      unfold write. cbn [id]. destruct (id b) as [n|]; [|reflexivity].
      now destruct (existsb (has_id n) (bookings db)). }
  split; [apply Hs|]. split; [apply Hs|].
  intros now' uuid'. unfold BookingService.cancel_booking.
  destruct Hs as [_ ->]. reflexivity.
Qed.

(** A booking with status [booked] whose show has not started is
    cancelled when its cancelled copy passes [full_clean]. *)
Lemma cancel_booking_succeeds now db b uuid sh :
  status b = booked ->
  booking_reference b <> EmptyString ->
  get_show db (show b) = Some sh ->
  (now < date_time sh)%Z ->
  full_clean db (set_status b cancelled) = true ->
  BookingService.cancel_booking now db b uuid
  = (fst (write db (set_status b cancelled)), snd (write db (set_status b cancelled)),
     Ok (snd (write db (set_status b cancelled)))).
Proof.
  intros Hs Href Hsh Hnow Hclean.
  unfold BookingService.cancel_booking, cancel, can_be_cancelled, save.
  rewrite Hs, Hsh. cbn [status_eqb andb negb].
  apply Z.gtb_lt in Hnow. rewrite Hnow. cbn [negb].
  assert (is_empty (booking_reference (set_status b cancelled)) = false) as ->.
  { cbn. destruct (booking_reference b); [congruence|reflexivity]. }
  rewrite Hclean. now destruct (write db (set_status b cancelled)).
Qed.

(** C6 at the input where it fails.  User 7 booked seat A1 of show 1
    and cancelled; user 8 then booked the same seat.  That booking is
    [booked], its show has not started, [can_be_cancelled] holds and the
    cancel serializer accepts it; yet [cancel_booking] raises "Failed to
    cancel booking: ...", because its cancelled copy would be the second
    row with (show 1, A1, cancelled) and [validate_unique] refuses it.
    The row in the database stays [booked], the object in memory is
    left [cancelled], and the view answers 400. *)
Theorem cancel_after_rebooking_fails :
  reachable Scenario.db_rebooked
  /\ get_booking Scenario.db_rebooked 2 = Some Scenario.booking2
  /\ status Scenario.booking2 = booked
  /\ can_be_cancelled 20 Scenario.show1 Scenario.booking2 = true
  /\ Serializers.cancel_validate 20 Scenario.db_rebooked Scenario.booking2
     = Serializers.Valid
  /\ validate_unique Scenario.db_rebooked (set_status Scenario.booking2 cancelled) = false
  /\ BookingService.cancel_booking 20 Scenario.db_rebooked Scenario.booking2 ""
     = (Scenario.db_rebooked, set_status Scenario.booking2 cancelled, Raise FailedToCancel)
  /\ Views.cancel_booking 20 20 Scenario.db_rebooked 8 2 ""
     = (Scenario.db_rebooked,
        Views.HTTP_400_BAD_REQUEST (Views.ServiceError FailedToCancel)).
Proof.
  split; [exact scenario_rebooked_reachable|]. repeat split.
Qed.

(** ** Seat identifiers are kept in upper case *)

Lemma upper_char_idem c : upper_char (upper_char c) = upper_char c.
Proof. destruct c as [[] [] [] [] [] [] [] []]; reflexivity. Qed.

Lemma upper_idem s : upper (upper s) = upper s.
Proof.
  induction s as [|c s IH]; cbn; [reflexivity|]. now rewrite upper_char_idem, IH.
Qed.

Lemma create_booking_same_upper now db u sh seat1 seat2 uuid :
  upper seat1 = upper seat2 ->
  fst (BookingService.create_booking now db u sh seat1 uuid)
  = fst (BookingService.create_booking now db u sh seat2 uuid)
  /\ outcome (snd (BookingService.create_booking now db u sh seat1 uuid))
     = outcome (snd (BookingService.create_booking now db u sh seat2 uuid)).
Proof.
  intros Heq. unfold BookingService.create_booking. rewrite Heq.
  destruct (date_time sh <=? now)%Z; [now split|].
  destruct (is_fully_booked db sh); [now split|].
  destruct (existsb _ (bookings db)); [cbn; now rewrite Heq|].
  now split.
Qed.

Lemma replace_Forall (P : Booking -> Prop) (q : Booking -> bool) c l :
  Forall P l -> P c -> Forall P (map (fun r => if q r then c else r) l).
Proof.
  intros Hl Hc. induction Hl as [|r l Hr _ IH]; cbn; constructor; trivial.
  now destruct (q r).
Qed.

Lemma write_seats_upper db c :
  seats_upper db -> upper (seat_number c) = seat_number c ->
  seats_upper (fst (write db c)).
Proof.
  intros Hdb Hc. unfold seats_upper.
  destruct (write_cases db c) as [_ [(b' & -> & _ & _ & _ & Hs) | (n & ->)]].
  - constructor; [congruence|exact Hdb].
  - now apply replace_Forall.
Qed.

Lemma reachable_seats_upper db : reachable db -> seats_upper db.
Proof.
  induction 1 as [l | db now u sid sh seat uuid _ IH _ | db now bid b uuid _ IH Hget].
  - constructor.
  - destruct (create_booking_cases now db u sh seat uuid)
      as [(e & ->) | (ref & -> & _)]; [exact IH|].
    constructor; [apply upper_idem|exact IH].
  - destruct (cancel_booking_writes now db b uuid)
      as [(b' & e & ->) | (ref & _ & ->)]; [exact IH|].
    apply write_seats_upper; [exact IH|]. cbn.
    apply get_booking_some in Hget as [Hin _].
    unfold seats_upper in IH. rewrite Forall_forall in IH. now apply IH.
Qed.

(** C10.  [create_booking] uses the seat text through [upper] alone:
    two texts with the same upper-case form, a text and its upper-case
    form among them, leave the same database and have the same outcome
    (the "already booked" message quotes the text as given).  A booking
    is stored under the upper-case seat, and a later request for any text
    with that upper-case form, on the same show before it starts, is
    refused as a request for a taken seat: with "Seat ... is already
    booked." unless the show is full.  Every seat identifier in a
    reachable database is in upper case.  On the two-seat show, "a1" is
    stored as "A1" and "A1" is then refused. *)
Theorem seat_identifier_normalised :
  (forall now db user sh seat1 seat2 uuid,
     upper seat1 = upper seat2 ->
     fst (BookingService.create_booking now db user sh seat1 uuid)
     = fst (BookingService.create_booking now db user sh seat2 uuid)
     /\ outcome (snd (BookingService.create_booking now db user sh seat1 uuid))
        = outcome (snd (BookingService.create_booking now db user sh seat2 uuid)))
  /\ (forall now db user sh seat uuid,
        fst (BookingService.create_booking now db user sh (upper seat) uuid)
        = fst (BookingService.create_booking now db user sh seat uuid)
        /\ outcome (snd (BookingService.create_booking now db user sh (upper seat) uuid))
           = outcome (snd (BookingService.create_booking now db user sh seat uuid)))
  /\ (forall now db user sh seat uuid db' b,
        BookingService.create_booking now db user sh seat uuid = (db', Ok b) ->
        seat_number b = upper seat
        /\ In b (bookings db')
        /\ forall now' user' seat' uuid',
             upper seat' = upper seat ->
             (now' < date_time sh)%Z ->
             BookingService.create_booking now' db' user' sh seat' uuid'
             = (db', Raise (if is_fully_booked db' sh then ShowFullyBooked
                            else SeatAlreadyBooked seat')))
  /\ (forall db, reachable db -> seats_upper db)
  /\ (map seat_number (bookings Scenario.db_show2) = ["A1"]
      /\ BookingService.create_booking 5 Scenario.db_show2 8 Scenario.show2 "A1" "4E5F6A7B"
         = (Scenario.db_show2, Raise (SeatAlreadyBooked "A1"))).
Proof.
  split; [|split; [|split; [|split]]].
  - intros. now apply create_booking_same_upper.
  - intros. apply create_booking_same_upper. apply upper_idem.
  - intros now db u sh seat uuid db' b H.
    destruct (create_booking_cases now db u sh seat uuid)
      as [(e & He) | (ref & He & _)]; rewrite He in H; [discriminate|].
    injection H as <- <-. cbn [seat_number bookings set_bookings].
    split; [reflexivity|]. split; [now left|].
    intros now' u' seat' uuid' Hup Hnow.
    apply create_booking_on_taken_seat; [exact Hnow|].
    cbn [bookings set_bookings existsb]. rewrite Hup.
    unfold booked_at at 1. cbn [show seat_number status status_eqb].
    now rewrite Nat.eqb_refl, String.eqb_refl.
  - intros db Hr. now apply reachable_seats_upper.
  - split; reflexivity.
Qed.

Lemma seat_identifier_normalised_witness :
  upper "a1" = upper "A1"
  /\ fst (BookingService.create_booking 5 Scenario.db_show2 8 Scenario.show2 "a1" "4E5F6A7B")
     = fst (BookingService.create_booking 5 Scenario.db_show2 8 Scenario.show2 "A1" "4E5F6A7B")
  /\ outcome (snd (BookingService.create_booking 5 Scenario.db_show2 8 Scenario.show2 "a1" "4E5F6A7B"))
     = outcome (snd (BookingService.create_booking 5 Scenario.db_show2 8 Scenario.show2 "A1" "4E5F6A7B")).
Proof.
  split; [reflexivity|].
  exact (proj1 seat_identifier_normalised 5%Z Scenario.db_show2 8 Scenario.show2
           "a1" "A1" "4E5F6A7B" eq_refl).
Defined.

(** * Further properties *)

(** ** More on strings *)

Lemma isspace_upper_char c : isspace_char (upper_char c) = isspace_char c.
Proof. destruct c as [[] [] [] [] [] [] [] []]; reflexivity. Qed.

Lemma length_upper s : String.length (upper s) = String.length s.
Proof. induction s as [|c s IH]; cbn; congruence. Qed.

Lemma lstrip_upper s : lstrip (upper s) = upper (lstrip s).
Proof.
  induction s as [|c s IH]; cbn; [reflexivity|].
  rewrite isspace_upper_char. now destruct (isspace_char c).
Qed.

Lemma rstrip_upper s : rstrip (upper s) = upper (rstrip s).
Proof.
  induction s as [|c s IH]; cbn; [reflexivity|].
  rewrite isspace_upper_char, IH, is_empty_upper.
  now destruct (isspace_char c && is_empty (rstrip s)).
Qed.

Lemma strip_upper s : strip (upper s) = upper (strip s).
Proof. unfold strip. now rewrite lstrip_upper, rstrip_upper. Qed.

Lemma strip_nonempty s : is_empty (strip s) = false -> is_empty s = false.
Proof. destruct s; [discriminate|reflexivity]. Qed.

(** ** When a booking is made *)

Lemma existsb_and_false {A} (p q : A -> bool) l :
  existsb p l = false -> existsb (fun r => p r && q r) l = false.
Proof.
  induction l as [|a l IH]; cbn; [reflexivity|]. intros H.
  apply orb_false_iff in H as [-> H]. now rewrite IH.
Qed.

Lemma existsb_ext_eq {A} (p q : A -> bool) l :
  (forall a, p a = q a) -> existsb p l = existsb q l.
Proof. intros H. induction l as [|a l IH]; cbn; [reflexivity|]. now rewrite H, IH. Qed.

(** [full_clean] on a new [booked] object whose seat has no [booked]
    row comes down to the field checks and a free reference. *)
Lemma full_clean_new db u sid seat ref :
  existsb (booked_at sid seat) (bookings db) = false ->
  full_clean db (mkBooking None u sid seat booked ref)
  = negb (is_empty (strip seat))
    && (String.length seat <=? 10)
    && (String.length ref <=? 20)
    && existsb (fun s => show_id s =? sid) (shows db)
    && negb (existsb (fun r => String.eqb (booking_reference r) ref) (bookings db)).
Proof.
  intros Hfree. unfold full_clean, clean_fields, clean, validate_unique, not_self.
  cbn [id seat_number show booking_reference status].
  assert (H1 : existsb (fun r => booked_at sid seat r && true) (bookings db) = false).
  { now apply existsb_and_false. }
  assert (H2 : existsb (fun r => same_key (mkBooking None u sid seat booked ref) r && true)
                 (bookings db) = false).
  { rewrite <- Hfree. apply existsb_ext_eq. intros r. now rewrite andb_true_r. }
  rewrite H1, H2.
  assert (H3 : existsb (fun r => String.eqb (booking_reference r) ref && true) (bookings db)
               = existsb (fun r => String.eqb (booking_reference r) ref) (bookings db)).
  { apply existsb_ext_eq. intros r. now rewrite andb_true_r. }
  rewrite H3.
  destruct (is_empty (strip seat)) eqn:Es.
  - destruct (is_empty seat); cbn; now rewrite ?andb_false_r.
  - rewrite (strip_nonempty _ Es). cbn.
    repeat match goal with |- context [?a <=? ?b] => destruct (a <=? b) end;
      repeat match goal with |- context [existsb ?p ?l] => destruct (existsb p l) end;
      reflexivity.
Qed.

Lemma create_booking_decided now db u sh seat uuid :
  BookingService.create_booking now db u sh seat uuid
  = if (date_time sh <=? now)%Z then (db, Raise PastShowBooking)
    else if total_seats sh <=? active_in db (show_id sh) then (db, Raise ShowFullyBooked)
    else if existsb (booked_at (show_id sh) (upper seat)) (bookings db)
         then (db, Raise (SeatAlreadyBooked seat))
    else if storable db sh seat uuid
         then let b := mkBooking (Some (next_id db)) u (show_id sh) (upper seat) booked uuid in
              (set_bookings db (b :: bookings db), Ok b)
    else (db, Raise InvalidBookingData).
Proof.
  unfold BookingService.create_booking.
  destruct (date_time sh <=? now)%Z; [reflexivity|].
  assert (Hfull : is_fully_booked db sh = (total_seats sh <=? active_in db (show_id sh))).
  { unfold is_fully_booked, available_seats, active_in.
    destruct (Nat.leb_spec (total_seats sh)
                (List.length (filter (booked_in (show_id sh)) (bookings db))));
      [apply Z.leb_le | apply Z.leb_gt]; lia. }
  rewrite Hfull. destruct (total_seats sh <=? active_in db (show_id sh)); [reflexivity|].
  destruct (existsb (booked_at (show_id sh) (upper seat)) (bookings db)) eqn:Hfree;
    [reflexivity|].
  unfold save, set_booking_reference.
  cbn [booking_reference is_empty id user show seat_number status].
  rewrite !(full_clean_new _ _ _ _ _ Hfree).
  unfold storable. rewrite strip_upper, is_empty_upper, length_upper.
  cbn [String.length Nat.leb andb].
  destruct (negb (is_empty (strip seat))); cbn [andb]; [|reflexivity].
  destruct (String.length seat <=? 10); cbn [andb]; [|reflexivity].
  destruct (existsb (fun s => show_id s =? show_id sh) (shows db)); cbn [andb]; [|reflexivity].
  destruct (negb (existsb (fun r => String.eqb (booking_reference r) "") (bookings db)));
    cbn [andb]; [|reflexivity].
  destruct (String.length uuid <=? 20); cbn [andb]; [|now rewrite andb_false_r].
  rewrite andb_true_r.
  destruct (negb (existsb (fun r => String.eqb (booking_reference r) uuid) (bookings db)));
    reflexivity.
Qed.

(** X1.  On an ASCII seat text, [create_booking] succeeds exactly when
    the show starts after [now], has fewer [booked] rows than seats, has
    no [booked] row for the upper-cased seat, and the data are
    [storable].  It then puts the new row, with a new key, in front of
    the table and returns it.  When it fails the database is unchanged
    and the error is one of the four messages about the show, the
    capacity, the seat and the data; "Failed to create booking" is never
    raised.  The format of the seat text is not looked at. *)
Theorem create_booking_success_conditions :
  forall now db user sh seat uuid,
    isascii seat = true ->
    ((exists db' b, BookingService.create_booking now db user sh seat uuid = (db', Ok b))
     <-> (now < date_time sh)%Z
         /\ active_in db (show_id sh) < total_seats sh
         /\ existsb (booked_at (show_id sh) (upper seat)) (bookings db) = false
         /\ storable db sh seat uuid = true)
    /\ (forall db' b,
          BookingService.create_booking now db user sh seat uuid = (db', Ok b) ->
          b = mkBooking (Some (next_id db)) user (show_id sh) (upper seat) booked uuid
          /\ db' = set_bookings db (b :: bookings db))
    /\ (forall db' e,
          BookingService.create_booking now db user sh seat uuid = (db', Raise e) ->
          db' = db
          /\ In e [PastShowBooking; ShowFullyBooked; SeatAlreadyBooked seat;
                   InvalidBookingData]).
Proof.
  intros now db u sh seat uuid _. rewrite create_booking_decided.
  destruct (Z.leb_spec (date_time sh) now) as [Ht|Ht].
  { split; [split|split].
    - intros (db' & b & H). discriminate.
    - intros [H _]. lia.
    - intros db' b H. discriminate.
    - intros db' e [= <- <-]. cbn. auto 7. }
  destruct (Nat.leb_spec (total_seats sh) (active_in db (show_id sh))) as [Hf|Hf].
  { split; [split|split].
    - intros (db' & b & H). discriminate.
    - intros (_ & H & _). lia.
    - intros db' b H. discriminate.
    - intros db' e [= <- <-]. cbn. auto 7. }
  destruct (existsb (booked_at (show_id sh) (upper seat)) (bookings db)) eqn:Hs.
  { split; [split|split].
    - intros (db' & b & H). discriminate.
    - intros (_ & _ & H & _). discriminate.
    - intros db' b H. discriminate.
    - intros db' e [= <- <-]. cbn. auto 7. }
  destruct (storable db sh seat uuid) eqn:Hst.
  - split; [split|split].
    + intros _. repeat split; trivial.
    + intros _. cbv zeta. eauto.
    + intros db' b [= <- <-]. auto.
    + intros db' e H. discriminate.
  - split; [split|split].
    + intros (db' & b & H). discriminate.
    + intros (_ & _ & _ & H). discriminate.
    + intros db' b H. discriminate.
    + intros db' e [= <- <-]. cbn. auto 7.
Qed.

(** ** Fetching what was stored *)

Lemma get_booking_fresh db : get_booking db (next_id db) = None.
Proof.
  unfold get_booking. destruct (find _ _) as [r|] eqn:E; [|reflexivity].
  apply find_some in E as [Hin Hid]. apply has_id_true in Hid.
  pose proof (id_lt_next_id db r _ Hin Hid). lia.
Qed.

(** X2.  A booking that [create_booking] returns carries a key that
    no row had, is the row fetched by that key afterwards, and leaves
    what is fetched by any other key, and every show, as it was. *)
Theorem create_then_get_booking :
  forall now db user sh seat uuid db' b,
    BookingService.create_booking now db user sh seat uuid = (db', Ok b) ->
    id b = Some (next_id db)
    /\ get_booking db (next_id db) = None
    /\ get_booking db' (next_id db) = Some b
    /\ (forall bid, bid <> next_id db -> get_booking db' bid = get_booking db bid)
    /\ (forall sid, get_show db' sid = get_show db sid).
Proof.
  intros now db u sh seat uuid db' b H.
  destruct (create_booking_cases now db u sh seat uuid)
    as [(e & He) | (ref & He & _)]; rewrite He in H; [discriminate|].
  injection H as <- <-. split; [reflexivity|]. split; [apply get_booking_fresh|].
  unfold get_booking. cbn [bookings set_bookings find has_id id].
  rewrite Nat.eqb_refl. split; [reflexivity|]. split; [|reflexivity].
  intros bid Hne. destruct (Nat.eqb_spec (next_id db) bid); [congruence|reflexivity].
Qed.

(** ** What a cancellation changes *)

Lemma status_not_cancelled s : status_eqb s cancelled = false -> s = booked.
Proof. destruct s; [reflexivity|discriminate]. Qed.

(** A successful [cancel_booking] on a booking fetched by its key
    overwrites the rows with that key by the cancelled copy. *)
Lemma cancel_booking_effect now db bid b uuid db' b' r :
  get_booking db bid = Some b ->
  BookingService.cancel_booking now db b uuid = (db', b', Ok r) ->
  status b = booked
  /\ (exists sh, get_show db (show b) = Some sh /\ (now < date_time sh)%Z)
  /\ (exists ref, b' = mkBooking (Some bid) (user b) (show b) (seat_number b) cancelled ref
                  /\ full_clean db b' = true)
  /\ db' = set_bookings db (map (fun x => if has_id bid x then b' else x) (bookings db)).
Proof.
  intros Hget H. pose proof (get_booking_some _ _ _ Hget) as [Hin Hid].
  assert (Hst : status b = booked /\
                exists sh, get_show db (show b) = Some sh /\ (now < date_time sh)%Z).
  { revert H. unfold BookingService.cancel_booking.
    destruct (status_eqb (status b) cancelled) eqn:Es; [discriminate|].
    apply status_not_cancelled in Es.
    destruct (get_show db (show b)) as [sh|]; [|discriminate].
    unfold can_be_cancelled.
    destruct (Z.gtb_spec (date_time sh) now); [|cbn; discriminate].
    intros _. split; [exact Es|]. exists sh. split; [reflexivity|lia]. }
  split; [apply Hst|]. split; [apply Hst|].
  destruct (cancel_booking_writes now db b uuid) as [(x & e & Hw) | (ref & Hc & Hw)];
    rewrite Hw in H; [discriminate|].
  cbv zeta in *. rewrite Hid in *.
  set (c := mkBooking (Some bid) (user b) (show b) (seat_number b) cancelled ref) in *.
  assert (Hex : existsb (has_id bid) (bookings db) = true).
  { apply existsb_exists. exists b. split; [exact Hin|]. now apply has_id_true. }
  unfold write in H. cbn [id c] in H. rewrite Hex in H. cbn [fst snd] in H.
  injection H as <- <- <-. split; [|reflexivity]. exists ref. now split.
Qed.

(** With keys not shared, overwriting the rows of key [n] by a row that
    a filter rejects, where the row of that key was let through, takes
    one row off the filtered table. *)
Lemma replace_filter_minus_one (p : Booking -> bool) n b c l :
  NoDup (map id l) -> In b l -> id b = Some n -> p b = true -> p c = false ->
  S (List.length (filter p (map (fun x => if has_id n x then c else x) l)))
  = List.length (filter p l).
Proof.
  intros Hnd Hin Hid Hpb Hpc. induction l as [|x l IH]; [destruct Hin|].
  inversion Hnd as [|? ? Hx Hl]; subst. cbn [map filter].
  destruct (has_id n x) eqn:E.
  - apply has_id_true in E.
    assert (x = b) as ->.
    { destruct Hin as [-> | Hin]; [reflexivity|]. exfalso. apply Hx.
      rewrite E, <- Hid. now apply in_map. }
    rewrite E in Hx. rewrite (replace_absent _ _ _ Hx), Hpc, Hpb. reflexivity.
  - destruct Hin as [-> | Hin].
    + apply has_id_true in Hid. congruence.
    + destruct (p x); cbn [List.length]; rewrite <- (IH Hl Hin); reflexivity.
Qed.

(** Rows that a filter treats alike may be swapped for one another. *)
Lemma replace_filter_same (p : Booking -> bool) n b c l :
  NoDup (map id l) -> In b l -> id b = Some n -> p b = p c ->
  List.length (filter p (map (fun x => if has_id n x then c else x) l))
  = List.length (filter p l).
Proof.
  intros Hnd Hin Hid Hp. induction l as [|x l IH]; [destruct Hin|].
  inversion Hnd as [|? ? Hx Hl]; subst. cbn [map filter].
  destruct (has_id n x) eqn:E.
  - apply has_id_true in E.
    assert (x = b) as ->.
    { destruct Hin as [-> | Hin]; [reflexivity|]. exfalso. apply Hx.
      rewrite E, <- Hid. now apply in_map. }
    rewrite E in Hx. rewrite (replace_absent _ _ _ Hx), Hp. now destruct (p c).
  - destruct Hin as [-> | Hin].
    + apply has_id_true in Hid. congruence.
    + destruct (p x); cbn [List.length]; rewrite (IH Hl Hin); reflexivity.
Qed.

Lemma get_booking_replaced db bid c :
  existsb (has_id bid) (bookings db) = true -> id c = Some bid ->
  get_booking (set_bookings db (map (fun x => if has_id bid x then c else x) (bookings db))) bid
  = Some c.
Proof.
  intros Hex Hc. unfold get_booking. cbn [bookings set_bookings].
  induction (bookings db) as [|x l IH]; [discriminate|].
  cbn [map find existsb] in *. destruct (has_id bid x) eqn:E.
  - apply has_id_true in Hc. now rewrite Hc.
  - rewrite E. now apply IH.
Qed.

Lemma upper_row_seat db r : seats_upper db -> In r (bookings db) ->
  upper (seat_number r) = seat_number r.
Proof. unfold seats_upper. rewrite Forall_forall. auto. Qed.

(** X3.  In a reachable database, a successful [cancel_booking] on a
    booking fetched by its key leaves that row [cancelled], leaves the
    seat without [booked] row, gives the show one more available seat
    and makes it not fully booked; a later [create_booking] for that
    seat, before the show starts, is decided by [storable] alone. *)
Theorem cancel_frees_the_seat :
  forall now db bid b uuid db' b' r sh,
    reachable db ->
    get_booking db bid = Some b ->
    get_show db (show b) = Some sh ->
    BookingService.cancel_booking now db b uuid = (db', b', Ok r) ->
    get_booking db' bid = Some b'
    /\ status b' = cancelled
    /\ active_at db' (show b) (seat_number b) = 0
    /\ available_seats db' sh = (available_seats db sh + 1)%Z
    /\ is_fully_booked db' sh = false
    /\ (forall now' user' uuid',
          (now' < date_time sh)%Z ->
          BookingService.create_booking now' db' user' sh (seat_number b) uuid'
          = if storable db' sh (seat_number b) uuid'
            then let n := mkBooking (Some (next_id db')) user' (show b) (seat_number b)
                                    booked uuid' in
                 (set_bookings db' (n :: bookings db'), Ok n)
            else (db', Raise InvalidBookingData)).
Proof.
  intros now db bid b uuid db' b' r sh Hr Hget Hsh H.
  pose proof (get_booking_some _ _ _ Hget) as [Hin Hid].
  pose proof (reachable_unique db Hr) as [Hids _].
  destruct (cancel_booking_effect _ _ _ _ _ _ _ _ Hget H)
    as (Hst & _ & (ref & Hb' & _) & Hdb).
  assert (Hex : existsb (has_id bid) (bookings db) = true).
  { apply existsb_exists. exists b. split; [exact Hin|]. now apply has_id_true. }
  assert (Hsid : show_id sh = show b) by (now apply get_show_id with db).
  assert (Hat : S (active_at db' (show b) (seat_number b))
                = active_at db (show b) (seat_number b)).
  { unfold active_at. rewrite Hdb. cbn [bookings set_bookings].
    apply replace_filter_minus_one with b; trivial.
    - unfold booked_at. now rewrite Nat.eqb_refl, String.eqb_refl, Hst.
    - rewrite Hb'. apply booked_at_cancelled. reflexivity. }
  assert (Hin' : S (active_in db' (show b)) = active_in db (show b)).
  { unfold active_in. rewrite Hdb. cbn [bookings set_bookings].
    apply replace_filter_minus_one with b; trivial.
    - unfold booked_in. now rewrite Nat.eqb_refl, Hst.
    - rewrite Hb'. apply booked_in_cancelled. reflexivity. }
  pose proof (reachable_at_most_one db Hr (show b) (seat_number b)) as H1.
  assert (Hcap : active_in db (show b) <= total_seats sh).
  { rewrite <- Hsid. apply (reachable_within_capacity db Hr sh). now rewrite Hsid. }
  assert (Hzero : active_at db' (show b) (seat_number b) = 0) by lia.
  assert (Hnf : is_fully_booked db' sh = false).
  { unfold is_fully_booked, available_seats. rewrite Hsid.
    fold (active_in db' (show b)). apply Z.leb_gt. lia. }
  split. { rewrite Hdb. apply get_booking_replaced; [exact Hex|now rewrite Hb']. }
  split. { now rewrite Hb'. }
  split; [exact Hzero|]. split.
  { unfold available_seats. rewrite Hsid.
    fold (active_in db' (show b)) (active_in db (show b)). lia. }
  split; [exact Hnf|].
  intros now' u' uuid' Hnow. rewrite create_booking_decided.
  apply Z.leb_gt in Hnow. rewrite Hnow, Hsid.
  assert (Hlt : (total_seats sh <=? active_in db' (show b)) = false).
  { apply Nat.leb_gt. lia. }
  rewrite Hlt, (upper_row_seat db b (reachable_seats_upper db Hr) Hin).
  assert (Hfree : existsb (booked_at (show b) (seat_number b)) (bookings db') = false).
  { destruct (existsb _ (bookings db')) eqn:E; [|reflexivity].
    apply existsb_exists in E as (x & Hx & Hpx).
    unfold active_at in Hzero.
    assert (In x (filter (booked_at (show b) (seat_number b)) (bookings db'))).
    { apply filter_In. now split. }
    destruct (filter _ (bookings db')); [contradiction|discriminate]. }
  rewrite Hfree. reflexivity.
Qed.

(** ** Keys and references *)

Lemma replace_proj_NoDup {A} (f : Booking -> A) n c (l : list Booking) :
  id c = Some n ->
  NoDup (map id l) ->
  NoDup (map f l) ->
  (forall r, In r l -> f r = f c -> id r = Some n) ->
  NoDup (map f (map (fun r => if has_id n r then c else r) l)).
Proof.
  intros Hc. induction l as [|r l IH]; cbn [map]; intros Hid Hkey Hown; [constructor|].
  inversion Hid as [|? ? Hid1 Hid2]; subst. inversion Hkey as [|? ? Hk1 Hk2]; subst.
  destruct (has_id n r) eqn:E.
  - apply has_id_true in E. rewrite E in Hid1.
    rewrite (replace_absent _ _ _ Hid1). constructor; [|exact Hk2].
    intros Hin. apply in_map_iff in Hin as (r' & Hk & Hr').
    apply Hid1. apply in_map_iff. exists r'. split; [|exact Hr'].
    apply Hown; [now right|exact Hk].
  - constructor.
    + intros Hin. apply in_map_iff in Hin as (x & Hk & Hx).
      apply in_map_iff in Hx as (r' & <- & Hr').
      destruct (has_id n r') eqn:E'.
      * assert (id r = Some n) by (apply Hown; [now left|congruence]).
        apply has_id_true in H. congruence.
      * apply Hk1. apply in_map_iff. now exists r'.
    + apply IH; trivial. intros r' Hr'. apply Hown. now right.
Qed.

Lemma full_clean_reference db c :
  full_clean db c = true ->
  forall r, In r (bookings db) -> booking_reference r = booking_reference c ->
            not_self c r = false.
Proof.
  unfold full_clean, validate_unique. intros H r Hr Hk.
  apply andb_true_iff in H as [_ H]. apply andb_true_iff in H as [H _].
  apply negb_true_iff in H.
  destruct (not_self c r) eqn:E; [|reflexivity].
  assert (existsb (fun r => String.eqb (booking_reference r) (booking_reference c)
                            && not_self c r) (bookings db) = true); [|congruence].
  apply existsb_exists. exists r. split; [exact Hr|].
  rewrite E, andb_true_r. now apply String.eqb_eq.
Qed.

Lemma reachable_saved_references db :
  reachable db -> saved db /\ references_unique db.
Proof.
  induction 1 as [l | db now u sid sh seat uuid Hr IH _ | db now bid b uuid Hr IH Hget].
  - split; [intros r []|constructor].
  - destruct IH as [Hs Href].
    destruct (create_booking_cases now db u sh seat uuid)
      as [(e & ->) | (ref & -> & _ & _ & _ & Hclean)]; [now split|].
    cbn [fst]. split.
    + intros r [<- | Hin]; [discriminate|now apply Hs].
    + unfold references_unique. cbn [bookings set_bookings map]. constructor; [|exact Href].
      intros Hin. apply in_map_iff in Hin as (r & Hk & Hin).
      pose proof (full_clean_reference db _ Hclean r Hin Hk) as H. discriminate H.
  - destruct IH as [Hs Href].
    destruct (cancel_booking_writes now db b uuid) as [(x & e & ->) | (ref & Hclean & Hw)];
      [now split|].
    pose proof (get_booking_some _ _ _ Hget) as [Hin Hid].
    cbv zeta in *. rewrite Hw. cbn [fst]. rewrite Hid in *.
    set (c := mkBooking (Some bid) (user b) (show b) (seat_number b) cancelled ref) in *.
    assert (Hex : existsb (has_id bid) (bookings db) = true).
    { apply existsb_exists. exists b. split; [exact Hin|]. now apply has_id_true. }
    unfold write. cbn [id c]. rewrite Hex. cbn [fst]. split.
    + intros r Hr'. cbn [bookings set_bookings] in Hr'.
      apply in_map_iff in Hr' as (x & <- & Hx).
      destruct (has_id bid x); [discriminate|now apply Hs].
    + unfold references_unique. cbn [bookings set_bookings].
      apply replace_proj_NoDup; trivial.
      * apply (reachable_unique db Hr).
      * intros r Hr' Hk. pose proof (full_clean_reference db c Hclean r Hr' Hk) as H.
        unfold not_self in H. cbn [id c] in H. apply negb_false_iff in H.
        now apply has_id_true.
Qed.

Lemma find_unique_id (l : list Booking) n b :
  NoDup (map id l) -> In b l -> id b = Some n -> find (has_id n) l = Some b.
Proof.
  intros Hnd Hin Hid. induction l as [|x l IH]; [destruct Hin|].
  inversion Hnd as [|? ? Hx Hl]; subst. cbn [find].
  destruct (has_id n x) eqn:E.
  - apply has_id_true in E. destruct Hin as [-> | Hin]; [reflexivity|].
    exfalso. apply Hx. rewrite E, <- Hid. now apply in_map.
  - destruct Hin as [-> | Hin]; [|now apply IH].
    apply has_id_true in Hid. congruence.
Qed.

(** X4.  In a reachable database no two rows share a primary key or a
    booking reference, every row has a key and is the row fetched by
    it, and what is fetched by a key is a row with that key. *)
Theorem bookings_have_unique_keys :
  forall db, reachable db ->
    NoDup (map id (bookings db))
    /\ NoDup (map booking_reference (bookings db))
    /\ (forall r, In r (bookings db) -> exists n, id r = Some n /\ get_booking db n = Some r)
    /\ (forall n r, get_booking db n = Some r -> In r (bookings db) /\ id r = Some n).
Proof.
  intros db Hr. pose proof (reachable_unique db Hr) as [Hids _].
  pose proof (reachable_saved_references db Hr) as [Hs Href].
  split; [exact Hids|]. split; [exact Href|]. split.
  - intros r Hin. destruct (id r) as [n|] eqn:E; [|now apply Hs in Hin].
    exists n. split; [reflexivity|]. now apply find_unique_id.
  - intros n r. apply get_booking_some.
Qed.

(** ** The audit trail *)

Lemma same_booking_refl r : same_booking r r.
Proof. unfold same_booking. auto. Qed.

Lemma same_booking_trans r1 r2 r3 :
  same_booking r1 r2 -> same_booking r2 r3 -> same_booking r1 r3.
Proof.
  unfold same_booking. intros (A1 & A2 & A3 & A4 & A5) (B1 & B2 & B3 & B4 & B5).
  repeat split; try congruence. auto.
Qed.

Lemma create_booking_shows now db u sh seat uuid :
  shows (fst (BookingService.create_booking now db u sh seat uuid)) = shows db.
Proof.
  destruct (create_booking_cases now db u sh seat uuid) as [(e & ->) | (ref & -> & _)];
    reflexivity.
Qed.

Lemma step_reachable db db' : reachable db -> step db db' -> reachable db'.
Proof.
  intros Hr Hs. destruct Hs.
  - now apply reach_book with sid.
  - now apply reach_cancel with bid.
Qed.

Lemma step_keeps_rows db db' :
  reachable db -> step db db' ->
  List.length (bookings db) <= List.length (bookings db')
  /\ forall r, In r (bookings db) -> exists r', In r' (bookings db') /\ same_booking r r'.
Proof.
  intros Hr Hs. destruct Hs as [db now u sid sh seat uuid _ | db now bid b uuid Hget].
  - destruct (create_booking_cases now db u sh seat uuid)
      as [(e & ->) | (ref & -> & _)]; cbn [fst bookings set_bookings List.length].
    + split; [lia|]. intros r Hin. exists r. split; [exact Hin|apply same_booking_refl].
    + split; [lia|]. intros r Hin. exists r. split; [now right|apply same_booking_refl].
  - destruct (cancel_booking_writes now db b uuid) as [(x & e & ->) | (ref & Hclean & Hw)].
    + cbn [fst]. split; [lia|]. intros r Hin. exists r.
      split; [exact Hin|apply same_booking_refl].
    + pose proof (get_booking_some _ _ _ Hget) as [Hin Hid].
      pose proof (reachable_unique db Hr) as [Hids _].
      cbv zeta in *. rewrite Hw. cbn [fst]. rewrite Hid in *.
      set (c := mkBooking (Some bid) (user b) (show b) (seat_number b) cancelled ref) in *.
      assert (Hex : existsb (has_id bid) (bookings db) = true).
      { apply existsb_exists. exists b. split; [exact Hin|]. now apply has_id_true. }
      unfold write. cbn [id c]. rewrite Hex. cbn [fst bookings set_bookings].
      rewrite length_map. split; [lia|].
      intros r Hr'. exists (if has_id bid r then c else r). split.
      * apply in_map_iff. now exists r.
      * destruct (has_id bid r) eqn:E; [|apply same_booking_refl].
        apply has_id_true in E.
        assert (r = b) as ->.
        { pose proof (find_unique_id _ _ _ Hids Hr' E) as F1.
          pose proof (find_unique_id _ _ _ Hids Hin Hid) as F2. congruence. }
        unfold same_booking. cbn. auto.
Qed.

(** X5.  Whatever calls follow on a reachable database, no row is
    lost: the table does not shrink, every booking is still there with
    its key, owner, show and seat, a cancelled booking stays cancelled,
    and the shows are untouched. *)
Theorem bookings_are_never_lost :
  forall db db',
    reachable db -> steps db db' ->
    reachable db'
    /\ List.length (bookings db) <= List.length (bookings db')
    /\ (forall r, In r (bookings db) ->
          exists r', In r' (bookings db') /\ same_booking r r')
    /\ shows db' = shows db.
Proof.
  intros db db' Hr Hs. induction Hs as [x y Hxy | x | x y z _ IH1 _ IH2].
  - split; [now apply step_reachable with x|].
    destruct (step_keeps_rows x y Hr Hxy) as [Hlen Hrows].
    split; [exact Hlen|]. split; [exact Hrows|].
    destruct Hxy; [apply create_booking_shows | apply cancel_booking_shows].
  - split; [exact Hr|]. split; [lia|]. split; [|reflexivity].
    intros r Hin. exists r. split; [exact Hin|apply same_booking_refl].
  - destruct (IH1 Hr) as (Hy & L1 & R1 & S1).
    destruct (IH2 Hy) as (Hz & L2 & R2 & S2).
    split; [exact Hz|]. split; [lia|]. split; [|congruence].
    intros r Hin. destruct (R1 r Hin) as (r1 & Hin1 & E1).
    destruct (R2 r1 Hin1) as (r2 & Hin2 & E2).
    exists r2. split; [exact Hin2|]. now apply same_booking_trans with r1.
Qed.

Lemma create_then_get_booking_witness :
  BookingService.create_booking 0 Scenario.db_init 7 Scenario.show1 "a1" "0A1B2C3D"
  = (Scenario.db_booked, Ok Scenario.booking1)
  /\ get_booking Scenario.db_init 1 = None
  /\ get_booking Scenario.db_booked 1 = Some Scenario.booking1.
Proof.
  split; [reflexivity|].
  pose proof (create_then_get_booking 0%Z Scenario.db_init 7 Scenario.show1 "a1" "0A1B2C3D"
                Scenario.db_booked Scenario.booking1 eq_refl) as (_ & H1 & H2 & _).
  split; [exact H1|exact H2].
Defined.

Lemma cancel_frees_the_seat_witness :
  BookingService.cancel_booking 10 Scenario.db_booked Scenario.booking1 ""
  = (Scenario.db_cancelled, set_status Scenario.booking1 cancelled,
     Ok (set_status Scenario.booking1 cancelled))
  /\ active_at Scenario.db_cancelled 1 "A1" = 0
  /\ is_fully_booked Scenario.db_cancelled Scenario.show1 = false.
Proof.
  split; [reflexivity|].
  pose proof (cancel_frees_the_seat 10%Z Scenario.db_booked 1 Scenario.booking1 ""
                Scenario.db_cancelled (set_status Scenario.booking1 cancelled)
                (set_status Scenario.booking1 cancelled) Scenario.show1
                scenario_booked_reachable eq_refl eq_refl eq_refl)
    as (_ & _ & H1 & _ & H2 & _).
  split; [exact H1|exact H2].
Defined.

Lemma bookings_have_unique_keys_witness :
  reachable Scenario.db_rebooked
  /\ NoDup (map id (bookings Scenario.db_rebooked))
  /\ NoDup (map booking_reference (bookings Scenario.db_rebooked)).
Proof.
  pose proof (bookings_have_unique_keys Scenario.db_rebooked scenario_rebooked_reachable)
    as (H1 & H2 & _).
  split; [exact scenario_rebooked_reachable|]. split; [exact H1|exact H2].
Defined.

Lemma scenario_steps : steps Scenario.db_booked Scenario.db_rebooked.
Proof.
  apply rt_trans with Scenario.db_cancelled; apply rt_step.
  - unfold Scenario.db_cancelled. now apply step_cancel with (bid := 1).
  - unfold Scenario.db_rebooked. now apply step_book with (sid := 1).
Qed.

Lemma bookings_are_never_lost_witness :
  reachable Scenario.db_booked
  /\ steps Scenario.db_booked Scenario.db_rebooked
  /\ exists r', In r' (bookings Scenario.db_rebooked)
                /\ same_booking Scenario.booking1 r'.
Proof.
  split; [exact scenario_booked_reachable|]. split; [exact scenario_steps|].
  pose proof (bookings_are_never_lost Scenario.db_booked Scenario.db_rebooked
                scenario_booked_reachable scenario_steps) as (_ & _ & H & _).
  apply (H Scenario.booking1). now left.
Defined.

(** ** Normalising a seat number *)

Lemma rstrip_idem s : rstrip (rstrip s) = rstrip s.
Proof.
  induction s as [|c s IH]; cbn; [reflexivity|].
  destruct (isspace_char c && is_empty (rstrip s)) eqn:E; [reflexivity|].
  cbn. now rewrite IH, E.
Qed.

Lemma lstrip_head s : lstrip s = EmptyString \/
  exists c r, lstrip s = String c r /\ isspace_char c = false.
Proof.
  induction s as [|c s IH]; cbn; [now left|].
  destruct (isspace_char c) eqn:E; [exact IH|]. right. now exists c, s.
Qed.

Lemma strip_idem s : strip (strip s) = strip s.
Proof.
  unfold strip. destruct (lstrip_head s) as [-> | (c & r & -> & Hc)]; [reflexivity|].
  cbn. rewrite Hc. cbn. rewrite Hc. cbn. rewrite rstrip_idem, Hc. reflexivity.
Qed.

Lemma upper_strip_fixed s : upper (strip (upper (strip s))) = upper (strip s).
Proof. now rewrite strip_upper, upper_idem, strip_idem. Qed.

Lemma normalize_upper_strip s : Utils.normalize_seat_number s = upper (strip s).
Proof. unfold Utils.normalize_seat_number. now destruct s. Qed.

Lemma validate_format_normalized s :
  Utils.validate_seat_number_format (upper (strip s)) = Utils.validate_seat_number_format s.
Proof.
  unfold Utils.validate_seat_number_format. rewrite upper_strip_fixed.
  destruct (is_empty s) eqn:Es.
  - apply is_empty_true in Es. subst s. reflexivity.
  - destruct (is_empty (upper (strip s))) eqn:En; [|reflexivity].
    apply is_empty_true in En. now rewrite En.
Qed.

(** X6.  [normalize_seat_number] is idempotent and does not change
    what [validate_seat_number_format] says; the seat number that
    [BookingService.validate_seat_number] returns is the normalised
    input, and validating it again returns it unchanged. *)
Theorem normalize_seat_number_idempotent :
  forall s,
    Utils.normalize_seat_number (Utils.normalize_seat_number s)
    = Utils.normalize_seat_number s
    /\ Utils.validate_seat_number_format (Utils.normalize_seat_number s)
       = Utils.validate_seat_number_format s
    /\ (forall db t,
          BookingService.validate_seat_number db s None = Ok t ->
          t = Utils.normalize_seat_number s
          /\ BookingService.validate_seat_number db t None = Ok t).
Proof.
  intros s. rewrite !normalize_upper_strip. split; [apply upper_strip_fixed|].
  split; [apply validate_format_normalized|].
  intros db t H. pose proof (validate_seat_number_agrees db s) as Hs.
  destruct (Utils.validate_seat_number_format s) eqn:Ev.
  - rewrite Hs in H. injection H as <-. split; [reflexivity|].
    pose proof (validate_seat_number_agrees db (upper (strip s))) as Ht.
    rewrite validate_format_normalized, Ev in Ht. now rewrite upper_strip_fixed in Ht.
  - destruct Hs as (e & He & _). congruence.
Qed.

(** ** Row and number of a seat *)

Lemma validate_format_shape s :
  Utils.validate_seat_number_format s = true ->
  exists c ds, upper (strip s) = String c ds /\ isupper_char c = true
               /\ isdigit ds = true /\ (1 <= decimal 0 ds <= 99)%Z
               /\ (Z.of_nat (String.length ds) <= max_str_digits)%Z.
Proof.
  intros H. unfold Utils.validate_seat_number_format in H.
  destruct (is_empty s); [discriminate|].
  apply format_check in H. destruct (upper (strip s)) as [|c ds].
  - destruct H as (c & ds & H & _). discriminate.
  - apply seat_format_iff_check in H. exists c, ds. tauto.
Qed.

(** X7.  [get_seat_row_and_number] lets no exception escape; it
    returns [(None, None)] exactly on the inputs that
    [validate_seat_number_format] rejects, and otherwise the first
    character of the normalised input, a letter A-Z, with the value of
    the digits after it, a number from 1 to 99. *)
Theorem seat_row_and_number :
  forall s,
    Utils.get_seat_row_and_number s <> Utils.escapes
    /\ (Utils.get_seat_row_and_number s = Utils.none_none
        <-> Utils.validate_seat_number_format s = false)
    /\ (forall row number,
          Utils.get_seat_row_and_number s = Utils.row_and_number row number ->
          exists c ds,
            row = String c EmptyString /\ isupper_char c = true
            /\ Utils.normalize_seat_number s = String c ds
            /\ isdigit ds = true /\ decimal 0 ds = number
            /\ (1 <= number <= 99)%Z).
Proof.
  intros s. unfold Utils.get_seat_row_and_number. rewrite normalize_upper_strip.
  destruct (Utils.validate_seat_number_format s) eqn:Ev; cbn [negb].
  - destruct (validate_format_shape s Ev) as (c & ds & -> & Hc & Hd & Hv & Hlen).
    rewrite (int_isdigit _ Hd Hlen). split; [discriminate|]. split; [split; discriminate|].
    intros row number [= <- <-]. exists c, ds. repeat split; trivial; lia.
  - split; [discriminate|]. split; [tauto|]. discriminate.
Qed.

(** ** Status of a show *)

(** X9.  [get_show_status] answers "upcoming" before the show starts,
    "ongoing" from the start until three hours later, and "past" from
    then on.  "upcoming" is when [is_show_bookable] holds, and when
    [create_booking] does not raise the past-show error. *)
Theorem show_status_cases :
  forall now dt,
    (Utils.get_show_status now dt = "upcoming" <-> (now < dt)%Z)
    /\ (Utils.get_show_status now dt = "ongoing" <-> (dt <= now < dt + 10800)%Z)
    /\ (Utils.get_show_status now dt = "past" <-> (dt + 10800 <= now)%Z)
    /\ (Utils.get_show_status now dt = "upcoming" <-> Utils.is_show_bookable now dt = true)
    /\ (forall db user sh seat uuid,
          date_time sh = dt ->
          (Utils.get_show_status now dt = "upcoming"
           <-> snd (BookingService.create_booking now db user sh seat uuid)
               <> Raise PastShowBooking)).
Proof.
  intros now dt. unfold Utils.get_show_status, Utils.is_show_bookable.
  destruct (Z.gtb_spec dt now) as [H|H].
  - repeat split; try discriminate; try lia; try reflexivity.
    + intros _. rewrite create_booking_decided. rewrite H0.
      destruct (Z.leb_spec dt now); [lia|].
      repeat match goal with |- context [if ?c then _ else _] => destruct c end;
        discriminate.
  - assert (Hpast : forall db user sh seat uuid, date_time sh = dt ->
               snd (BookingService.create_booking now db user sh seat uuid)
               = Raise PastShowBooking).
    { intros db u sh seat uuid E. rewrite create_booking_decided, E.
      destruct (Z.leb_spec dt now); [reflexivity|lia]. }
    destruct (Z.leb_spec dt now) as [H1|H1]; [|lia].
    destruct (Z.ltb_spec now (dt + 10800)) as [H2|H2]; cbn [andb];
      repeat split; try discriminate; try lia; try reflexivity;
      try (intros; exfalso; eauto; fail).
    all: intros Hn; exfalso; apply Hn; now apply Hpast.
Qed.

(** ** Seat numbers written by [str] *)

Lemma str_seat_number n :
  (1 <= n <= 99)%Z -> isdigit (str n) = true /\ decimal 0 (str n) = n.
Proof.
  intros Hn.
  assert (H : forallb (fun k => isdigit (str (Z.of_nat k))
                                && (decimal 0 (str (Z.of_nat k)) =? Z.of_nat k)%Z)
                      (seq 1 99) = true) by (vm_compute; reflexivity).
  rewrite forallb_forall in H. specialize (H (Z.to_nat n)).
  rewrite Z2Nat.id in H by lia.
  assert (Hin : In (Z.to_nat n) (seq 1 99)) by (apply in_seq; lia).
  apply H in Hin. apply andb_true_iff in Hin as [H1 H2].
  split; [exact H1|]. now apply Z.eqb_eq.
Qed.

Lemma str_seat_number_length n :
  (1 <= n <= 99)%Z -> (Z.of_nat (String.length (str n)) <= max_str_digits)%Z.
Proof.
  intros Hn.
  assert (H : forallb (fun k => String.length (str (Z.of_nat k)) <=? 2) (seq 1 99) = true)
    by (vm_compute; reflexivity).
  rewrite forallb_forall in H. specialize (H (Z.to_nat n)).
  rewrite Z2Nat.id in H by lia.
  assert (Hin : In (Z.to_nat n) (seq 1 99)) by (apply in_seq; lia).
  apply H, Nat.leb_le in Hin. unfold max_str_digits. lia.
Qed.

Lemma upper_digit_char c : isdigit_char c = true -> upper_char c = c.
Proof. destruct c as [[] [] [] [] [] [] [] []]; cbn; intros H; try discriminate; reflexivity. Qed.

Lemma upper_digits s : all_chars isdigit_char s = true -> upper s = s.
Proof.
  induction s as [|c s IH]; cbn; [reflexivity|]. intros H.
  apply andb_true_iff in H as [Hc Hs]. now rewrite (upper_digit_char c Hc), (IH Hs).
Qed.

Lemma upper_upper_char c : isupper_char c = true -> upper_char c = c.
Proof. destruct c as [[] [] [] [] [] [] [] []]; cbn; intros H; try discriminate; reflexivity. Qed.

Lemma isupper_not_space c : isupper_char c = true -> isspace_char c = false.
Proof. destruct c as [[] [] [] [] [] [] [] []]; cbn; intros H; try discriminate; reflexivity. Qed.

(** A letter A-Z followed by digits is its own normal form. *)
Lemma letter_digits_normal c ds :
  isupper_char c = true -> isdigit ds = true ->
  upper (strip (String c ds)) = String c ds.
Proof.
  intros Hc Hd. unfold isdigit in Hd. apply andb_true_iff in Hd as [Hne Hd].
  unfold strip. cbn [lstrip]. rewrite (isupper_not_space c Hc).
  cbn [rstrip]. rewrite (rstrip_digits ds Hd), (isupper_not_space c Hc). cbn [andb upper].
  now rewrite (upper_upper_char c Hc), (upper_digits ds Hd).
Qed.

Lemma letter_number_row :
  forall c n,
    isupper_char c = true -> (1 <= n <= 99)%Z ->
    Utils.validate_seat_number_format (String c (str n)) = true
    /\ Utils.get_seat_row_and_number (String c (str n))
       = Utils.row_and_number (String c EmptyString) n.
Proof.
  intros c n Hc Hn. destruct (str_seat_number n Hn) as [Hd Hv].
  pose proof (str_seat_number_length n Hn) as Hlen.
  assert (Hval : Utils.validate_seat_number_format (String c (str n)) = true).
  { unfold Utils.validate_seat_number_format. cbn [is_empty].
    rewrite (letter_digits_normal c _ Hc Hd).
    refine (proj2 (format_check (String c (str n))) _).
    apply seat_format_iff_check. rewrite Hv. auto. }
  split; [exact Hval|].
  unfold Utils.get_seat_row_and_number. rewrite Hval. cbn [negb].
  rewrite normalize_upper_strip, (letter_digits_normal c _ Hc Hd).
  now rewrite (int_isdigit _ Hd Hlen), Hv.
Qed.

(** X8.  A letter A-Z followed by [str(n)] for a number [n] from 1 to
    99 is a valid seat number, and [get_seat_row_and_number] gives the
    letter and [n] back. *)
Theorem seat_row_and_number_round_trip :
  forall c n,
    isupper_char c = true -> (1 <= n <= 99)%Z ->
    Utils.validate_seat_number_format (String c (str n)) = true
    /\ Utils.get_seat_row_and_number (String c (str n))
       = Utils.row_and_number (String c EmptyString) n.
Proof. exact letter_number_row. Qed.

(** ** Availability of a show *)

Lemma booked_in_seats_NoDup sid (l : list Booking) :
  NoDup (map key l) -> NoDup (map seat_number (filter (booked_in sid) l)).
Proof.
  induction l as [|r l IH]; cbn [map filter]; intros Hnd; [constructor|].
  inversion Hnd as [|? ? Hr Hl]; subst.
  destruct (booked_in sid r) eqn:E; [|now apply IH].
  cbn [map]. constructor; [|now apply IH].
  intros Hin. apply in_map_iff in Hin as (x & Hseat & Hx).
  apply filter_In in Hx as [Hx Hbx]. apply Hr. apply in_map_iff. exists x.
  split; [|exact Hx]. unfold key. unfold booked_in in E, Hbx.
  apply andb_true_iff in E as [E1 E2]. apply andb_true_iff in Hbx as [B1 B2].
  apply Nat.eqb_eq in E1, B1. apply status_eqb_eq in E2, B2. congruence.
Qed.

Lemma in_booked_seats db sh seat :
  In seat (get_booked_seat_numbers db sh)
  <-> existsb (booked_at (show_id sh) seat) (bookings db) = true.
Proof.
  unfold get_booked_seat_numbers. rewrite in_map_iff, existsb_exists. split.
  - intros (r & <- & Hr). apply filter_In in Hr as [Hr Hb]. exists r. split; [exact Hr|].
    unfold booked_in in Hb. unfold booked_at. apply andb_true_iff in Hb as [-> ->].
    now rewrite String.eqb_refl.
  - intros (r & Hr & Hb). exists r. unfold booked_at in Hb.
    apply andb_true_iff in Hb as [Hb H3]. apply andb_true_iff in Hb as [H1 H2].
    apply String.eqb_eq in H2. split; [exact H2|]. apply filter_In. split; [exact Hr|].
    unfold booked_in. now rewrite H1, H3.
Qed.

(** X10.  For a show of a reachable database, the dictionary of
    [get_seat_availability] is consistent: the available seats and the
    booked seats add up to [total_seats], the available seats are not
    negative, no seat is listed twice, [is_fully_booked] holds exactly
    when as many seats are booked as there are, and the listed seats are
    those with a [booked] row. *)
Theorem seat_availability_consistent :
  forall db sh,
    reachable db -> get_show db (show_id sh) = Some sh ->
    let a := BookingService.get_seat_availability db sh in
    BookingService.av_total_seats a = total_seats sh
    /\ (BookingService.av_available_seats a
        + Z.of_nat (List.length (BookingService.av_booked_seats a))
        = Z.of_nat (total_seats sh))%Z
    /\ (0 <= BookingService.av_available_seats a)%Z
    /\ NoDup (BookingService.av_booked_seats a)
    /\ (BookingService.av_is_fully_booked a = true
        <-> List.length (BookingService.av_booked_seats a) = total_seats sh)
    /\ (forall seat, In seat (BookingService.av_booked_seats a)
                     <-> active_at db (show_id sh) seat = 1).
Proof.
  intros db sh Hr Hsh. cbv zeta. unfold BookingService.get_seat_availability.
  cbn [BookingService.av_total_seats BookingService.av_available_seats
       BookingService.av_booked_seats BookingService.av_is_fully_booked].
  pose proof (reachable_within_capacity db Hr sh Hsh) as Hcap. unfold active_in in Hcap.
  unfold is_fully_booked, available_seats, get_booked_seat_numbers in *.
  rewrite length_map.
  split; [reflexivity|]. split; [lia|]. split; [lia|]. split.
  { apply booked_in_seats_NoDup. apply (reachable_unique db Hr). }
  split.
  { rewrite Z.leb_le. lia. }
  intros seat. fold (get_booked_seat_numbers db sh). rewrite in_booked_seats.
  pose proof (reachable_at_most_one db Hr (show_id sh) seat) as H1. unfold active_at in *.
  split.
  - intros He. apply existsb_exists in He as (r & Hin & Hb).
    assert (In r (filter (booked_at (show_id sh) seat) (bookings db))).
    { apply filter_In. now split. }
    destruct (filter (booked_at (show_id sh) seat) (bookings db)) as [|x [|y l]];
      [contradiction|reflexivity|cbn in H1; lia].
  - intros Hl. destruct (filter (booked_at (show_id sh) seat) (bookings db))
      as [|x l] eqn:Ef; [discriminate|].
    assert (Hx : In x (filter (booked_at (show_id sh) seat) (bookings db))).
    { rewrite Ef. now left. }
    apply filter_In in Hx as [Hx Hb]. apply existsb_exists. now exists x.
Qed.

(** ** Checking a seat against a show *)

Lemma validate_seat_number_show db s sh :
  BookingService.validate_seat_number db s (Some sh)
  = match BookingService.validate_seat_number db s None with
    | Ok t => if existsb (booked_at (show_id sh) t) (bookings db)
              then Raise (SeatAlreadyBooked t) else Ok t
    | Raise e => Raise e
    end.
Proof.
  assert (Hin : forall t, existsb (String.eqb t) (get_booked_seat_numbers db sh)
                          = existsb (booked_at (show_id sh) t) (bookings db)).
  { intros t. apply eq_true_iff_eq. rewrite existsb_exists, <- in_booked_seats. split.
    - intros (x & Hx & E). apply String.eqb_eq in E. now subst.
    - intros H. exists t. split; [exact H|apply String.eqb_refl]. }
  unfold BookingService.validate_seat_number.
  destruct (is_empty s || is_empty (strip s)); [reflexivity|].
  destruct (upper (strip s)) as [|c rest]; [reflexivity|].
  destruct (negb _); [reflexivity|].
  destruct (char_ltb c "A" || char_ltb "Z" c); [reflexivity|].
  destruct (int rest) as [n|]; [|reflexivity].
  destruct ((n <? 1)%Z || (n >? 99)%Z); [reflexivity|].
  now rewrite Hin.
Qed.

(** X11.  When [validate_seat_number(seat_number, show)] returns a seat
    number, it is the normalised input, in valid format and not among
    the booked seats of the show; [create_booking] with it, on that show
    before it starts and while it is not full, fails only if the data
    are not [storable].  A valid seat number of more than ten
    characters (leading zeros) is never storable. *)
Theorem validated_seat_can_be_booked :
  forall db s sh t,
    BookingService.validate_seat_number db s (Some sh) = Ok t ->
    t = upper (strip s)
    /\ Utils.validate_seat_number_format s = true
    /\ ~ In t (get_booked_seat_numbers db sh)
    /\ (forall now user uuid,
          (now < date_time sh)%Z ->
          is_fully_booked db sh = false ->
          BookingService.create_booking now db user sh t uuid
          = if storable db sh t uuid
            then let b := mkBooking (Some (next_id db)) user (show_id sh) t booked uuid in
                 (set_bookings db (b :: bookings db), Ok b)
            else (db, Raise InvalidBookingData))
    /\ (10 < String.length t -> forall uuid, storable db sh t uuid = false).
Proof.
  intros db s sh t H. rewrite validate_seat_number_show in H.
  pose proof (validate_seat_number_agrees db s) as Hs.
  destruct (Utils.validate_seat_number_format s) eqn:Ev.
  2:{ destruct Hs as (e & He & _). rewrite He in H. discriminate. }
  rewrite Hs in H.
  destruct (existsb (booked_at (show_id sh) (upper (strip s))) (bookings db)) eqn:Hfree;
    [discriminate|].
  injection H as <-. split; [reflexivity|]. split; [reflexivity|]. split.
  { rewrite in_booked_seats, Hfree. discriminate. }
  split.
  - intros now u uuid Hnow Hfull. rewrite create_booking_decided.
    apply Z.leb_gt in Hnow. rewrite Hnow.
    apply not_fully_booked_lt in Hfull. apply Nat.leb_gt in Hfull. rewrite Hfull.
    rewrite upper_idem, Hfree. reflexivity.
  - intros Hlen uuid. unfold storable.
    apply Nat.leb_gt in Hlen. rewrite Hlen. now rewrite andb_false_r.
Qed.

(** X12.  [validate_seat_number(seat_number, show)] raises "Seat ... is
    already booked." exactly when the format is valid and the normalised
    seat number is among the booked seats of the show. *)
Theorem taken_seat_fails_validation :
  forall db s sh,
    (exists t, BookingService.validate_seat_number db s (Some sh)
               = Raise (SeatAlreadyBooked t))
    <-> Utils.validate_seat_number_format s = true
        /\ In (upper (strip s)) (get_booked_seat_numbers db sh).
Proof.
  intros db s sh. rewrite validate_seat_number_show, in_booked_seats.
  pose proof (validate_seat_number_agrees db s) as Hs.
  destruct (Utils.validate_seat_number_format s) eqn:Ev.
  - rewrite Hs. destruct (existsb _ (bookings db)); split.
    + auto.
    + eauto.
    + intros (t & H). discriminate.
    + intros [_ H]. discriminate.
  - destruct Hs as (e & He & Hin). rewrite He. split.
    + intros (t & [= ->]). cbn in Hin. intuition discriminate.
    + intros [H _]. discriminate.
Qed.

(** ** The booking serializer *)

Lemma isalpha_upper_char c : isupper_char (upper_char c) = isalpha_char c.
Proof. destruct c as [[] [] [] [] [] [] [] []]; reflexivity. Qed.

Lemma isalpha_not_space c : isalpha_char c = true -> isspace_char c = false.
Proof. destruct c as [[] [] [] [] [] [] [] []]; cbn; intros H; try discriminate; reflexivity. Qed.

Lemma strip_letter_digits c ds :
  isalpha_char c = true -> isdigit ds = true -> strip (String c ds) = String c ds.
Proof.
  intros Hc Hd. unfold isdigit in Hd. apply andb_true_iff in Hd as [_ Hd].
  unfold strip. cbn [lstrip]. rewrite (isalpha_not_space c Hc).
  cbn [rstrip]. now rewrite (rstrip_digits ds Hd), (isalpha_not_space c Hc).
Qed.

(** [validate_seat_number] accepts a letter followed by digits, with no
    white space around, and returns it with the letter in upper case. *)
Lemma serializer_seat_number value t :
  Serializers.validate_seat_number value = Some t
  <-> exists c ds, value = String c ds /\ isalpha_char c = true /\ isdigit ds = true
                   /\ t = String (upper_char c) ds.
Proof.
  unfold Serializers.validate_seat_number. destruct value as [|c ds].
  - cbn. split; [discriminate|]. intros (c & ds & H & _). discriminate.
  - cbn [is_empty orb]. split.
    + destruct (is_empty (strip (String c ds))); [discriminate|].
      destruct (2 <=? String.length (String c ds)); cbn [andb negb]; [|discriminate].
      destruct (isalpha_char c) eqn:Hc; cbn [andb negb]; [|discriminate].
      destruct (isdigit ds) eqn:Hd; cbn [negb]; [|discriminate].
      intros [= <-]. exists c, ds. repeat split; trivial.
      rewrite (strip_letter_digits c ds Hc Hd). cbn [upper]. f_equal.
      apply upper_digits. unfold isdigit in Hd. now apply andb_true_iff in Hd as [_ Hd].
    + intros (c' & ds' & [= <- <-] & Hc & Hd & ->).
      rewrite (strip_letter_digits c ds Hc Hd). cbn [is_empty].
      assert (Hlen : (2 <=? String.length (String c ds)) = true).
      { destruct ds; [discriminate|reflexivity]. }
      rewrite Hlen, Hc, Hd. cbn [andb negb upper]. f_equal. f_equal.
      apply upper_digits. unfold isdigit in Hd. now apply andb_true_iff in Hd as [_ Hd].
Qed.

Lemma validate_format_letter_digits c ds :
  isalpha_char c = true -> isdigit ds = true ->
  (Z.of_nat (String.length ds) <= max_str_digits)%Z ->
  Utils.validate_seat_number_format (String c ds)
  = negb ((decimal 0 ds <? 1)%Z || (decimal 0 ds >? 99)%Z).
Proof.
  intros Hc Hd Hmax. unfold Utils.validate_seat_number_format. cbn [is_empty].
  rewrite (strip_letter_digits c ds Hc Hd). cbn [upper].
  assert (Hu : upper ds = ds).
  { apply upper_digits. unfold isdigit in Hd. now apply andb_true_iff in Hd as [_ Hd]. }
  rewrite Hu.
  assert (Hlen : (String.length (String (upper_char c) ds) <? 2) = false).
  { destruct ds; [discriminate|reflexivity]. }
  rewrite Hlen.
  pose proof (isalpha_upper_char c) as Hup. rewrite Hc in Hup.
  apply isupper_char_iff in Hup as (Ha & Hlo & Hhi).
  rewrite Ha, Hd, Hlo, Hhi, (int_isdigit _ Hd Hmax). cbn [negb orb].
  now destruct ((decimal 0 ds <? 1)%Z || (decimal 0 ds >? 99)%Z).
Qed.

(** A seat text with more digits than [int] converts is rejected,
    whatever the digits. *)
Lemma validate_format_too_many_digits c ds :
  isalpha_char c = true -> isdigit ds = true ->
  (max_str_digits < Z.of_nat (String.length ds))%Z ->
  Utils.validate_seat_number_format (String c ds) = false.
Proof.
  intros Hc Hd Hmax. unfold Utils.validate_seat_number_format. cbn [is_empty].
  rewrite (strip_letter_digits c ds Hc Hd). cbn [upper].
  assert (Hu : upper ds = ds).
  { apply upper_digits. unfold isdigit in Hd. now apply andb_true_iff in Hd as [_ Hd]. }
  rewrite Hu.
  assert (Hlen : (String.length (String (upper_char c) ds) <? 2) = false).
  { destruct ds; [discriminate|reflexivity]. }
  rewrite Hlen.
  pose proof (isalpha_upper_char c) as Hup. rewrite Hc in Hup.
  apply isupper_char_iff in Hup as (Ha & Hlo & Hhi).
  rewrite Ha, Hd, Hlo, Hhi, (int_isdigit_cases _ Hd). cbn [negb orb].
  destruct (Z.ltb_spec max_str_digits (Z.of_nat (String.length ds))); [reflexivity|lia].
Qed.

Lemma validate_format_strip raw :
  Utils.validate_seat_number_format (strip raw) = Utils.validate_seat_number_format raw.
Proof.
  unfold Utils.validate_seat_number_format. rewrite strip_idem.
  destruct (is_empty raw) eqn:Er.
  - apply is_empty_true in Er. now subst.
  - destruct (is_empty (strip raw)) eqn:Es; [|reflexivity].
    apply is_empty_true in Es. now rewrite Es.
Qed.

Lemma isdigit_upper ds : isdigit (upper ds) = isdigit ds.
Proof.
  unfold isdigit. rewrite is_empty_upper. f_equal.
  induction ds as [|d ds IH]; cbn; [reflexivity|]. rewrite IH. f_equal.
  destruct d as [[] [] [] [] [] [] [] []]; reflexivity.
Qed.

Lemma validate_format_letter s :
  Utils.validate_seat_number_format s = true ->
  exists c ds, strip s = String c ds /\ isalpha_char c = true /\ isdigit ds = true.
Proof.
  intros H. destruct (validate_format_shape s H) as (c' & ds' & Heq & Hc & Hd & _).
  destruct (strip s) as [|c ds]; [discriminate|].
  cbn [upper] in Heq. injection Heq as <- <-.
  exists c, ds. split; [reflexivity|]. split.
  - now rewrite <- isalpha_upper_char.
  - now rewrite <- isdigit_upper.
Qed.

Lemma create_validate_letter_digits now db sh c ds :
  isalpha_char c = true -> isdigit ds = true ->
  (Z.of_nat (String.length ds) <= max_str_digits)%Z ->
  Serializers.create_validate now db (Some sh) (String (upper_char c) ds)
  = if (date_time sh <=? now)%Z then Serializers.Invalid Serializers.PastShow
    else if existsb (booked_at (show_id sh) (String (upper_char c) ds)) (bookings db)
         then Serializers.Invalid (Serializers.SeatBooked (String (upper_char c) ds))
    else if is_fully_booked db sh then Serializers.Invalid Serializers.FullyBooked
    else if (decimal 0 ds <? 1)%Z || (decimal 0 ds >? 99)%Z
         then Serializers.Invalid Serializers.BadNumber
    else Serializers.Valid.
Proof.
  intros Hc Hd Hmax. unfold Serializers.create_validate.
  destruct (date_time sh <=? now)%Z; [reflexivity|].
  destruct (existsb _ (bookings db)); [reflexivity|].
  destruct (is_fully_booked db sh); [reflexivity|].
  rewrite (int_isdigit _ Hd Hmax).
  pose proof (isalpha_upper_char c) as Hup. rewrite Hc in Hup.
  apply isupper_char_iff in Hup as (_ & Hlo & Hhi). now rewrite Hlo, Hhi.
Qed.

Lemma is_valid_cases :
  forall now db sh data,
    Serializers.is_valid now db sh data <> Serializers.exception_escapes
    /\ (forall t,
          Serializers.is_valid now db sh data = Serializers.validated t
          <-> exists raw,
                data = Some raw
                /\ t = upper (strip raw)
                /\ String.length (strip raw) <= 10
                /\ Utils.validate_seat_number_format raw = true
                /\ (now < date_time sh)%Z
                /\ existsb (booked_at (show_id sh) t) (bookings db) = false
                /\ is_fully_booked db sh = false).
Proof.
  intros now db sh data. unfold Serializers.is_valid.
  destruct data as [raw|].
  2:{ split; [discriminate|]. intros t. split; [discriminate|].
      intros (raw & H & _). discriminate. }
  destruct (is_empty (strip raw)) eqn:Es.
  { split; [discriminate|]. intros t. split; [discriminate|].
    intros (raw' & [= <-] & _ & _ & Hv & _). exfalso.
    destruct (validate_format_letter raw Hv) as (c & ds & Hs & _).
    rewrite Hs in Es. discriminate. }
  destruct (Nat.leb_spec (String.length (strip raw)) 10) as [Hlen|Hlen]; cbn [negb].
  2:{ split; [discriminate|]. intros t. split; [discriminate|].
      intros (raw' & [= <-] & _ & H & _). lia. }
  destruct (Serializers.validate_seat_number (strip raw)) as [t'|] eqn:Ev.
  2:{ split; [discriminate|]. intros t. split; [discriminate|].
      intros (raw' & [= <-] & _ & _ & Hv & _). exfalso.
      destruct (validate_format_letter raw Hv) as (c & ds & Hs & Hc & Hd).
      assert (Serializers.validate_seat_number (strip raw) = Some (String (upper_char c) ds)).
      { apply serializer_seat_number. exists c, ds. now rewrite Hs. }
      congruence. }
  apply serializer_seat_number in Ev as (c & ds & Hs & Hc & Hd & ->).
  assert (Hup : upper (strip raw) = String (upper_char c) ds).
  { rewrite Hs. cbn [upper]. f_equal. apply upper_digits.
    unfold isdigit in Hd. now apply andb_true_iff in Hd as [_ Hd]. }
  assert (Hmax : (Z.of_nat (String.length ds) <= max_str_digits)%Z).
  { rewrite Hs in Hlen. cbn [String.length] in Hlen. unfold max_str_digits. lia. }
  assert (Hfmt : Utils.validate_seat_number_format raw
                 = negb ((decimal 0 ds <? 1)%Z || (decimal 0 ds >? 99)%Z)).
  { rewrite <- validate_format_strip, Hs. now apply validate_format_letter_digits. }
  rewrite (create_validate_letter_digits now db sh c ds Hc Hd Hmax).
  destruct (Z.leb_spec (date_time sh) now) as [Ht|Ht].
  { split; [discriminate|]. intros t. split; [discriminate|].
    intros (raw' & _ & _ & _ & _ & H & _). lia. }
  destruct (existsb (booked_at (show_id sh) (String (upper_char c) ds)) (bookings db)) eqn:Eb.
  { split; [discriminate|]. intros t. split; [discriminate|].
    intros (raw' & [= <-] & -> & _ & _ & _ & H & _). rewrite Hup in H. congruence. }
  destruct (is_fully_booked db sh) eqn:Ef.
  { split; [discriminate|]. intros t. split; [discriminate|].
    intros (raw' & _ & _ & _ & _ & _ & _ & H). discriminate. }
  destruct ((decimal 0 ds <? 1)%Z || (decimal 0 ds >? 99)%Z) eqn:Er.
  { split; [discriminate|]. intros t. split; [discriminate|].
    intros (raw' & [= <-] & _ & _ & H & _). rewrite Hfmt in H. discriminate. }
  split; [discriminate|]. intros t. split.
  - intros [= <-]. exists raw. rewrite Hup, Hfmt. repeat split; trivial.
  - intros (raw' & [= <-] & -> & _). now rewrite Hup.
Qed.

(** X13.  On request data whose seat text is ASCII,
    [BookingCreateSerializer] lets no exception escape from [validate],
    and accepts the data exactly when the seat text, trimmed, has at
    most ten characters and passes [validate_seat_number_format], the
    show starts after [now], the seat has no [booked] row and the show
    is not fully booked; the validated value is the trimmed text in
    upper case. *)
Theorem serializer_accepts :
  forall now db sh data,
    isascii_data data = true ->
    Serializers.is_valid now db sh data <> Serializers.exception_escapes
    /\ (forall t,
          Serializers.is_valid now db sh data = Serializers.validated t
          <-> exists raw,
                data = Some raw
                /\ t = upper (strip raw)
                /\ String.length (strip raw) <= 10
                /\ Utils.validate_seat_number_format raw = true
                /\ (now < date_time sh)%Z
                /\ existsb (booked_at (show_id sh) t) (bookings db) = false
                /\ is_fully_booked db sh = false).
Proof. intros now db sh data _. apply is_valid_cases. Qed.

(** ** The booking view *)

Lemma book_seat_cases :
  forall now now' db request_user sid data uuid,
    snd (Views.book_seat now now' db request_user sid data uuid) <> Views.ServerError_500
    /\ (forall b,
          snd (Views.book_seat now now' db request_user sid data uuid) = Views.Created b ->
          (exists raw, data = Some raw /\ seat_number b = upper (strip raw))
          /\ id b = Some (next_id db) /\ user b = request_user /\ show b = sid
          /\ status b = booked /\ booking_reference b = uuid
          /\ Utils.validate_seat_number_format (seat_number b) = true
          /\ String.length (seat_number b) <= 10
          /\ fst (Views.book_seat now now' db request_user sid data uuid)
             = set_bookings db (b :: bookings db))
    /\ (forall e,
          snd (Views.book_seat now now' db request_user sid data uuid) = Views.BookingFailed_400 e ->
          e = InvalidBookingData
          \/ (e = PastShowBooking
              /\ exists sh, get_show db sid = Some sh /\ (now < date_time sh <= now')%Z))
    /\ ((forall b, snd (Views.book_seat now now' db request_user sid data uuid)
                    <> Views.Created b) ->
        fst (Views.book_seat now now' db request_user sid data uuid) = db).
Proof.
  intros now now' db u sid data uuid. unfold Views.book_seat.
  destruct (get_show db sid) as [sh|] eqn:Hsh.
  2:{ cbn. repeat split; try discriminate. }
  pose proof (is_valid_cases now db sh data) as [Hesc Hacc].
  destruct (Serializers.is_valid now db sh data) as [t| |] eqn:Hv.
  3:{ congruence. }
  2:{ cbn. repeat split; try discriminate. }
  destruct (proj1 (Hacc t) eq_refl) as (raw & -> & -> & Hlen & Hfmt & Hnow & Hfree & Hfull).
  rewrite create_booking_decided, upper_idem, Hfree.
  apply not_fully_booked_lt in Hfull. apply Nat.leb_gt in Hfull. rewrite Hfull.
  pose proof (get_show_id _ _ _ Hsh) as Hid.
  destruct (Z.leb_spec (date_time sh) now') as [Ht|Ht].
  { cbn. split; [discriminate|]. split; [discriminate|]. split; [|reflexivity].
    intros e [= <-]. right. split; [reflexivity|]. exists sh. split; [reflexivity|lia]. }
  destruct (storable db sh (upper (strip raw)) uuid).
  - cbn. split; [discriminate|]. split; [|split; [discriminate|]].
    + intros b [= <-]. cbn. split; [now exists raw|].
      repeat split; trivial.
      * now rewrite validate_format_normalized.
      * now rewrite length_upper.
    + intros Hb. exfalso. now apply (Hb _ eq_refl).
  - cbn. split; [discriminate|]. split; [discriminate|]. split; [|reflexivity].
    intros e [= <-]. now left.
Qed.

(** X14.  On request data whose seat text is ASCII, the [book_seat]
    view never answers 500.  On 201 the new
    booking belongs to the caller and the show asked for, is [booked],
    has a new key and a seat number in valid format of at most ten
    characters, and is put in front of the table.  "Booking failed" is
    answered only for data that cannot be stored, or when the show
    started between the two readings of the clock; a taken seat or a
    full show is answered by the serializer.  Without 201 the database
    is unchanged. *)
Theorem book_seat_responses :
  forall now now' db request_user sid data uuid,
    isascii_data data = true ->
    snd (Views.book_seat now now' db request_user sid data uuid) <> Views.ServerError_500
    /\ (forall b,
          snd (Views.book_seat now now' db request_user sid data uuid) = Views.Created b ->
          (exists raw, data = Some raw /\ seat_number b = upper (strip raw))
          /\ id b = Some (next_id db) /\ user b = request_user /\ show b = sid
          /\ status b = booked /\ booking_reference b = uuid
          /\ Utils.validate_seat_number_format (seat_number b) = true
          /\ String.length (seat_number b) <= 10
          /\ fst (Views.book_seat now now' db request_user sid data uuid)
             = set_bookings db (b :: bookings db))
    /\ (forall e,
          snd (Views.book_seat now now' db request_user sid data uuid) = Views.BookingFailed_400 e ->
          e = InvalidBookingData
          \/ (e = PastShowBooking
              /\ exists sh, get_show db sid = Some sh /\ (now < date_time sh <= now')%Z))
    /\ ((forall b, snd (Views.book_seat now now' db request_user sid data uuid)
                    <> Views.Created b) ->
        fst (Views.book_seat now now' db request_user sid data uuid) = db).
Proof. intros now now' db u sid data uuid _. apply book_seat_cases. Qed.

(** ** Databases filled through the views *)

Lemma book_seat_db now now' db u sid data uuid :
  fst (Views.book_seat now now' db u sid data uuid) = db
  \/ exists sh t b,
       get_show db sid = Some sh
       /\ BookingService.create_booking now' db u sh t uuid
          = (set_bookings db (b :: bookings db), Ok b)
       /\ Views.book_seat now now' db u sid data uuid
          = (set_bookings db (b :: bookings db), Views.Created b).
Proof.
  unfold Views.book_seat. destruct (get_show db sid) as [sh|]; [|now left].
  destruct (Serializers.is_valid now db sh data) as [t| |]; [|now left|now left].
  destruct (create_booking_cases now' db u sh t uuid) as [(e & He) | (ref & He & _)].
  - rewrite He. now left.
  - right. cbv zeta in He. exists sh, t. eexists. split; [reflexivity|].
    split; [exact He|]. now rewrite He.
Qed.

Lemma cancel_view_db now now' db u bid uuid :
  fst (Views.cancel_booking now now' db u bid uuid) = db
  \/ exists b, get_booking db bid = Some b
               /\ fst (Views.cancel_booking now now' db u bid uuid)
                  = fst (fst (BookingService.cancel_booking now' db b uuid)).
Proof.
  unfold Views.cancel_booking. destruct (get_booking db bid) as [b|]; [|now left].
  destruct (negb (user b =? u)); [now left|].
  destruct (Serializers.cancel_validate now db b); [|now left|now left].
  right. exists b. split; [reflexivity|].
  now destruct (BookingService.cancel_booking now' db b uuid) as [[db' b'] [r|e]].
Qed.

Lemma served_reachable db : served db -> reachable db.
Proof.
  induction 1 as [l | db now now' u sid data uuid _ IH | db now now' u bid uuid _ IH].
  - apply reach_init.
  - destruct (book_seat_db now now' db u sid data uuid)
      as [-> | (sh & t & b & Hsh & Hc & Hb)]; [exact IH|].
    rewrite Hb. cbn [fst]. change (set_bookings db (b :: bookings db))
      with (fst (set_bookings db (b :: bookings db), @Ok Booking b)).
    rewrite <- Hc. now apply reach_book with sid.
  - destruct (cancel_view_db now now' db u bid uuid) as [-> | (b & Hget & ->)]; [exact IH|].
    now apply reach_cancel with bid.
Qed.

(** X15.  A database filled through the two views is reachable, and
    every seat number in it passes [validate_seat_number_format] and has
    at most ten characters. *)
Theorem served_seats_are_well_formed :
  forall db, served db ->
    reachable db
    /\ forall r, In r (bookings db) -> well_formed_seat r.
Proof.
  intros db Hs. split; [now apply served_reachable|].
  induction Hs as [l | db now now' u sid data uuid Hs IH | db now now' u bid uuid Hs IH].
  - intros r [].
  - destruct (book_seat_db now now' db u sid data uuid)
      as [-> | (sh & t & b & _ & _ & Hb)]; [exact IH|].
    destruct (book_seat_cases now now' db u sid data uuid) as (_ & Hc & _).
    rewrite Hb in *. cbn [fst snd] in *.
    destruct (Hc b eq_refl) as (_ & _ & _ & _ & _ & _ & Hf & Hl & _).
    intros r [<- | Hin]; [now split|now apply IH].
  - destruct (cancel_view_db now now' db u bid uuid) as [-> | (b & Hget & ->)]; [exact IH|].
    destruct (cancel_booking_writes now' db b uuid) as [(x & e & ->) | (ref & _ & ->)];
      [exact IH|].
    cbv zeta. cbn [fst]. apply get_booking_some in Hget as [Hin _].
    set (c := mkBooking (id b) (user b) (show b) (seat_number b) cancelled ref).
    intros r Hr.
    destruct (write_cases db c) as [_ [(b' & Hb & _ & _ & _ & Hseat) | (n & Hb)]];
      rewrite Hb in Hr.
    + destruct Hr as [<- | Hr]; [|now apply IH].
      unfold well_formed_seat. rewrite Hseat. now apply (IH b).
    + apply in_map_iff in Hr as (x & <- & Hx).
      destruct (has_id n x); [|now apply IH]. now apply (IH b).
Qed.

(** ** Every booking has its show *)

Lemma get_show_exists db sid :
  existsb (fun s => show_id s =? sid) (shows db) = true ->
  exists sh, get_show db sid = Some sh.
Proof.
  unfold get_show. intros H. apply existsb_exists in H as (s & Hin & Hs).
  destruct (find (fun s => show_id s =? sid) (shows db)) as [sh|] eqn:E; [now exists sh|].
  pose proof (find_none _ _ E s Hin) as Hn. cbn in Hn. congruence.
Qed.

Lemma full_clean_show db c :
  full_clean db c = true -> exists sh, get_show db (show c) = Some sh.
Proof.
  unfold full_clean, clean_fields. intros H.
  apply andb_true_iff in H as [H _]. apply andb_true_iff in H as [H _].
  apply andb_true_iff in H as [_ H]. now apply get_show_exists.
Qed.

Lemma reachable_shows_exist db : reachable db -> shows_exist db.
Proof.
  induction 1 as [l | db now u sid sh seat uuid _ IH _ | db now bid b uuid _ IH Hget].
  - intros r [].
  - destruct (create_booking_cases now db u sh seat uuid)
      as [(e & ->) | (ref & -> & _ & _ & _ & Hclean)]; [exact IH|].
    intros r [<- | Hin]; [|now apply IH]. now apply full_clean_show in Hclean.
  - destruct (cancel_booking_writes now db b uuid) as [(x & e & ->) | (ref & Hclean & ->)];
      [exact IH|].
    cbv zeta. cbn [fst]. apply get_booking_some in Hget as [Hin _].
    set (c := mkBooking (id b) (user b) (show b) (seat_number b) cancelled ref) in *.
    intros r Hr. unfold get_show. rewrite (proj1 (write_cases db c)).
    fold (get_show db (show r)).
    destruct (write_cases db c) as [_ [(b' & Hb & _ & _ & Hshow & _) | (n & Hb)]];
      rewrite Hb in Hr.
    + destruct Hr as [<- | Hr]; [|now apply IH]. rewrite Hshow. now apply (IH b).
    + apply in_map_iff in Hr as (x & <- & Hx).
      destruct (has_id n x); [|now apply IH]. now apply (IH b).
Qed.

(** ** The cancel view *)

Lemma get_booking_other db bid c n :
  id c = Some bid -> n <> bid ->
  get_booking (set_bookings db (map (fun x => if has_id bid x then c else x) (bookings db))) n
  = get_booking db n.
Proof.
  intros Hc Hn. unfold get_booking. cbn [bookings set_bookings].
  induction (bookings db) as [|x l IH]; [reflexivity|]. cbn [map find].
  destruct (has_id bid x) eqn:E.
  - apply has_id_true in E.
    assert (has_id n c = false) as ->.
    { unfold has_id. rewrite Hc. now apply Nat.eqb_neq. }
    assert (has_id n x = false) as ->.
    { unfold has_id. rewrite E. now apply Nat.eqb_neq. }
    exact IH.
  - destruct (has_id n x); [reflexivity|exact IH].
Qed.

(** X16.  On a reachable database the cancel view answers 404 exactly
    when there is no such booking and never answers 500.  The service
    errors it passes on are "Failed to cancel booking" and, when the
    show started between the serializer's reading of the clock and the
    service's, "Cannot cancel booking for past shows."  On 200 the
    booking was the caller's, [booked], on a show that had not started
    at either reading; it is now [cancelled] with owner, show and seat
    unchanged and is what its key fetches, and what other keys fetch is
    unchanged.  Without 200 the database is unchanged. *)
Theorem cancel_view_responses :
  forall now now' db request_user bid uuid,
    reachable db ->
    (snd (Views.cancel_booking now now' db request_user bid uuid) = Views.HTTP_404_NOT_FOUND
     <-> get_booking db bid = None)
    /\ snd (Views.cancel_booking now now' db request_user bid uuid)
       <> Views.HTTP_500_INTERNAL_SERVER_ERROR
    /\ (forall e, snd (Views.cancel_booking now now' db request_user bid uuid)
                  = Views.HTTP_400_BAD_REQUEST (Views.ServiceError e) ->
                  e = FailedToCancel
                  \/ (e = PastShowCancel
                      /\ exists b sh,
                           get_booking db bid = Some b /\ get_show db (show b) = Some sh
                           /\ (now < date_time sh <= now')%Z))
    /\ (forall b',
          snd (Views.cancel_booking now now' db request_user bid uuid) = Views.HTTP_200_OK b' ->
          (exists b sh,
              get_booking db bid = Some b /\ user b = request_user /\ status b = booked
              /\ get_show db (show b) = Some sh
              /\ (now < date_time sh)%Z /\ (now' < date_time sh)%Z
              /\ user b' = user b /\ show b' = show b /\ seat_number b' = seat_number b)
          /\ status b' = cancelled
          /\ get_booking (fst (Views.cancel_booking now now' db request_user bid uuid)) bid
             = Some b'
          /\ (forall n, n <> bid ->
                get_booking (fst (Views.cancel_booking now now' db request_user bid uuid)) n
                = get_booking db n))
    /\ ((forall b', snd (Views.cancel_booking now now' db request_user bid uuid)
                    <> Views.HTTP_200_OK b') ->
        fst (Views.cancel_booking now now' db request_user bid uuid) = db).
Proof.
  intros now now' db u bid uuid Hr. unfold Views.cancel_booking.
  destruct (get_booking db bid) as [b|] eqn:Hget.
  2:{ cbn. repeat split; try discriminate. }
  pose proof (get_booking_some _ _ _ Hget) as [Hin Hid].
  destruct (Nat.eqb_spec (user b) u) as [Hu|Hu]; cbn [negb].
  2:{ cbn. repeat split; try discriminate. }
  unfold Serializers.cancel_validate.
  destruct (status_eqb (status b) cancelled) eqn:Es.
  { cbn. repeat split; try discriminate. }
  destruct (reachable_shows_exist db Hr b Hin) as (sh & Hsh). rewrite Hsh.
  destruct (negb (can_be_cancelled now sh b)) eqn:Ec.
  { cbn. repeat split; try discriminate. }
  assert (Hnow : (now < date_time sh)%Z).
  { apply negb_false_iff in Ec. unfold can_be_cancelled in Ec.
    apply andb_true_iff in Ec as [Ec _]. apply Z.gtb_lt in Ec. exact Ec. }
  destruct (BookingService.cancel_booking now' db b uuid) as [[db' b'] [r|e]] eqn:Hc.
  - destruct (cancel_booking_effect _ _ _ _ _ _ _ _ Hget Hc)
      as (Hst & (sh' & Hsh' & Hnow') & (ref & Hb' & _) & Hdb).
    destruct (cancel_booking_again _ _ _ _ _ _ _ Hc) as (-> & Hcs & _).
    cbn [fst snd]. split; [split; discriminate|]. split; [discriminate|].
    split; [discriminate|]. split.
    + intros x [= <-]. split.
      { exists b, sh'. rewrite Hb'. cbn. repeat split; trivial. congruence. }
      split; [exact Hcs|].
      assert (Hex : existsb (has_id bid) (bookings db) = true).
      { apply existsb_exists. exists b. split; [exact Hin|]. now apply has_id_true. }
      rewrite Hdb. split.
      * apply get_booking_replaced; [exact Hex|now rewrite Hb'].
      * intros n Hn. apply get_booking_other; [now rewrite Hb'|exact Hn].
    + intros H. exfalso. now apply (H _ eq_refl).
  - cbn [fst snd].
    assert (He : db' = db
                 /\ (e = FailedToCancel
                     \/ (e = PastShowCancel /\ (date_time sh <= now')%Z))).
    { revert Hc. unfold BookingService.cancel_booking. rewrite Es, Hsh.
      destruct (negb (can_be_cancelled now' sh b)) eqn:Ec'.
      - intros [= <- _ <-]. split; [reflexivity|]. right. split; [reflexivity|].
        apply negb_true_iff in Ec'. unfold can_be_cancelled in Ec'.
        apply andb_false_iff in Ec' as [Ec'|Ec'].
        + rewrite Z.gtb_ltb in Ec'. apply Z.ltb_ge in Ec'. exact Ec'.
        + destruct (status b); discriminate.
      - destruct (cancel db b uuid) as [[d x] []]; [discriminate|].
        intros [= <- _ <-]. split; [reflexivity|now left]. }
    destruct He as [-> He].
    split; [split; discriminate|]. split; [discriminate|]. split.
    + intros e' [= <-]. destruct He as [He|[He Hlate]]; [now left|right].
      split; [exact He|]. exists b, sh. repeat split; trivial.
    + split; [discriminate|reflexivity].
Qed.


(** ** A user's bookings *)

(** X17.  [my_bookings] lists only bookings of the caller: all of them
    without [status] parameter or with one that is neither "booked" nor
    "cancelled", and otherwise those with the status asked for; the
    booked and the cancelled ones add up to the full list. *)
Theorem my_bookings_listing :
  forall db request_user,
    (forall f b, In b (Views.my_bookings db request_user f) ->
                 In b (bookings db) /\ user b = request_user)
    /\ (forall b, In b (Views.my_bookings db request_user None)
                  <-> In b (bookings db) /\ user b = request_user)
    /\ (forall f, f <> "booked" -> f <> "cancelled" ->
                  Views.my_bookings db request_user (Some f)
                  = Views.my_bookings db request_user None)
    /\ (forall b, In b (Views.my_bookings db request_user (Some "booked"))
                  <-> In b (bookings db) /\ user b = request_user /\ status b = booked)
    /\ (forall b, In b (Views.my_bookings db request_user (Some "cancelled"))
                  <-> In b (bookings db) /\ user b = request_user /\ status b = cancelled)
    /\ List.length (Views.my_bookings db request_user None)
       = List.length (Views.my_bookings db request_user (Some "booked"))
         + List.length (Views.my_bookings db request_user (Some "cancelled")).
Proof.
  intros db u.
  assert (Hall : forall b, In b (Views.my_bookings db u None)
                           <-> In b (bookings db) /\ user b = u).
  { intros b. unfold Views.my_bookings. rewrite filter_In, Nat.eqb_eq. tauto. }
  assert (Hbk : forall b, In b (Views.my_bookings db u (Some "booked"))
                          <-> In b (bookings db) /\ user b = u /\ status b = booked).
  { intros b. unfold Views.my_bookings. cbn.
    rewrite !filter_In, Nat.eqb_eq, status_eqb_eq. tauto. }
  assert (Hcn : forall b, In b (Views.my_bookings db u (Some "cancelled"))
                          <-> In b (bookings db) /\ user b = u /\ status b = cancelled).
  { intros b. unfold Views.my_bookings. cbn.
    rewrite !filter_In, Nat.eqb_eq, status_eqb_eq. tauto. }
  assert (Hign : forall f, f <> "booked" -> f <> "cancelled" ->
                           Views.my_bookings db u (Some f) = Views.my_bookings db u None).
  { intros f H1 H2. unfold Views.my_bookings.
    destruct (String.eqb_spec f "booked") as [->|_]; [congruence|].
    destruct (String.eqb_spec f "cancelled") as [->|_]; [congruence|].
    repeat (let c := fresh "c" in destruct f as [|c f]; [reflexivity|];
            destruct c as [[] [] [] [] [] [] [] []]; try reflexivity);
      destruct f; try reflexivity; congruence. }
  split.
  { intros f b Hb. destruct f as [f|]; [|now apply Hall].
    destruct (String.eqb_spec f "booked") as [->|H1].
    { apply Hbk in Hb. tauto. }
    destruct (String.eqb_spec f "cancelled") as [->|H2].
    { apply Hcn in Hb. tauto. }
    rewrite (Hign f H1 H2) in Hb. now apply Hall. }
  split; [exact Hall|]. split; [exact Hign|]. split; [exact Hbk|]. split; [exact Hcn|].
  unfold Views.my_bookings. cbn.
  induction (filter (fun b => user b =? u) (bookings db)) as [|x l IH]; [reflexivity|].
  cbn [filter List.length]. destruct (status x); cbn [status_eqb filter List.length]; lia.
Qed.


(** ** The further properties on the scenario *)

Lemma seat_row_and_number_round_trip_witness :
  isupper_char "B" = true
  /\ (1 <= 12 <= 99)%Z
  /\ Utils.get_seat_row_and_number "B12" = Utils.row_and_number "B" 12.
Proof.
  split; [reflexivity|]. split; [lia|].
  exact (proj2 (seat_row_and_number_round_trip "B" 12%Z eq_refl
                  (conj (Zle_bool_imp_le 1 12 eq_refl) (Zle_bool_imp_le 12 99 eq_refl)))).
Defined.

Lemma seat_availability_consistent_witness :
  reachable Scenario.db_rebooked
  /\ get_show Scenario.db_rebooked 1 = Some Scenario.show1
  /\ BookingService.av_booked_seats
       (BookingService.get_seat_availability Scenario.db_rebooked Scenario.show1) = ["A1"]
  /\ NoDup (BookingService.av_booked_seats
              (BookingService.get_seat_availability Scenario.db_rebooked Scenario.show1)).
Proof.
  split; [exact scenario_rebooked_reachable|]. split; [reflexivity|].
  split; [reflexivity|].
  pose proof (seat_availability_consistent Scenario.db_rebooked Scenario.show1
                scenario_rebooked_reachable eq_refl) as (_ & _ & _ & H & _).
  exact H.
Defined.

Lemma validated_seat_can_be_booked_witness :
  BookingService.validate_seat_number Scenario.db_show2 " b2 " (Some Scenario.show2) = Ok "B2"
  /\ ~ In "B2" (get_booked_seat_numbers Scenario.db_show2 Scenario.show2)
  /\ snd (BookingService.create_booking 5 Scenario.db_show2 8 Scenario.show2 "B2" "4E5F6A7B")
     = Ok (mkBooking (Some 2) 8 2 "B2" booked "4E5F6A7B").
Proof.
  split; [reflexivity|].
  pose proof (validated_seat_can_be_booked Scenario.db_show2 " b2 " Scenario.show2 "B2"
                eq_refl) as (_ & _ & H1 & H2 & _).
  split; [exact H1|].
  rewrite (H2 5%Z 8 "4E5F6A7B" eq_refl eq_refl). reflexivity.
Defined.

Lemma scenario_served :
  served (fst (Views.book_seat 0 0 Scenario.db_init 7 1 (Some " a1 ") "0A1B2C3D")).
Proof. apply served_book. apply served_init. Qed.

Lemma served_seats_are_well_formed_witness :
  served (fst (Views.book_seat 0 0 Scenario.db_init 7 1 (Some " a1 ") "0A1B2C3D"))
  /\ bookings (fst (Views.book_seat 0 0 Scenario.db_init 7 1 (Some " a1 ") "0A1B2C3D"))
     = [Scenario.booking1]
  /\ well_formed_seat Scenario.booking1.
Proof.
  split; [exact scenario_served|]. split; [reflexivity|].
  pose proof (served_seats_are_well_formed _ scenario_served) as [_ H].
  apply H. now left.
Defined.

Lemma cancel_view_responses_witness :
  reachable Scenario.db_booked
  /\ Views.cancel_booking 10 11 Scenario.db_booked 7 1 ""
     = (Scenario.db_cancelled, Views.HTTP_200_OK (set_status Scenario.booking1 cancelled))
  /\ get_booking (fst (Views.cancel_booking 10 11 Scenario.db_booked 7 1 "")) 1
     = Some (set_status Scenario.booking1 cancelled).
Proof.
  split; [exact scenario_booked_reachable|]. split; [reflexivity|].
  pose proof (cancel_view_responses 10%Z 11%Z Scenario.db_booked 7 1 ""
                scenario_booked_reachable) as (_ & _ & _ & H & _).
  destruct (H (set_status Scenario.booking1 cancelled) eq_refl) as (_ & _ & H2 & _).
  exact H2.
Defined.

(** ** The seat map *)

Lemma dict_set_fresh {V} (d : list (string * V)) k v :
  ~ In k (map fst d) -> dict_set d k v = (d ++ [(k, v)])%list.
Proof.
  induction d as [|[k' v'] d IH]; cbn; [reflexivity|]. intros H.
  destruct (String.eqb_spec k' k) as [->|_]; [tauto|]. rewrite IH; tauto.
Qed.

Lemma row_loop_spec nums l total booked c acc :
  NoDup (map str nums) ->
  (forall n, In n nums -> ~ In (String l (str n)) (map fst acc)) ->
  Utils.row_loop nums l total booked c acc
  = ((acc ++ map (fun n => seat_entry booked (String l (str n)))
                 (firstn (Z.to_nat (total - c)) nums))%list,
     (c + Z.of_nat (Nat.min (List.length nums) (Z.to_nat (total - c))))%Z).
Proof.
  revert c acc. induction nums as [|n nums IH]; intros c acc Hnd Hfresh.
  - cbn. rewrite firstn_nil, app_nil_r. f_equal. lia.
  - cbn [Utils.row_loop]. inversion Hnd as [|? ? Hn Hnums]; subst.
    destruct (Z.geb_spec c total) as [Hc|Hc].
    + assert (Z.to_nat (total - c) = 0) as -> by lia.
      cbn. rewrite app_nil_r. f_equal. lia.
    + assert (Hk : Z.to_nat (total - c) = S (Z.to_nat (total - (c + 1)))) by lia.
      rewrite Hk. cbn [firstn map List.length].
      rewrite dict_set_fresh by (apply Hfresh; now left).
      rewrite IH; trivial.
      * unfold seat_entry. rewrite <- app_assoc. cbn [app]. f_equal. lia.
      * intros m Hm Hin. rewrite map_app, in_app_iff in Hin. cbn in Hin.
        destruct Hin as [Hin | [Heq | []]].
        -- apply (Hfresh m); [now right|exact Hin].
        -- injection Heq as Heq. apply Hn. rewrite Heq. now apply in_map.
Qed.

Lemma seat_nums_NoDup : NoDup (map str seat_nums).
Proof.
  assert (H : map str seat_nums = ["1"; "2"; "3"; "4"; "5"; "6"; "7"; "8"; "9"; "10"])
    by reflexivity.
  rewrite H. repeat constructor; cbn; intuition discriminate.
Qed.

Lemma row_loop_row l total booked c :
  Utils.row_loop seat_nums l total booked c []
  = (map (seat_entry booked)
         (firstn (Z.to_nat (total - c)) (map (fun n => String l (str n)) seat_nums)),
     (c + Z.of_nat (Nat.min 10 (Z.to_nat (total - c))))%Z).
Proof.
  rewrite row_loop_spec; [|apply seat_nums_NoDup|intros n _ []].
  cbn [app]. now rewrite firstn_map, map_map.
Qed.

Lemma chr_from_A_inj i j : i <= 190 -> j <= 190 -> chr_from_A i = chr_from_A j -> i = j.
Proof.
  unfold chr_from_A. intros Hi Hj H.
  apply (f_equal nat_of_ascii) in H. rewrite !nat_ascii_embedding in H by lia. lia.
Qed.

Lemma rows_loop_spec n : forall a total booked acc,
  a + n <= 191 ->
  (n = 0 \/ (10 * Z.of_nat (a + n) - 10 < total)%Z) ->
  (forall i, a <= i < a + n -> ~ In (String (chr_from_A i) EmptyString) (map fst acc)) ->
  Utils.rows_loop (seq a n) total booked (10 * Z.of_nat a)%Z acc
  = (acc ++ map (seat_row total booked) (seq a n))%list.
Proof.
  induction n as [|n IH]; intros a total booked acc Hbound Hlast Hfresh.
  - cbn. now rewrite app_nil_r.
  - destruct Hlast as [Hlast|Hlast]; [discriminate|].
    cbn [seq Utils.rows_loop map]. fold seat_nums. rewrite row_loop_row.
    fold (row_names a).
    assert (Hk : exists k, Z.to_nat (total - 10 * Z.of_nat a) = S k).
    { exists (Nat.pred (Z.to_nat (total - 10 * Z.of_nat a))). lia. }
    destruct Hk as (k & Hk).
    assert (Hrow : map (seat_entry booked)
                     (firstn (Z.to_nat (total - 10 * Z.of_nat a)) (row_names a))
                   = snd (seat_row total booked a)) by reflexivity.
    rewrite Hrow.
    destruct (snd (seat_row total booked a)) as [|e row] eqn:Erow.
    { exfalso. revert Erow. unfold seat_row. cbn [snd]. rewrite Hk. discriminate. }
    rewrite <- Erow.
    rewrite dict_set_fresh by (apply Hfresh; lia).
    assert (Hsr : (String (chr_from_A a) EmptyString, snd (seat_row total booked a))
                  = seat_row total booked a) by reflexivity.
    rewrite Hsr.
    destruct (Z.geb_spec (10 * Z.of_nat a
                          + Z.of_nat (Nat.min 10 (Z.to_nat (total - 10 * Z.of_nat a))))
                         total) as [Hc|Hc].
    + assert (n = 0) as -> by lia. reflexivity.
    + assert (Hc' : (10 * Z.of_nat a
                     + Z.of_nat (Nat.min 10 (Z.to_nat (total - 10 * Z.of_nat a)))
                     = 10 * Z.of_nat (S a))%Z) by lia.
      rewrite Hc', IH.
      * now rewrite <- app_assoc.
      * lia.
      * destruct n; [now left|right; lia].
      * intros i Hi Hin. rewrite map_app, in_app_iff in Hin.
        cbn [map fst seat_row In] in Hin.
        destruct Hin as [Hin | [Heq | []]].
        -- apply (Hfresh i); [lia|exact Hin].
        -- assert (Hchr : chr_from_A a = chr_from_A i) by congruence.
           apply chr_from_A_inj in Hchr; lia.
Qed.

Lemma generate_seat_map_rows total booked :
  (total <= 1910)%Z ->
  Utils.generate_seat_map total booked
  = map (seat_row total (match booked with Some l => l | None => [] end))
        (seq 0 (rows_needed total)).
Proof.
  intros Hmax. unfold Utils.generate_seat_map.
  assert (Hrows : Z.to_nat (total / 10 + (if (total mod 10 >? 0)%Z then 1 else 0))
                  = rows_needed total).
  { unfold rows_needed. f_equal.
    pose proof (Z.div_mod total 10 ltac:(lia)) as Hdm.
    pose proof (Z.mod_pos_bound total 10 ltac:(lia)) as Hm.
    destruct (Z.gtb_spec (total mod 10) 0) as [Hp|Hp].
    - apply (Z.div_unique _ _ _ (total mod 10 - 1)); lia.
    - assert (total mod 10 = 0)%Z as Hz by lia.
      apply (Z.div_unique _ _ _ 9); lia. }
  rewrite Hrows.
  change 0%Z with (10 * Z.of_nat 0)%Z at 1.
  rewrite rows_loop_spec; [reflexivity| | |intros i _ []].
  - unfold rows_needed.
    assert ((total + 9) / 10 < 192)%Z; [|lia].
    apply Z.div_lt_upper_bound; lia.
  - unfold rows_needed. destruct (Z.to_nat ((total + 9) / 10)) eqn:E; [now left|right].
    assert (Hq : (Z.of_nat (S n) = (total + 9) / 10)%Z) by lia.
    cbn [Nat.add]. rewrite Hq.
    pose proof (Z.mul_div_le (total + 9) 10 ltac:(lia)).
    pose proof (Z.div_mod (total + 9) 10 ltac:(lia)).
    pose proof (Z.mod_pos_bound (total + 9) 10 ltac:(lia)). lia.
Qed.

Lemma rows_needed_bounds total :
  (total <= 10 * Z.of_nat (rows_needed total))%Z
  /\ (rows_needed total = 0 \/ (10 * Z.of_nat (rows_needed total) - 10 < total)%Z).
Proof.
  unfold rows_needed.
  pose proof (Z.div_mod (total + 9) 10 ltac:(lia)) as Hdm.
  pose proof (Z.mod_pos_bound (total + 9) 10 ltac:(lia)) as Hm.
  destruct (Z.le_gt_cases 0 ((total + 9) / 10)) as [Hq|Hq].
  - rewrite Z2Nat.id by exact Hq. split; [lia|].
    destruct (Z.to_nat ((total + 9) / 10)) eqn:E; [now left|right; lia].
  - assert (Z.to_nat ((total + 9) / 10) = 0) as -> by lia. split; [lia|now left].
Qed.

Lemma length_row_names i : List.length (row_names i) = 10.
Proof. reflexivity. Qed.

Lemma seat_entries_count n : forall a total booked,
  (total <= 10 * Z.of_nat (a + n))%Z ->
  (n = 0 \/ (10 * Z.of_nat (a + n) - 10 < total)%Z) ->
  List.length (seat_entries (map (seat_row total booked) (seq a n)))
  = Z.to_nat (total - 10 * Z.of_nat a).
Proof.
  induction n as [|n IH]; intros a total booked Hle Hlast.
  - replace (a + 0) with a in Hle by lia.
    unfold seat_entries. cbn [seq map List.concat List.length]. lia.
  - destruct Hlast as [Hlast|Hlast]; [discriminate|].
    cbn [seq map]. unfold seat_entries in *. cbn [map List.concat snd seat_row].
    rewrite length_app, length_map, length_firstn, length_row_names.
    rewrite IH; [| lia | destruct n; [now left|right; lia]].
    destruct n; lia.
Qed.

Lemma In_firstn {A} (x : A) n l : In x (firstn n l) -> In x l.
Proof.
  intros H. rewrite <- (firstn_skipn n l). apply in_or_app. now left.
Qed.

Lemma seat_row_entries total booked i l row k e :
  In (l, row) [seat_row total booked i] -> In (k, e) row ->
  l = String (chr_from_A i) EmptyString
  /\ 1 <= List.length row <= 10
  /\ exists n, (1 <= n <= 10)%Z /\ k = String (chr_from_A i) (str n)
               /\ Utils.seat_number e = k
               /\ Utils.available e = negb (existsb (String.eqb k) booked).
Proof.
  intros Hrow Hin. cbn [In] in Hrow. destruct Hrow as [Hrow|[]].
  unfold seat_row in Hrow.
  set (k' := Z.to_nat (total - 10 * Z.of_nat i)) in Hrow. clearbody k'. injection Hrow as <- <-.
  split; [reflexivity|]. rewrite length_map, length_firstn, length_row_names.
  assert (Hin' := Hin). apply in_map_iff in Hin' as (name & He & Hname).
  split.
  { destruct k'; [destruct Hname|lia]. }
  unfold seat_entry in He. injection He as <- <-.
  apply In_firstn in Hname. unfold row_names in Hname.
  apply in_map_iff in Hname as (n & Hname & Hn).
  exists n. split.
  { unfold seat_nums in Hn. cbn [In] in Hn. intuition lia. }
  split; [now symmetry|]. split; reflexivity.
Qed.

Lemma seat_row_snd total booked i :
  snd (seat_row total booked i)
  = map (seat_entry booked) (firstn (Z.to_nat (total - 10 * Z.of_nat i)) (row_names i)).
Proof. reflexivity. Qed.

Lemma seat_entries_cons r (m : list (string * list (string * Utils.SeatEntry))) :
  seat_entries (r :: m) = (snd r ++ seat_entries m)%list.
Proof. reflexivity. Qed.

Lemma seat_entry_names booked l : map fst (map (seat_entry booked) l) = l.
Proof.
  rewrite map_map. cbn [seat_entry fst]. apply map_id.
Qed.

Lemma seat_names_from n : forall a total booked,
  (total <= 10 * Z.of_nat (a + n))%Z ->
  map fst (seat_entries (map (seat_row total booked) (seq a n)))
  = firstn (Z.to_nat (total - 10 * Z.of_nat a)) (flat_map row_names (seq a n)).
Proof.
  induction n as [|n IH]; intros a total booked Hle.
  - cbn [seq map flat_map]. now rewrite firstn_nil.
  - cbn [seq map flat_map]. rewrite seat_entries_cons, seat_row_snd, map_app.
    rewrite seat_entry_names, firstn_app, length_row_names.
    rewrite IH by lia. do 2 f_equal. lia.
Qed.

Lemma length_flat_rows n : forall a,
  List.length (flat_map row_names (seq a n)) = 10 * n.
Proof.
  induction n as [|n IH]; intros a; [reflexivity|].
  cbn [seq flat_map]. rewrite length_app, length_row_names, IH. lia.
Qed.

Lemma firstn_rows k r n :
  r <= n -> k <= 10 * r ->
  firstn k (flat_map row_names (seq 0 r)) = firstn k (flat_map row_names (seq 0 n)).
Proof.
  intros Hr Hk. replace n with (r + (n - r)) by lia.
  rewrite seq_app, flat_map_app, firstn_app, length_flat_rows.
  replace (k - 10 * r) with 0 by lia. now rewrite firstn_0, app_nil_r.
Qed.

Lemma seat_map_names total booked :
  (total <= 1910)%Z ->
  map fst (seat_entries (Utils.generate_seat_map total booked))
  = firstn (Z.to_nat total) all_seat_names.
Proof.
  intros Hle. rewrite generate_seat_map_rows by exact Hle.
  destruct (rows_needed_bounds total) as [Hup Hlow].
  rewrite seat_names_from by exact Hup.
  replace (total - 10 * Z.of_nat 0)%Z with total by lia.
  unfold all_seat_names. apply firstn_rows; lia.
Qed.

Lemma seat_map_entry total booked l row k e :
  (total <= 1910)%Z ->
  In (l, row) (Utils.generate_seat_map total booked) -> In (k, e) row ->
  1 <= List.length row <= 10
  /\ exists i n, i < rows_needed total /\ (1 <= n <= 10)%Z
       /\ l = String (chr_from_A i) EmptyString
       /\ k = String (chr_from_A i) (str n)
       /\ Utils.seat_number e = k
       /\ Utils.available e
          = negb (existsb (String.eqb k) (match booked with Some t => t | None => [] end)).
Proof.
  intros Hle Hrow Hin. rewrite generate_seat_map_rows in Hrow by exact Hle.
  apply in_map_iff in Hrow as (i & Hrow & Hi). apply in_seq in Hi.
  destruct (seat_row_entries total (match booked with Some t => t | None => [] end)
                             i l row k e) as (Hl & Hlen & n & Hn & Hk & He & Ha);
    [left; exact Hrow | exact Hin |].
  split; [exact Hlen|]. exists i, n. repeat split; try assumption; lia.
Qed.

Lemma seat_map_row_nonempty total booked l row :
  (total <= 1910)%Z ->
  In (l, row) (Utils.generate_seat_map total booked) -> row <> [].
Proof.
  intros Hle Hrow. rewrite generate_seat_map_rows in Hrow by exact Hle.
  apply in_map_iff in Hrow as (i & Hrow & Hi). apply in_seq in Hi.
  destruct (rows_needed_bounds total) as [Hup [H0|Hlow]]; [lia|].
  unfold seat_row in Hrow.
  set (k' := Z.to_nat (total - 10 * Z.of_nat i)) in Hrow.
  assert (Hk : 1 <= k') by (subst k'; lia). clearbody k'.
  injection Hrow as _ <-. destruct k' as [|k']; [lia|]. discriminate.
Qed.

Lemma seat_map_entries_in total booked k e :
  In (k, e) (seat_entries (Utils.generate_seat_map total booked)) ->
  exists l row, In (l, row) (Utils.generate_seat_map total booked) /\ In (k, e) row.
Proof.
  unfold seat_entries. intros Hin. apply in_concat in Hin as (row & Hrow & Hin).
  apply in_map_iff in Hrow as ([l row'] & Heq & Hrow). cbn [snd] in Heq. subst row'.
  now exists l, row.
Qed.

Lemma first_260_seat_names_valid :
  forallb Utils.validate_seat_number_format (firstn 260 all_seat_names) = true.
Proof. vm_compute. reflexivity. Qed.

Lemma seat_name_261 :
  nth_error all_seat_names 260 = Some "[1"
  /\ Utils.validate_seat_number_format "[1" = false.
Proof. split; vm_compute; reflexivity. Qed.

(** X18.  For a show of at most 1910 seats (the rows whose letter the
    model's one-byte characters can name) [generate_seat_map] lists,
    row after row, exactly the first [total_seats] names of
    A1..A10, B1..B10, ...: [total_seats] entries (none when the number
    is zero or negative), each one keyed by its own [seat_number] and
    marked available exactly when the name is not among the booked
    seats. *)
Theorem seat_map_lists_the_first_seats :
  forall total booked,
    (total <= 1910)%Z ->
    let taken := match booked with Some l => l | None => [] end in
    let seat_map := Utils.generate_seat_map total booked in
    map fst (seat_entries seat_map) = firstn (Z.to_nat total) all_seat_names
    /\ List.length (seat_entries seat_map) = Z.to_nat total
    /\ (forall k e, In (k, e) (seat_entries seat_map) ->
          Utils.seat_number e = k
          /\ Utils.available e = negb (existsb (String.eqb k) taken)).
Proof.
  intros total booked Hle taken seat_map. subst seat_map.
  split; [now apply seat_map_names|]. split.
  - rewrite <- (length_map fst), seat_map_names by exact Hle.
    rewrite length_firstn. unfold all_seat_names. rewrite length_flat_rows. lia.
  - intros k e Hin. apply seat_map_entries_in in Hin as (l & row & Hrow & Hin).
    destruct (seat_map_entry _ _ _ _ _ _ Hle Hrow Hin)
      as (_ & i & n & _ & _ & _ & _ & He & Ha).
    now split.
Qed.

Lemma seat_map_lists_the_first_seats_witness :
  (12 <= 1910)%Z
  /\ map fst (seat_entries (Utils.generate_seat_map 12 (Some ["A2"])))
     = ["A1"; "A2"; "A3"; "A4"; "A5"; "A6"; "A7"; "A8"; "A9"; "A10"; "B1"; "B2"].
Proof.
  split; [lia|].
  exact (proj1 (seat_map_lists_the_first_seats 12 (Some ["A2"]) ltac:(lia))).
Defined.

(** X19.  The rows of the seat map (at most 1910 seats): the row keys
    are the letters from A on, one for every ten seats started; no row
    is empty and none has more than ten seats; a seat's key is the
    letter of its row followed by a number from 1 to 10. *)
Theorem seat_map_rows_of_ten :
  forall total booked,
    (total <= 1910)%Z ->
    let seat_map := Utils.generate_seat_map total booked in
    map fst seat_map
    = map (fun i => String (chr_from_A i) EmptyString) (seq 0 (rows_needed total))
    /\ (forall l row, In (l, row) seat_map ->
          1 <= List.length row <= 10
          /\ forall k e, In (k, e) row ->
               exists c n, l = String c EmptyString /\ k = String c (str n)
                           /\ (1 <= n <= 10)%Z).
Proof.
  intros total booked Hle seat_map. subst seat_map. split.
  - rewrite generate_seat_map_rows by exact Hle. rewrite map_map.
    apply map_ext. reflexivity.
  - intros l row Hrow. split.
    + pose proof (seat_map_row_nonempty _ _ _ _ Hle Hrow) as Hne.
      destruct row as [|[k e] row']; [congruence|].
      exact (proj1 (seat_map_entry _ _ _ _ k e Hle Hrow (or_introl eq_refl))).
    + intros k e Hin.
      destruct (seat_map_entry _ _ _ _ _ _ Hle Hrow Hin)
        as (_ & i & n & _ & Hn & Hl & Hk & _).
      now exists (chr_from_A i), n.
Qed.

Lemma seat_map_rows_of_ten_witness :
  (25 <= 1910)%Z
  /\ map fst (Utils.generate_seat_map 25 None) = ["A"; "B"; "C"].
Proof.
  split; [lia|].
  exact (proj1 (seat_map_rows_of_ten 25 None ltac:(lia))).
Defined.

(** X20.  The seat names of the map are accepted by
    [validate_seat_number_format] exactly for shows of at most 260
    seats: from the 261st seat on the row letter is no longer a letter
    (the 27th row is named by the character after Z), so a larger show
    is offered seats that cannot be booked. *)
Theorem seat_map_names_valid_up_to_260 :
  forall total booked,
    (total <= 1910)%Z ->
    (forall k, In k (map fst (seat_entries (Utils.generate_seat_map total booked))) ->
               Utils.validate_seat_number_format k = true)
    <-> (total <= 260)%Z.
Proof.
  intros total booked Hle. rewrite seat_map_names by exact Hle. split.
  - intros Hall. destruct (Z.le_gt_cases total 260) as [H|H]; [exact H|exfalso].
    destruct seat_name_261 as [Hnth Hbad].
    assert (Hin : In "[1" (firstn (Z.to_nat total) all_seat_names));
      [|specialize (Hall _ Hin); congruence].
    apply (nth_error_In _ 260). rewrite nth_error_firstn.
    replace (260 <? Z.to_nat total) with true; [exact Hnth|].
    symmetry. apply Nat.ltb_lt. lia.
  - intros H k Hin.
    assert (Hk : In k (firstn 260 all_seat_names)).
    { replace (Z.to_nat total) with (Nat.min (Z.to_nat total) 260) in Hin by lia.
      rewrite <- firstn_firstn in Hin. now apply In_firstn in Hin. }
    pose proof first_260_seat_names_valid as Hv.
    rewrite forallb_forall in Hv. now apply Hv.
Qed.

Lemma seat_map_names_valid_up_to_260_witness :
  (261 <= 1910)%Z
  /\ ~ (forall k, In k (map fst (seat_entries (Utils.generate_seat_map 261 None))) ->
                  Utils.validate_seat_number_format k = true).
Proof.
  split; [lia|]. intros Hall.
  pose proof (proj1 (seat_map_names_valid_up_to_260 261 None ltac:(lia)) Hall). lia.
Defined.

(** ** Durations *)

Lemma string_of_uint_numeral d :
  all_chars numeral_char (NilEmpty.string_of_uint d) = true.
Proof. induction d; cbn; trivial. Qed.

Lemma str_numeral n : all_chars numeral_char (str n) = true.
Proof.
  unfold str, NilZero.string_of_int, NilZero.string_of_uint.
  destruct (Z.to_int n) as [d|d]; destruct d; cbn; trivial;
    apply string_of_uint_numeral.
Qed.

Lemma str_inj a b : str a = str b -> a = b.
Proof.
  unfold str. intros H. apply DecimalZ.to_int_inj.
  assert (Hn : forall n, NilZero.int_of_string (NilZero.string_of_int (Z.to_int n))
                         = Some (Z.to_int n)).
  { intros n. apply NilZero.isi; destruct n; cbn; try discriminate;
      intros E; injection E; apply DecimalPos.Unsigned.to_uint_nonnil. }
  pose proof (Hn a) as Ha. rewrite H, Hn in Ha. now injection Ha.
Qed.

Lemma numeral_prefix u : forall v s t,
  all_chars numeral_char u = true -> all_chars numeral_char v = true ->
  ends_numeral s = true -> ends_numeral t = true ->
  u ++ s = v ++ t -> u = v /\ s = t.
Proof.
  induction u as [|c u IH]; intros [|d v] s t Hu Hv Hs Ht H; cbn in *.
  - now split.
  - subst s. cbn in Hs. apply andb_true_iff in Hv as [Hd _].
    rewrite Hd in Hs. discriminate.
  - subst t. cbn in Ht. apply andb_true_iff in Hu as [Hc _].
    rewrite Hc in Ht. discriminate.
  - injection H as -> H. apply andb_true_iff in Hu as [_ Hu].
    apply andb_true_iff in Hv as [_ Hv].
    destruct (IH v s t Hu Hv Hs Ht H) as [-> ->]. now split.
Qed.

Lemma str_prefix a b s t :
  ends_numeral s = true -> ends_numeral t = true ->
  str a ++ s = str b ++ t -> a = b /\ s = t.
Proof.
  intros Hs Ht H.
  destruct (numeral_prefix _ _ _ _ (str_numeral a) (str_numeral b) Hs Ht H) as [Hab Hst].
  split; [now apply str_inj | exact Hst].
Qed.

Lemma format_duration_decides m :
  ((m < 60)%Z /\ Utils.format_duration m = str m ++ "min")
  \/ ((60 <= m)%Z /\ (m mod 60 = 0)%Z /\ Utils.format_duration m = str (m / 60) ++ "h")
  \/ ((60 <= m)%Z /\ (m mod 60 <> 0)%Z
      /\ Utils.format_duration m = str (m / 60) ++ "h " ++ str (m mod 60) ++ "min").
Proof.
  unfold Utils.format_duration.
  destruct (Z.ltb_spec m 60) as [H|H]; [left; now split|right].
  destruct (Z.eqb_spec (m mod 60) 0) as [H0|H0]; [left|right]; now repeat split.
Qed.

Lemma format_duration_inj m m' :
  Utils.format_duration m = Utils.format_duration m' -> m = m'.
Proof.
  intros H.
  pose proof (Z.div_mod m 60 ltac:(lia)) as Hm.
  pose proof (Z.div_mod m' 60 ltac:(lia)) as Hm'.
  destruct (format_duration_decides m) as [[Hlt E]|[(Hge & H0 & E)|(Hge & H0 & E)]];
    destruct (format_duration_decides m') as [[Hlt' E']|[(Hge' & H0' & E')|(Hge' & H0' & E')]];
    rewrite E, E' in H; apply str_prefix in H; try reflexivity;
    destruct H as [Hq Hs]; try discriminate; try lia.
  injection Hs as Hs. apply str_prefix in Hs; try reflexivity.
  destruct Hs as [Hr _]. lia.
Qed.

(** X21.  [format_duration] is injective on the integers: two
    different durations are never displayed by the same text. *)
Theorem distinct_durations_print_differently :
  forall m m',
    m <> m' -> Utils.format_duration m <> Utils.format_duration m'.
Proof.
  intros m m' Hne H. apply Hne. now apply format_duration_inj.
Qed.

Lemma distinct_durations_print_differently_witness :
  (90 <> 150)%Z /\ "1h 30min" <> "2h 30min".
Proof.
  split; [lia|].
  exact (distinct_durations_print_differently 90 150 ltac:(lia)).
Defined.

(** ** The properties on ASCII data, on the scenario *)

Lemma create_booking_success_conditions_witness :
  isascii "a1" = true
  /\ exists db' b,
       BookingService.create_booking 0 Scenario.db_init 7 Scenario.show1 "a1" "0A1B2C3D"
       = (db', Ok b).
Proof.
  split; [reflexivity|].
  apply (proj1 (create_booking_success_conditions 0%Z Scenario.db_init 7 Scenario.show1
                  "a1" "0A1B2C3D" eq_refl)).
  repeat split; try reflexivity. cbn. lia.
Defined.

Lemma serializer_accepts_witness :
  isascii_data (Some " a1 ") = true
  /\ Serializers.is_valid 0 Scenario.db_init Scenario.show1 (Some " a1 ")
     = Serializers.validated "A1"
  /\ Utils.validate_seat_number_format " a1 " = true.
Proof.
  split; [reflexivity|]. split; [reflexivity|].
  destruct (serializer_accepts 0%Z Scenario.db_init Scenario.show1 (Some " a1 ") eq_refl)
    as [_ H].
  destruct (proj1 (H "A1") eq_refl) as (raw & Hraw & _ & _ & Hv & _).
  injection Hraw as <-. exact Hv.
Defined.

Lemma book_seat_responses_witness :
  isascii_data (Some " a1 ") = true
  /\ Views.book_seat 0 0 Scenario.db_init 7 1 (Some " a1 ") "0A1B2C3D"
     = (Scenario.db_booked, Views.Created Scenario.booking1)
  /\ Utils.validate_seat_number_format (seat_number Scenario.booking1) = true.
Proof.
  split; [reflexivity|]. split; [reflexivity|].
  destruct (book_seat_responses 0%Z 0%Z Scenario.db_init 7 1 (Some " a1 ") "0A1B2C3D"
              eq_refl) as (_ & H & _).
  destruct (H Scenario.booking1 eq_refl) as (_ & _ & _ & _ & _ & _ & Hv & _).
  exact Hv.
Defined.
